(** * Autophone: build acquisition cache and fleet orchestrator

    A shallow embedding of [builds.py] (class [BuildCache]) and of
    [autophone.py] (class [AutoPhone]), with the properties of the eviction
    sweep, of build acquisition, of build discovery, of the liveness sweep
    and of the job pipeline.

    Conventions.  Python values that matter are Rocq data: [str] is
    [string], a [dict] is a [gmap], [None] is an [option].  A call that
    can raise returns a [result]; code that touches the disk, the network
    or the log threads a [world] through a small state-and-exception
    monad.  Times are integers: microseconds for file modification times
    (the resolution of [datetime]), seconds for build timestamps. *)

From Stdlib Require Import ZArith Ascii String List Lia.
From stdpp Require Import base tactics option list strings pretty gmap sorting.

Local Open Scope string_scope.
Local Open Scope Z_scope.

(** ** Python results and exceptions *)

Module Py.

(** What [ioerror.strerror], [x.strerror.strerror] and [x.message] can
    be: the attributes of an [EnvironmentError] are whatever its
    constructor was given. *)
Inductive pyobj : Type :=
  | PNone
  | PStr (s : string)
  | PInt (n : Z)
  | PEnvError (errno strerror : pyobj)   (* IOError, OSError, socket.error *)
  | PException (message : string).       (* any other exception, e.g. ftplib.error_perm *)

Inductive exn : Type :=
  | IOError (errno strerror : pyobj)
  | BadZipfile
  | AttributeError (msg : string)
  | NameError (msg : string)
  | UnboundLocalError (msg : string)
  | KeyError (key : string)
  | NoSectionError (section : string)
  | NoOptionError (option section : string)
  | ValueError (msg : string)
  | IndexError (msg : string)
  | SocketError (msg : string)
  | TypeError (msg : string)
  | OtherError (msg : string).

Inductive result (A : Type) : Type :=
  | Ok (a : A)
  | Raise (e : exn).
Arguments Ok {A} a.
Arguments Raise {A} e.

Definition type_name (o : pyobj) : string :=
  match o with
  | PNone => "NoneType"
  | PStr _ => "str"
  | PInt _ => "int"
  | PEnvError _ _ => "IOError"
  | PException _ => "error_perm"
  end.

Definition no_attribute (o : pyobj) (attr : string) : exn :=
  AttributeError ("'" +:+ type_name o +:+ "' object has no attribute '" +:+ attr +:+ "'").

(** [o.strerror]: only environment errors carry it. *)
Definition getattr_strerror (o : pyobj) : result pyobj :=
  match o with
  | PEnvError _ s => Ok s
  | _ => Raise (no_attribute o "strerror")
  end.

(** [o.message]: every exception of Python 2 has it; it is the empty
    string when the exception was built from more than one argument. *)
Definition getattr_message (o : pyobj) : result pyobj :=
  match o with
  | PEnvError _ _ => Ok (PStr "")
  | PException m => Ok (PStr m)
  | _ => Raise (no_attribute o "message")
  end.

(** [needle in s] for two strings. *)
Fixpoint str_contains (needle s : string) : bool :=
  String.prefix needle s ||
  match s with
  | EmptyString => false
  | String _ s' => str_contains needle s'
  end.

(** [needle in o], with a string on the left. *)
Definition str_in (needle : string) (o : pyobj) : result bool :=
  match o with
  | PStr s => Ok (str_contains needle s)
  | _ => Raise (TypeError ("argument of type '" +:+ type_name o +:+ "' is not iterable"))
  end.

(** A state-and-exception monad over an arbitrary state. *)
Definition M (S A : Type) : Type := S → result A * S.

Definition ret {S A} (a : A) : M S A := λ s, (Ok a, s).
Definition raise {S A} (e : exn) : M S A := λ s, (Raise e, s).
Definition bind {S A B} (m : M S A) (k : A → M S B) : M S B :=
  λ s, match m s with
       | (Ok a, s') => k a s'
       | (Raise e, s') => (Raise e, s')
       end.
Definition modify {S} (f : S → S) : M S unit := λ s, (Ok tt, f s).
Definition gets {S A} (f : S → A) : M S A := λ s, (Ok (f s), s).
Definition lift {S A} (r : result A) : M S A := λ s, (r, s).

(** [try: m except: h] where [h] decides which exceptions it handles. *)
Definition try_except {S A} (m : M S A) (h : exn → option (M S A)) : M S A :=
  λ s, match m s with
       | (Ok a, s') => (Ok a, s')
       | (Raise e, s') =>
           match h e with
           | Some k => k s'
           | None => (Raise e, s')
           end
       end.

End Py.

Import Py.

Declare Scope py_scope.
Delimit Scope py_scope with py.
Notation "'let*' x ':=' m 'in' k" := (Py.bind m (λ x, k))
  (at level 10, x name, m at level 100, k at level 200) : py_scope.
Notation "'run' m 'in' k" := (Py.bind m (λ _, k))
  (at level 10, m at level 100, k at level 200) : py_scope.

(** ** Strings: the library calls the cache makes *)

Module Str.

Definition ends_with (suffix s : string) : bool :=
  String.prefix (String.rev suffix) (String.rev s).

Definition lower_char (c : ascii) : ascii :=
  let n := Ascii.nat_of_ascii c in
  if bool_decide (65 ≤ n ≤ 90)%nat then Ascii.ascii_of_nat (n + 32) else c.

(** [s.lower()] *)
Fixpoint lower (s : string) : string :=
  match s with
  | String c s' => String (lower_char c) (lower s')
  | EmptyString => ""
  end.

(** [s] between double quotes. *)
Definition quoted (s : string) : string :=
  String (Ascii.ascii_of_nat 34) (s +:+ String (Ascii.ascii_of_nat 34) "").

(** [str.join(sep, l)] *)
Fixpoint join (sep : string) (l : list string) : string :=
  match l with
  | [] => ""
  | [x] => x
  | x :: l' => x +:+ sep +:+ join sep l'
  end.

Definition starts_with (p s : string) : bool := String.prefix p s.

(** [os.path.join a b] of [posixpath], for two components. *)
Definition os_path_join (a b : string) : string :=
  if starts_with "/" b then b
  else if bool_decide (a = "") || ends_with "/" a then a +:+ b
  else a +:+ "/" +:+ b.

Definition newline : ascii := Ascii.ascii_of_nat 10.

Fixpoint drop_while (p : ascii → bool) (s : string) : string :=
  match s with
  | String c s' => if p c then drop_while p s' else s
  | EmptyString => s
  end.

Fixpoint take_while (p : ascii → bool) (s : string) : string :=
  match s with
  | String c s' => if p c then String c (take_while p s') else ""
  | EmptyString => ""
  end.

(** [s.strip()] *)
Definition strip (s : string) : string :=
  String.rev (drop_while Ascii.is_space (String.rev (drop_while Ascii.is_space s))).

(** [s.split(' ')[-1]]: what follows the last space. *)
Definition after_last_space (s : string) : string :=
  String.rev (take_while (λ c, negb (bool_decide (c = " "%char))) (String.rev s)).

Fixpoint drop (n : nat) (s : string) : string :=
  match n, s with
  | S n', String _ s' => drop n' s'
  | _, _ => s
  end.

Fixpoint take (n : nat) (s : string) : string :=
  match n, s with
  | S n', String c s' => String c (take n' s')
  | _, _ => ""
  end.

(** [s] without the suffix, when it ends with it. *)
Definition strip_suffix (suffix s : string) : option string :=
  if ends_with suffix s
  then Some (String.rev (drop (String.length suffix) (String.rev s)))
  else None.

Fixpoint has_newline (s : string) : bool :=
  match s with
  | String c s' => bool_decide (c = newline) || has_newline s'
  | EmptyString => false
  end.

Definition is_digit (c : ascii) : bool :=
  match Ascii.is_nat c with Some _ => true | None => false end.

Fixpoint digits_value (acc : Z) (s : string) : option Z :=
  match s with
  | EmptyString => Some acc
  | String c s' =>
      match Ascii.is_nat c with
      | Some d => digits_value (10 * acc + Z.of_nat d) s'
      | None => None
      end
  end.

(** [int(s)] for a string without surrounding blanks: an optional sign
    and at least one decimal digit. *)
Definition int (s : string) : option Z :=
  match s with
  | EmptyString => None
  | String "-" (String c s') => Z.opp <$> digits_value 0 (String c s')
  | String "+" (String c s') => digits_value 0 (String c s')
  | _ => digits_value 0 s
  end.

(** ['%02d' % n] *)
Definition pad2 (n : Z) : string :=
  if bool_decide (0 ≤ n < 10) then "0" +:+ pretty n else pretty n.

(** [urlparse.urlparse(d)] on [scheme://netloc/path]: the scheme, the
    network location and the path from its first slash on. *)
Fixpoint split_scheme (s : string) : option (string * string) :=
  match s with
  | EmptyString => None
  | String c s' =>
      if String.prefix "://" s then Some ("", drop 3 s)
      else (λ p, (String c p.1, p.2)) <$> split_scheme s'
  end.

Definition urlparse (d : string) : string * string * string :=
  match split_scheme d with
  | Some (scheme, rest) =>
      let netloc := take_while (λ c, negb (bool_decide (c = "/"%char))) rest in
      (scheme, netloc, drop (String.length netloc) rest)
  | None => ("", "", d)
  end.

(** [re.sub('.apk$', repl, s)].  The pattern is one character other
    than a newline followed by [apk], at the end of the string or just
    before a final newline; at most one place can match. *)
Definition re_sub_apk (repl s : string) : string :=
  match String.rev s with
  | String k (String p (String a (String c r))) =>
      if bool_decide (k = "k"%char ∧ p = "p"%char ∧ a = "a"%char ∧ c ≠ newline)
      then String.rev r +:+ repl
      else
        match r with
        | String c' r' =>
            if bool_decide (k = newline ∧ p = "k"%char ∧ a = "p"%char
                            ∧ c = "a"%char ∧ c' ≠ newline)
            then String.rev r' +:+ repl +:+ String newline ""
            else s
        | EmptyString => s
        end
  | _ => s
  end.

(** [base64.b64encode]. *)
Definition b64_alphabet : string :=
  "ABCDEFGHIJKLMNOPQRSTUVWXYZabcdefghijklmnopqrstuvwxyz0123456789+/".

Definition b64_char (n : N) : ascii :=
  match String.get (N.to_nat n) b64_alphabet with
  | Some c => c
  | None => "="%char
  end.

Definition byte_of (c : ascii) : N := Ascii.N_of_ascii c.

Fixpoint b64encode (s : string) : string :=
  match s with
  | EmptyString => ""
  | String c1 EmptyString =>
      let n := N.shiftl (byte_of c1) 16 in
      String (b64_char (N.land (N.shiftr n 18) 63))
        (String (b64_char (N.land (N.shiftr n 12) 63)) "==")
  | String c1 (String c2 EmptyString) =>
      let n := N.lor (N.shiftl (byte_of c1) 16) (N.shiftl (byte_of c2) 8) in
      String (b64_char (N.land (N.shiftr n 18) 63))
        (String (b64_char (N.land (N.shiftr n 12) 63))
           (String (b64_char (N.land (N.shiftr n 6) 63)) "="))
  | String c1 (String c2 (String c3 rest)) =>
      let n := N.lor (N.lor (N.shiftl (byte_of c1) 16) (N.shiftl (byte_of c2) 8))
                     (byte_of c3) in
      String (b64_char (N.land (N.shiftr n 18) 63))
        (String (b64_char (N.land (N.shiftr n 12) 63))
           (String (b64_char (N.land (N.shiftr n 6) 63))
              (String (b64_char (N.land n 63)) (b64encode rest))))
  end.

End Str.


(** ** builds.py: the build acquisition cache *)

Module Builds.

(** A downloaded file: arbitrary bytes, or a zip archive with its
    members in order; a member without data is one whose stored
    checksum does not match, so that extracting it raises
    [zipfile.BadZipfile]. *)
Inductive content : Type :=
  | Raw (data : string)
  | Zip (members : list (string * option string)).

(** One directory under the cache root: [build.apk], the [lastused]
    marker with its modification time in microseconds, [symbols/],
    [tests/], [robocop.apk] and [fennec_ids.txt].  An entry of the cache
    root that is not a build directory has none of these. *)
Record entry : Type := Entry {
  build_apk : option content;
  lastused : option Z;
  symbols : option (gmap string string);
  tests : option (gmap string string);
  robocop_apk : option content;
  fennec_ids_txt : option content
}.

Definition empty_dir : entry := Entry None None None None None None.

(** A [datetime.datetime]: its calendar fields, counted in microseconds
    from 1970-01-01 00:00:00, and the offset of its [tzinfo] when it has
    one. *)
Record datetime : Type := Datetime {
  wall : Z;
  utcoffset : option Z
}.

Inductive level : Type := DEBUG | INFO | WARNING | ERROR.

Inductive log_record : Type :=
  | Log (lvl : level) (msg : string)
  | LogTraceback (lvl : level)            (* logging.error(traceback.format_exc()) *)
  | LogDump (lvl : level) (c : content)   (* logging.debug(badzipfile.read()) *)
  | LogWindow (lvl : level) (start_time end_time : datetime).
                                          (* 'Finding most recent build between %s and %s...' *)

(** Which file a [urllib.urlretrieve] call is for (the download probe). *)
Inductive artifact : Type := BuildApk | Symbols | Tests | Robocop | FennecIds.

Global Instance artifact_eq_dec : EqDecision artifact.
Proof. solve_decision. Defined.

(** The mutable surroundings of a [BuildCache]: the directories under
    [self.cache_dir], the files made by [NamedTemporaryFile(delete=False)],
    the log, the downloads made so far, the content of [lines.out] and
    the reading of [datetime.datetime.now()], local calendar time in
    microseconds.  File modification times are on the same axis: the
    offset of the local zone is taken to be constant. *)
Record world : Type := World {
  cache : gmap string entry;
  tmp : gmap nat content;
  log : list log_record;
  fetched : list (artifact * string);
  lines_out : option string;
  now : Z
}.

Definition set_cache (f : gmap string entry → gmap string entry) (w : world) : world :=
  World (f (cache w)) (tmp w) (log w) (fetched w) (lines_out w) (now w).
Definition set_tmp (f : gmap nat content → gmap nat content) (w : world) : world :=
  World (cache w) (f (tmp w)) (log w) (fetched w) (lines_out w) (now w).
Definition add_log (r : log_record) (w : world) : world :=
  World (cache w) (tmp w) (log w ++ [r]) (fetched w) (lines_out w) (now w).
Definition add_fetched (a : artifact) (url : string) (w : world) : world :=
  World (cache w) (tmp w) (log w) (fetched w ++ [(a, url)]) (lines_out w) (now w).
Definition set_lines_out (s : string) (w : world) : world :=
  World (cache w) (tmp w) (log w) (fetched w) (Some s) (now w).

(** What [urllib.urlretrieve] does with a URL: the file arrives, or an
    [IOError] is raised after some bytes may have been written. *)
Inductive fetch_result : Type :=
  | Fetched (c : content)
  | FetchFailed (partial : content) (errno strerror : pyobj).

(** The library and the outside world, as the cache sees them:
    [os.listdir] gives the names under the cache root in some order;
    the network answers the download of a URL, given how many downloads
    were made before; [urlparse.urljoin]; an FTP server [netloc] lists a
    directory ([ftplib.FTP(netloc)], [login()], [dir(path, callback)]);
    [datetime.strptime] gives the calendar fields in seconds, or nothing
    where it raises [ValueError]; [pacific_lmt] is the offset in seconds
    that [replace(tzinfo=pytz.timezone('US/Pacific'))] attaches, and
    [pacific_utcoffset] the offset of that zone at a given instant. *)
Record environ : Type := Environ {
  os_listdir : gmap string entry → list string;
  network : nat → string → fetch_result;
  urljoin : string → string → string;
  ftp_dir : string → string → result (list string);
  strptime : string → string → option Z;
  pacific_lmt : Z;
  pacific_utcoffset : Z → Z
}.

Record BuildCache : Type := {
  repos : list string;
  buildtypes : list string;
  cache_dir : string;
  enable_unittests : bool;
  override_build_dir : option string
}.

Definition MAX_NUM_BUILDS : nat := 20.
Definition EXPIRE_AFTER_SECONDS : Z := 60 * 60 * 24.

Definition logging (lvl : level) (msg : string) : M world unit :=
  modify (add_log (Log lvl msg)).
Definition logging_traceback (lvl : level) : M world unit :=
  modify (add_log (LogTraceback lvl)).

(** *** [clean_cache] *)

(** The names under the cache root are single path components, as
    [os.listdir] gives them.  [keep_build] reads the clock for every
    name; one sweep is taken to happen at one instant, [now]. *)

(** [os.stat(lastused_path(d)).st_mtime], when the marker exists. *)
Definition lastused_mtime (w : world) (d : string) : option Z :=
  cache w !! d ≫= lastused.

Definition keep_build (preserve : list string) (w : world) (d : string) : bool :=
  if negb (bool_decide (preserve = [])) && bool_decide (d ∈ preserve) then
    (* specifically keep this build *)
    true
  else
    match lastused_mtime w d with
    | None =>
        (* probably not a build dir *)
        true
    | Some mtime =>
        (* too new *)
        bool_decide (now w - mtime ≤ 1000 * 1000 * EXPIRE_AFTER_SECONDS)
    end.

(** The list comprehension: every listed name that is not kept, with
    the modification time of its marker.  [keep_build] has answered
    [False] only where the marker exists, so [os.stat] cannot fail. *)
Definition expired_builds (env : environ) (preserve : list string) (w : world)
    : list (string * Z) :=
  omap (λ x, if keep_build preserve w x then None
             else (λ t, (x, t)) <$> lastused_mtime w x)
       (os_listdir env (cache w)).

(** [builds.sort(key=lambda x: x[1])]: a stable sort on the time. *)
Fixpoint insert_by_mtime (b : string * Z) (l : list (string * Z)) : list (string * Z) :=
  match l with
  | [] => [b]
  | c :: l' => if bool_decide (b.2 ≤ c.2) then b :: c :: l' else c :: insert_by_mtime b l'
  end.

Definition sort_by_mtime (l : list (string * Z)) : list (string * Z) :=
  foldr insert_by_mtime [] l.

Definition rmtree (d : string) : M world unit := modify (set_cache (delete d)).

(** The [while] loop: pop the oldest build and delete its directory
    until at most [MAX_NUM_BUILDS] are left in the list. *)
Fixpoint expire (builds : list (string * Z)) : M world unit :=
  match builds with
  | [] => ret tt
  | b :: rest =>
      if bool_decide (MAX_NUM_BUILDS < length builds)%nat then
        (run logging INFO ("Expiring " +:+ b.1) in
         run rmtree b.1 in
         expire rest)%py
      else ret tt
  end.

Definition clean_cache (env : environ) (preserve : list string) : M world unit :=
  (let* builds := gets (expired_builds env preserve) in
   expire (sort_by_mtime builds))%py.

(** *** [get] *)

Definition with_build_apk (c : content) (e : entry) : entry :=
  Entry (Some c) (lastused e) (symbols e) (tests e) (robocop_apk e) (fennec_ids_txt e).
Definition with_lastused (t : Z) (e : entry) : entry :=
  Entry (build_apk e) (Some t) (symbols e) (tests e) (robocop_apk e) (fennec_ids_txt e).
Definition with_symbols (d : gmap string string) (e : entry) : entry :=
  Entry (build_apk e) (lastused e) (Some d) (tests e) (robocop_apk e) (fennec_ids_txt e).
Definition with_tests (d : gmap string string) (e : entry) : entry :=
  Entry (build_apk e) (lastused e) (symbols e) (Some d) (robocop_apk e) (fennec_ids_txt e).
Definition with_robocop_apk (c : content) (e : entry) : entry :=
  Entry (build_apk e) (lastused e) (symbols e) (tests e) (Some c) (fennec_ids_txt e).
Definition with_fennec_ids_txt (c : content) (e : entry) : entry :=
  Entry (build_apk e) (lastused e) (symbols e) (tests e) (robocop_apk e) (Some c).

(** [if self.override_build_dir:] is false for [None] and for the
    empty string. *)
Definition truthy (o : option string) : bool :=
  match o with
  | Some s => negb (bool_decide (s = ""))
  | None => false
  end.

(** [os.path.exists] of a file or directory [field] inside entry [d]. *)
Definition exists_in {A} (field : entry → option A) (d : string) : M world bool :=
  gets (λ w, bool_decide (is_Some (cache w !! d ≫= field))).

(** [if not os.path.exists(cache_build_dir): os.makedirs(cache_build_dir)] *)
Definition ensure_dir (d : string) : M world unit :=
  (let* there := gets (λ w, bool_decide (is_Some (cache w !! d))) in
   if there then ret tt else modify (set_cache (<[d := empty_dir]>)))%py.

(** [tmpf = tempfile.NamedTemporaryFile(delete=False); tmpf.close()]:
    an empty file under a name not in use. *)
Definition NamedTemporaryFile : M world nat :=
  λ w, let n := fresh (dom (tmp w)) in (Ok n, set_tmp (<[n := Raw ""]>) w).

Definition os_unlink (tmpf : nat) : M world unit := modify (set_tmp (delete tmpf)).

(** [urllib.urlretrieve(url, tmpf.name)] *)
Definition urlretrieve (env : environ) (what : artifact) (url : string) (tmpf : nat)
    : M world unit :=
  λ w, match network env (length (fetched w)) url with
       | Fetched c =>
           (Ok tt, add_fetched what url (set_tmp (<[tmpf := c]>) w))
       | FetchFailed partial errno strerror =>
           (Raise (IOError errno strerror),
            add_fetched what url (set_tmp (<[tmpf := partial]>) w))
       end.

(** [os.rename(tmpf.name, path)] where [path] is a file of entry [d]. *)
Definition os_rename (tmpf : nat) (d : string) (place : content → entry → entry)
    : M world unit :=
  λ w, match tmp w !! tmpf with
       | Some c => (Ok tt, set_cache (alter (place c) d) (set_tmp (delete tmpf) w))
       | None => (Raise (OtherError "OSError: No such file or directory"), w)
       end.

(** [file(os.path.join(cache_build_dir, 'lastused'), 'w')]: the marker
    is created or truncated, and its modification time is now. *)
Definition touch_lastused (d : string) : M world unit :=
  λ w, (Ok tt, set_cache (alter (with_lastused (now w)) d) w).

(** [zipfile.ZipFile(tmpf.name)] *)
Definition ZipFile (tmpf : nat) : M world (list (string * option string)) :=
  λ w, match tmp w !! tmpf with
       | Some (Zip members) => (Ok members, w)
       | Some (Raw _) => (Raise BadZipfile, w)
       | None => (Raise (IOError (PInt 2) (PStr "No such file or directory")), w)
       end.

(** [zipfile.extractall(path)]: the members are written in order,
    creating the directory at the first one; a member with a bad
    checksum raises after the directory was made. *)
Fixpoint extractall (members : list (string * option string)) (d : string)
    (dir : entry → option (gmap string string))
    (place : gmap string string → entry → entry) : M world unit :=
  match members with
  | [] => ret tt
  | (name, data) :: rest =>
      let write (f : gmap string string → gmap string string) : M world unit :=
        modify (set_cache (alter (λ e, place (f (default ∅ (dir e))) e) d)) in
      match data with
      | Some bytes =>
          (run write (<[name := bytes]>) in extractall rest d dir place)%py
      | None => (run write id in raise BadZipfile)%py
      end
  end.

(** The shape shared by the four downloads that abort the acquisition:
    [[
      tmpf = tempfile.NamedTemporaryFile(delete=False)
      tmpf.close()
      try:
          urllib.urlretrieve(url, tmpf.name)
      except IOError:
          os.unlink(tmpf.name)
          logging.error(msg)
          logging.error(traceback.format_exc())
          return None
    ]]
    The result is the temporary file, or [None] where the source
    returns [None] from [get]. *)
Definition retrieve_or_return_None (env : environ) (what : artifact) (url msg : string)
    : M world (option nat) :=
  (let* tmpf := NamedTemporaryFile in
   try_except
     (run urlretrieve env what url tmpf in ret (Some tmpf))
     (λ e, match e with
           | IOError _ _ =>
               Some (run os_unlink tmpf in
                     run logging ERROR msg in
                     run logging_traceback ERROR in
                     ret None)
           | _ => None
           end))%py.

(** The best-effort download of the symbols (lines 244 to 266). *)
Definition fetch_symbols (env : environ) (buildurl build_dir : string) : M world unit :=
  (let* tmpf := NamedTemporaryFile in
   (* XXX: assumes fixed buildurl-> symbols_url mapping *)
   let symbols_url := Str.re_sub_apk ".crashreporter-symbols.zip" buildurl in
   run try_except
     (run urlretrieve env Symbols symbols_url tmpf in
      let* symbols_zipfile := ZipFile tmpf in
      extractall symbols_zipfile build_dir symbols with_symbols)
     (λ e, match e with
           | IOError _ ioerror_strerror =>
               Some (let* o1 := lift (getattr_strerror ioerror_strerror) in
                     let* o2 := lift (getattr_message o1) in
                     let* missing := lift (str_in "550 Failed to change directory" o2) in
                     if missing then
                       logging INFO ("No symbols found: " +:+ symbols_url +:+ ".")
                     else
                       run logging ERROR
                             ("IO Error retrieving symbols: " +:+ symbols_url +:+ ".") in
                       logging_traceback ERROR)
           | BadZipfile =>
               Some (run logging INFO
                           ("Ignoring zipfile.BadZipFile Error retrieving symbols: "
                            +:+ symbols_url +:+ ".") in
                     λ w, match tmp w !! tmpf with
                          | Some c => (Ok tt, add_log (LogDump DEBUG c) w)
                          | None => (Ok tt, w)
                          end)
           | _ => None
           end) in
   os_unlink tmpf)%py.

(** The tests package and its two companions (lines 270 to 312); the
    result is [false] where the source returns [None] from [get]. *)
Definition fetch_tests (env : environ) (buildurl build_dir : string) : M world bool :=
  (* XXX: assumes fixed buildurl-> tests_url mapping *)
  (let tests_url := Str.re_sub_apk ".tests.zip" buildurl in
   let* t := retrieve_or_return_None env Tests tests_url
               ("IO Error retrieving tests: " +:+ tests_url +:+ ".") in
   match t with
   | None => ret false
   | Some tmpf =>
       let* tests_zipfile := ZipFile tmpf in
       run extractall tests_zipfile build_dir tests with_tests in
       run os_unlink tmpf in
       (* XXX: assumes fixed buildurl-> robocop mapping *)
       let robocop_url := urljoin env buildurl "robocop.apk" in
       let* t := retrieve_or_return_None env Robocop robocop_url
                   ("IO Error retrieving robocop.apk: " +:+ robocop_url +:+ ".") in
       match t with
       | None => ret false
       | Some tmpf =>
           run os_rename tmpf build_dir with_robocop_apk in
           (* XXX: assumes fixed buildurl-> fennec_ids.txt mapping *)
           let fennec_ids_url := urljoin env buildurl "fennec_ids.txt" in
           let* t := retrieve_or_return_None env FennecIds fennec_ids_url
                       ("IO Error retrieving fennec_ids.txt: " +:+ fennec_ids_url +:+ ".") in
           match t with
           | None => ret false
           | Some tmpf =>
               run os_rename tmpf build_dir with_fennec_ids_txt in
               ret true
           end
       end
   end)%py.

(** The primary artifact (lines 229 to 240); the result is [false]
    where the source returns [None] from [get]. *)
Definition fetch_build (env : environ) (buildurl build_dir : string) : M world bool :=
  (* retrieve to temporary file then move over, so we don't end
     up with half a file if it aborts *)
  (let* t := retrieve_or_return_None env BuildApk buildurl
               ("IO Error retrieving build: " +:+ buildurl +:+ ".") in
   match t with
   | None => ret false
   | Some tmpf => run os_rename tmpf build_dir with_build_apk in ret true
   end)%py.

(** [get].  The cache key, [base64.b64encode(buildurl)], names the
    directory of the build under the cache root; it is taken as one
    path component (a [/] in it, which base64 can produce, would make
    [os.path.join] nest the directory). *)
Definition get (env : environ) (self : BuildCache) (buildurl : string)
    (enable_unittests : bool) (force : bool) : M world (option string) :=
  if truthy (override_build_dir self) then ret (override_build_dir self)
  else
    (let build_dir := Str.b64encode buildurl in
     run clean_cache env [build_dir] in
     let cache_build_dir := Str.os_path_join (cache_dir self) build_dir in
     run ensure_dir build_dir in
     let* have_build := exists_in build_apk build_dir in
     let* proceed :=
       (if force || negb have_build then fetch_build env buildurl build_dir
        else ret true) in
     if negb proceed then ret None
     else
       run touch_lastused build_dir in
       let* have_symbols := exists_in symbols build_dir in
       run (if force || negb have_symbols then fetch_symbols env buildurl build_dir
            else ret tt) in
       if enable_unittests then
         let* have_tests := exists_in tests build_dir in
         if (force || negb have_tests) && enable_unittests then
           let* fetched_all := fetch_tests env buildurl build_dir in
           if fetched_all then ret (Some cache_build_dir) else ret None
         else ret (Some cache_build_dir)
       else ret (Some cache_build_dir))%py.

(** *** Build locations: [Nightly] and [Tinderbox] *)

Definition usec : Z := 1000 * 1000.

(** The point in time of an aware [datetime]; aware values compare by it. *)
Definition instant (d : datetime) : Z := wall d - default 0 (utcoffset d).

(** [d.replace(tzinfo=pytz.timezone('US/Pacific'))] *)
Definition replace_tzinfo_pacific (env : environ) (d : datetime) : datetime :=
  Datetime (wall d) (Some (pacific_lmt env * usec)).

(** [datetime.datetime.fromtimestamp(ts, pytz.timezone('US/Pacific'))] *)
Definition fromtimestamp_pacific (env : environ) (ts : Z) : datetime :=
  Datetime ((ts + pacific_utcoffset env ts) * usec) (Some (pacific_utcoffset env ts * usec)).

(** The proleptic Gregorian date of a day counted from 1970-01-01. *)
Definition civil_from_days (days : Z) : Z * Z * Z :=
  let z := days + 719468 in
  let era := z `div` 146097 in
  let doe := z - era * 146097 in
  let yoe := (doe - doe `div` 1460 + doe `div` 36524 - doe `div` 146096) `div` 365 in
  let doy := doe - (365 * yoe + yoe `div` 4 - yoe `div` 100) in
  let mp := (5 * doy + 2) `div` 153 in
  let d := doy - (153 * mp + 2) `div` 5 + 1 in
  let m := if bool_decide (mp < 10) then mp + 3 else mp - 9 in
  let y := yoe + era * 400 + (if bool_decide (m ≤ 2) then 1 else 0) in
  (y, m, d).

Definition year (d : datetime) : Z := (civil_from_days (wall d `div` (86400 * usec))).1.1.
Definition month (d : datetime) : Z := (civil_from_days (wall d `div` (86400 * usec))).1.2.

(** The two build locations, [Nightly] and [Tinderbox] objects. *)
Inductive BuildLocation : Type := Nightly | Tinderbox.

Definition nightly_ftpdir (year month : Z) : string :=
  "ftp://ftp.mozilla.org/pub/mobile/nightly/" +:+ pretty year +:+ "/"
  +:+ Str.pad2 month +:+ "/".

(** The [while] loop of [Nightly.ftpdirs]; every round moves one month
    on, so the months from the start to the end bound the rounds. *)
Fixpoint nightly_ftpdirs_loop (rounds : nat) (y m end_year end_month : Z) : list string :=
  match rounds with
  | O => []
  | S rounds' =>
      if bool_decide (y < end_year ∨ (y = end_year ∧ m ≤ end_month)) then
        nightly_ftpdir y m ::
          (if bool_decide (m = 12)
           then nightly_ftpdirs_loop rounds' (y + 1) 1 end_year end_month
           else nightly_ftpdirs_loop rounds' y (m + 1) end_year end_month)
      else []
  end.

Definition main_ftp_url : string :=
  "ftp://ftp.mozilla.org/pub/mozilla.org/mobile/tinderbox-builds/".

Definition ftpdirs (self : BuildCache) (loc : BuildLocation)
    (start_time end_time : datetime) : list string :=
  match loc with
  | Nightly =>
      let rounds := (year end_time * 12 + month end_time)
                    - (year start_time * 12 + month start_time) + 1 in
      nightly_ftpdirs_loop (Z.to_nat rounds) (year start_time) (month start_time)
        (year end_time) (month end_time)
  | Tinderbox =>
      (λ repo, main_ftp_url +:+ repo +:+ "-android/") <$> repos self
  end.

(** [r.match(srcdir)] for the pattern of [nightly_dirnames] made from
    [repo], a group of any characters followed by [-<repo>-android$]:
    group 1.  Repository names are taken to hold no character that is
    special in a regular expression; [srcdir] is stripped, so [$] is
    its end. *)
Definition nightly_dirname_match (repo srcdir : string) : option string :=
  match Str.strip_suffix ("-" +:+ repo +:+ "-android") srcdir with
  | Some g => if Str.has_newline g then None else Some g
  | None => None
  end.

Fixpoint first_dirname_match (repos : list string) (srcdir : string) : option string :=
  match repos with
  | [] => None
  | repo :: rest =>
      match nightly_dirname_match repo srcdir with
      | Some g => Some g
      | None => first_dirname_match rest srcdir
      end
  end.

Definition build_info_from_ftp (env : environ) (self : BuildCache) (loc : BuildLocation)
    (ftpline : string) : result (string * option datetime) :=
  match loc with
  | Nightly =>
      let srcdir := Str.strip (Str.after_last_space ftpline) in
      match first_dirname_match (repos self) srcdir with
      | Some g =>
          match strptime env g "%Y-%m-%d-%H-%M-%S" with
          | Some t =>
              Ok (srcdir, Some (replace_tzinfo_pacific env (Datetime (t * usec) None)))
          | None => Raise (ValueError "time data does not match format")
          end
      | None => Ok (srcdir, None)
      end
  | Tinderbox =>
      match String.words ftpline !! 8%nat with
      | Some field =>
          let srcdir := Str.strip field in
          match Str.int srcdir with
          | Some ts => Ok (srcdir, Some (fromtimestamp_pacific env ts))
          | None => Raise (ValueError "invalid literal for int() with base 10")
          end
      | None => Raise (IndexError "list index out of range")
      end
  end.

(** [re.search('tinderbox-builds\/.*-android\/([\d]+)\/', url)]: group 1.
    The greedy [.*] stops at a newline and gives back characters from
    its end, so the last fitting [-android/<digits>/] is taken. *)
Definition android_digits (s : string) : option string :=
  if String.prefix "-android/" s then
    let digits := Str.take_while Str.is_digit (Str.drop 9 s) in
    if bool_decide (digits ≠ "")
       && String.prefix "/" (Str.drop (String.length digits) (Str.drop 9 s))
    then Some digits else None
  else None.

Fixpoint last_android_digits (s : string) : option string :=
  match s with
  | EmptyString => None
  | String c s' =>
      match (if bool_decide (c = Str.newline) then None else last_android_digits s') with
      | Some digits => Some digits
      | None => android_digits s
      end
  end.

Fixpoint search_tinderbox (url : string) : option string :=
  match url with
  | EmptyString => None
  | String _ url' =>
      match (if String.prefix "tinderbox-builds/" url
             then last_android_digits (Str.drop 17 url) else None) with
      | Some digits => Some digits
      | None => search_tinderbox url'
      end
  end.

(** [re.search('nightly\/[\d]{4}\/[\d]{2}\/([\d]{4}-[\d]{2}-[\d]{2}-[\d]{2}-[\d]{2}-[\d]{2})-', url)]:
    group 1.  The pattern has a fixed length. *)
Fixpoint match_shape (shape s : string) : bool :=
  match shape, s with
  | EmptyString, _ => true
  | String "d" shape', String c s' => Str.is_digit c && match_shape shape' s'
  | String k shape', String c s' => bool_decide (k = c) && match_shape shape' s'
  | String _ _, EmptyString => false
  end.

Fixpoint search_nightly (url : string) : option string :=
  match url with
  | EmptyString => None
  | String _ url' =>
      if match_shape "nightly/dddd/dd/dddd-dd-dd-dd-dd-dd-" url
      then Some (Str.take 19 (Str.drop 16 url))
      else search_nightly url'
  end.

Definition build_date_from_url (env : environ) (loc : BuildLocation) (url : string)
    : result (option datetime) :=
  match loc with
  | Nightly =>
      match search_nightly url with
      | None => Ok None
      | Some g =>
          match strptime env g "%Y-%m-%d-%H-%M-%S" with
          | Some t => Ok (Some (Datetime (t * usec) None))
          | None => Raise (ValueError "time data does not match format")
          end
      end
  | Tinderbox =>
      match search_tinderbox url with
      | None => Ok None
      | Some digits =>
          match Str.int digits with
          | Some ts => Ok (Some (fromtimestamp_pacific env ts))
          | None => Raise (ValueError "invalid literal for int() with base 10")
          end
      end
  end.

(** *** [BuildCache]: finding builds *)

(** [BuildCache.build_location] *)
Definition build_location (s : string) : option BuildLocation :=
  if str_contains "nightly" s then Some Nightly
  else if str_contains "tinderbox" s then Some Tinderbox
  else None.

(** [re.compile("fennec.*\.android-arm\.apk").match(filename)] *)
Definition fennecregex_match (filename : string) : bool :=
  String.prefix "fennec" filename
  && str_contains ".android-arm.apk"
       (Str.take_while (λ c, negb (bool_decide (c = Str.newline))) (Str.drop 6 filename)).

(** A [for] loop whose body adds to the list [builds]. *)
Fixpoint for_each {A} (l : list A) (body : A → M world (list string))
    : M world (list string) :=
  match l with
  | [] => ret []
  | x :: rest =>
      (let* found := body x in
       let* more := for_each rest body in
       ret (found ++ more)%list)%py
  end.

Definition find_builds (env : environ) (self : BuildCache)
    (start_time end_time : datetime) (build_location_name : string)
    : M world (list string) :=
  (run modify (add_log (LogWindow DEBUG start_time end_time)) in
   match build_location build_location_name with
   | None =>
       run logging ERROR
             ("unsupported build_location " +:+ Str.quoted build_location_name) in
       ret []
   | Some loc =>
       let start_time :=
         if bool_decide (utcoffset start_time = None)
         then replace_tzinfo_pacific env start_time else start_time in
       let end_time :=
         if bool_decide (utcoffset end_time = None)
         then replace_tzinfo_pacific env end_time else end_time in
       let* builds :=
         for_each (ftpdirs self loc start_time end_time) (λ d,
           let scheme := (Str.urlparse d).1.1 in
           let netloc := (Str.urlparse d).1.2 in
           let path := (Str.urlparse d).2 in
           run logging DEBUG ("Logging into " +:+ netloc +:+ "...") in
           run logging DEBUG ("Looking for builds in " +:+ path +:+ "...") in
           let* lines := lift (ftp_dir env netloc path) in
           run modify (set_lines_out (Str.join (String Str.newline "") lines)) in
           for_each lines (λ line,
             let* info := lift (build_info_from_ftp env self loc line) in
             let srcdir := info.1 in
             match info.2 with
             | None => ret []
             | Some build_time =>
                 if bool_decide (instant build_time < instant start_time)
                    || bool_decide (instant build_time > instant end_time)
                 then ret []
                 else
                   let newpath := path +:+ srcdir in
                   let* lines2 := lift (ftp_dir env netloc newpath) in
                   for_each lines2 (λ l2,
                     let filename := Str.strip (Str.after_last_space l2) in
                     if fennecregex_match filename
                     then ret [scheme +:+ "://" +:+ netloc +:+ newpath +:+ "/" +:+ filename]
                     else ret [])
             end)) in
       run (if bool_decide (builds = []) then logging ERROR "No builds found." else ret tt) in
       ret builds
   end)%py.

Definition build_date (env : environ) (url : string) : M world (option datetime) :=
  (let* builddate :=
     match build_location url with
     | Some loc => lift (build_date_from_url env loc url)
     | None => ret None
     end in
   run (if bool_decide (builddate = None)
        then logging ERROR ("bad URL " +:+ Str.quoted url) else ret tt) in
   ret builddate)%py.

(** [builds.sort()] on strings: byte order, as [str] compares. *)
Fixpoint insert_str (x : string) (l : list string) : list string :=
  match l with
  | [] => [x]
  | y :: l' => if String.leb x y then x :: y :: l' else y :: insert_str x l'
  end.

Definition sort_str (l : list string) : list string := foldr insert_str [] l.

Definition find_latest_build (env : environ) (self : BuildCache)
    (build_location_name : string) : M world (option string) :=
  (let window_days := 3 in
   let* now := gets (λ w, Datetime (now w) None) in
   let* builds :=
     find_builds env self (Datetime (wall now - window_days * 86400 * usec) None) now
       build_location_name in
   if bool_decide (builds = []) then
     run logging ERROR ("Could not find any nightly builds in the last "
                        +:+ pretty window_days +:+ " days!") in
     ret None
   else
     ret (last (sort_str builds)))%py.

End Builds.

(** ** autophone.py: the fleet orchestrator *)

Module Autophone.

(** *** Collaborators *)

(** [phonetest.PhoneTestMessage]: the status values a worker starts in
    or reports. *)
Inductive PhoneTestMessage : Type := DISCONNECTED | DISABLED | IDLE | WORKING.

(** The crash accounting of a worker, [worker.crashes]: an object with
    [add_crash()] and [too_many_crashes()].  Its class is not part of
    these sources; the orchestrator uses nothing else of it. *)
Class Crashes (C : Type) : Type := {
  add_crash : C → C;
  too_many_crashes : C → bool
}.

(** A value of a job dictionary. *)
Inductive value : Type :=
  | VStr (s : string)
  | VInt (n : Z).

(** The execution unit of a worker. *)
Inductive process : Type :=
  | NotStarted
  | Running (initial_state : PhoneTestMessage)
  | Dead                                    (* it was running and is no more *)
  | Stopped.

(** The registration record of a device, as [register_cmd] builds it. *)
Record PhoneConfig : Type := {
  phoneid : string;
  serial : string;
  ip : string;
  sutcmdport : Z;
  machinetype : string;
  osver : string;
  debug : Z;
  ipaddr : string
}.

(** Modelled from the spec: the device worker [PhoneWorker] of
    [worker.py], which is not part of these sources.  The specification
    asks of it [start(initial_state)], [stop()], [add_job(job)], a
    liveness predicate, a [phone_cfg] accessor and a crash-accounting
    object; a worker here is its configuration, that object, its
    execution unit and the jobs it was handed. *)
Record PhoneWorker (C : Type) : Type := Worker {
  phone_cfg : PhoneConfig;
  crashes : C;
  proc : process;
  jobs : list (gmap string value)
}.
Arguments Worker {C}.
Arguments phone_cfg {C}.
Arguments crashes {C}.
Arguments proc {C}.
Arguments jobs {C}.

Definition is_alive {C} (w : PhoneWorker C) : bool :=
  match proc w with Running _ => true | _ => false end.
Definition stop {C} (w : PhoneWorker C) : PhoneWorker C :=
  Worker (phone_cfg w) (crashes w) Stopped (jobs w).
Definition start {C} (initial_state : PhoneTestMessage) (w : PhoneWorker C) : PhoneWorker C :=
  Worker (phone_cfg w) (crashes w) (Running initial_state) (jobs w).
Definition crashes_add_crash {C} `{Crashes C} (w : PhoneWorker C) : PhoneWorker C :=
  Worker (phone_cfg w) (add_crash (crashes w)) (proc w) (jobs w).
Definition add_job {C} (job : gmap string value) (w : PhoneWorker C) : PhoneWorker C :=
  Worker (phone_cfg w) (crashes w) (proc w) (jobs w ++ [job]).

(** [build.apk] as [build_job] reads it: not a zip archive; an archive
    without [application.ini]; one whose [application.ini] fails its
    checksum; or one whose [application.ini] holds these sections, each
    an option-to-value map with the option names in lower case, as
    [ConfigParser] keeps them. *)
Inductive apk : Type :=
  | NotAZip
  | NoApplicationIni
  | CorruptApplicationIni
  | ApplicationIni (sections : gmap string (gmap string string)).

Inductive level : Type := DEBUG | INFO | WARNING | ERROR.

Inductive log_record : Type :=
  | Log (lvl : level) (msg : string)
  | LogTraceback (lvl : level).

(** What [self.mailer.send] does. *)
Inductive send_outcome : Type :=
  | Sent
  | SendRaises (e : exn).

(** The library and the collaborators of the orchestrator: the mailer;
    [datetime.strptime], giving calendar fields in seconds or nothing
    where it raises [ValueError]; [time.mktime] on such fields;
    [str] of a dictionary; and [get_build] by its result, the directory
    of the acquired build or nothing (the acquisition itself is
    [Builds.get], and the files it leaves are in [build_apks] below). *)
Record environ : Type := Environ {
  mailer_send : string → string → send_outcome;
  strptime : string → string → option Z;
  mktime : Z → Z;
  str_dict : gmap string value → string;
  get_build : string → option string
}.

(** *** The orchestrator and its state *)

(** What changes while the orchestrator runs: the registry
    [self.phone_workers], the log, the standard output, the mail handed
    to the mailer, the [build.apk] files by path, and the scratch
    directories made by [tempfile.mkdtemp()] that still exist. *)
Record state (C : Type) : Type := State {
  phone_workers : gmap string (PhoneWorker C);
  log : list log_record;
  stdout : list string;
  outbox : list (string * string);
  build_apks : gmap string apk;
  scratch : nat
}.
Arguments State {C}.
Arguments phone_workers {C}.
Arguments log {C}.
Arguments stdout {C}.
Arguments outbox {C}.
Arguments build_apks {C}.
Arguments scratch {C}.

(** The names an [AutoPhone] instance answers to: what [__init__]
    assigns on [self] (lines 83 to 137) and what the class body
    defines. *)
Definition instance_attributes : list string :=
  ["_test_path"; "_cache"; "ipaddr"; "port"; "logfile"; "loglevel"; "mailer";
   "build_cache"; "_stop"; "_next_worker_num"; "phone_workers"; "worker_lock";
   "cmd_lock"; "_tests"; "worker_msg_queue"; "server"; "server_thread";
   "pulsemonitor"; "enable_unittests"].

Definition class_attributes : list string :=
  ["CmdTCPServer"; "CmdTCPHandler"; "__init__"; "next_worker_num"; "run";
   "check_for_dead_workers"; "worker_msg_loop"; "start_tests"; "route_cmd";
   "register_phone"; "register_cmd"; "read_cache"; "update_phone_cache";
   "read_tests"; "trigger_jobs"; "reset_phones"; "on_build"; "get_build";
   "build_job"; "is_valid_job"; "stop"].

(** [self.<name>]: the lookup succeeds for the names above and, those
    every [object] has aside, raises [AttributeError] for any other. *)
Definition self_getattr (name : string) : result unit :=
  if bool_decide (name ∈ (instance_attributes ++ class_attributes)%list) then Ok tt
  else Raise (AttributeError ("'AutoPhone' object has no attribute '" +:+ name +:+ "'")).

Section orchestrator.
Context {C : Type} `{Crashes C} (env : environ).

Local Abbreviation M := (M (state C)).

Definition set_phone_workers
    (f : gmap string (PhoneWorker C) → gmap string (PhoneWorker C)) (s : state C)
    : state C :=
  State (f (phone_workers s)) (log s) (stdout s) (outbox s) (build_apks s) (scratch s).
Definition add_log (r : log_record) (s : state C) : state C :=
  State (phone_workers s) (log s ++ [r]) (stdout s) (outbox s) (build_apks s) (scratch s).
Definition add_stdout (line : string) (s : state C) : state C :=
  State (phone_workers s) (log s) (stdout s ++ [line]) (outbox s) (build_apks s) (scratch s).
Definition add_outbox (subj body : string) (s : state C) : state C :=
  State (phone_workers s) (log s) (stdout s) (outbox s ++ [(subj, body)])
    (build_apks s) (scratch s).
Definition set_scratch (f : nat → nat) (s : state C) : state C :=
  State (phone_workers s) (log s) (stdout s) (outbox s) (build_apks s) (f (scratch s)).

Definition logging (lvl : level) (msg : string) : M unit := modify (add_log (Log lvl msg)).
Definition print (line : string) : M unit := modify (add_stdout line).

(** [self.phone_workers[id]] *)
Definition worker_of (id : string) : M (PhoneWorker C) :=
  λ s, match phone_workers s !! id with
       | Some w => (Ok w, s)
       | None => (Raise (KeyError id), s)
       end.

(** A method call on the worker object registered under [id]. *)
Definition on_worker (id : string) (f : PhoneWorker C → PhoneWorker C) : M unit :=
  modify (set_phone_workers (alter f id)).

(** [self.mailer.send(subj, body)] *)
Definition mailer_send_ (subj body : string) : M unit :=
  match mailer_send env subj body with
  | Sent => modify (add_outbox subj body)
  | SendRaises e => raise e
  end.

(** *** [check_for_dead_workers] *)

(** The body of the loop, for one [phoneid]. *)
Definition check_worker (id : string) : M unit :=
  (let* worker := worker_of id in
   if negb (is_alive worker) then
     run print ("Worker " +:+ id +:+ " died!") in
     run logging ERROR ("Worker " +:+ id +:+ " died!") in
     run on_worker id stop in
     run on_worker id crashes_add_crash in
     let* worker := worker_of id in
     let msg_subj := "Worker for phone " +:+ phoneid (phone_cfg worker) +:+ " died" in
     let msg_body :=
       "Hello, this is Autophone. Just to let you know, the worker process"
       +:+ String Str.newline "" +:+ "for phone " +:+ phoneid (phone_cfg worker) +:+ " died."
       +:+ String Str.newline "" in
     let crashy := too_many_crashes (crashes worker) in
     let initial_state := if crashy then DISABLED else DISCONNECTED in
     let msg_subj := if crashy then msg_subj +:+ " and was disabled" else msg_subj in
     let msg_body :=
       if crashy
       then msg_body +:+ "It looks really crashy, so I disabled it. Sorry about that."
            +:+ String Str.newline ""
       else msg_body in
     run on_worker id (start initial_state) in
     run logging INFO "Sending notification..." in
     try_except
       (run mailer_send_ msg_subj msg_body in logging INFO "Sent.")
       (λ e, match e with
             | SocketError _ =>
                 Some (run logging ERROR "Failed to send dead-phone notification." in
                       modify (add_log (LogTraceback INFO)))
             | _ => None
             end)
   else ret tt)%py.

Fixpoint for_phoneids (phoneids : list string) (body : string → M unit) : M unit :=
  match phoneids with
  | [] => ret tt
  | id :: rest => (run body id in for_phoneids rest body)%py
  end.

(** [self.phone_workers.keys()] *)
Definition keys (s : state C) : list string := (map_to_list (phone_workers s)).*1.

Definition check_for_dead_workers : M unit :=
  (let* phoneids := gets keys in
   for_phoneids phoneids check_worker)%py.

(** *** [is_valid_job] *)

Definition missing (key : string) (job : gmap string value) : list string :=
  if bool_decide (job !! key = None) then ["missing " +:+ key] else [].

Definition is_valid_job (job : option (gmap string value)) : M bool :=
  match job with
  | None => ret false
  | Some job =>
      let error_list :=
        (missing "androidprocname" job ++ missing "revision" job
         ++ missing "blddate" job ++ missing "bldtype" job
         ++ missing "version" job)%list in
      if bool_decide (0 < length error_list)%nat then
        let error_message :=
          "ERROR: Invalid job configuration: " +:+ str_dict env job +:+ " "
          +:+ Str.join ", " error_list in
        (run lift (self_getattr "logger") in   (* self.logger.error(error_message) *)
         run logging ERROR error_message in
         raise (NameError error_message))%py
      else ret true
  end.

(** *** [start_tests] *)

Fixpoint for_workers (phoneids : list string) (body : string → PhoneWorker C → M unit)
    : M unit :=
  match phoneids with
  | [] => ret tt
  | id :: rest =>
      (let* p := worker_of id in
       run body id p in
       for_workers rest body)%py
  end.

(** [start_tests]; [worker_lock] guards the loop against the command
    threads, of which this sequential reading has none. *)
Definition start_tests (job : option (gmap string value)) : M unit :=
  (let* valid := is_valid_job job in
   if negb valid then ret tt
   else
     match job with
     | Some job =>
         let* phoneids := gets keys in
         for_workers phoneids (λ id p,
           run logging INFO ("Starting job on phone: " +:+ phoneid (phone_cfg p)) in
           on_worker id (add_job job))
     | None => ret tt
     end)%py.

(** *** [build_job] *)

(** [cfg.get(section, option)] of [RawConfigParser] *)
Definition cfg_get (cfg : gmap string (gmap string string)) (section option : string)
    : M string :=
  match cfg !! section with
  | None => raise (NoSectionError section)
  | Some options =>
      match options !! Str.lower option with
      | Some v => ret v
      | None => raise (NoOptionError option section)
      end
  end.

(** The fixed table from the source repository to the tree and the
    process name; the process name starts as the empty string, the
    tree is not bound before the table is consulted. *)
Definition tree_and_procname (repo : string) : option string * string :=
  if bool_decide (repo = "http://hg.mozilla.org/mozilla-central") then
    (Some "mozilla-central", "org.mozilla.fennec")
  else if bool_decide (repo = "http://hg.mozilla.org/integration/mozilla-inbound") then
    (Some "mozilla-inbound", "org.mozilla.fennec")
  else if bool_decide (repo = "http://hg.mozilla.org/releases/mozilla-aurora") then
    (Some "mozilla-aurora", "org.mozilla.fennec_aurora")
  else if bool_decide (repo = "http://hg.mozilla.org/releases/mozilla-beta") then
    (Some "mozilla-beta", "org.mozilla.firefox")
  else (None, "").

(** Reading a local variable that may not be bound. *)
Definition local (name : string) (v : option string) : M string :=
  match v with
  | Some x => ret x
  | None => raise (UnboundLocalError
                     ("local variable '" +:+ name +:+ "' referenced before assignment"))
  end.

Definition mkdtemp : M unit := modify (set_scratch S).
Definition rmtree_tmpdir : M unit := modify (set_scratch pred).

(** [zipfile.ZipFile(build_path)] and
    [apkfile.extract('application.ini', tmpdir)] *)
Definition extract_application_ini (build_path : string)
    : M (gmap string (gmap string string)) :=
  λ s, match build_apks s !! build_path with
       | None => (Raise (IOError (PInt 2) (PStr "No such file or directory")), s)
       | Some NotAZip => (Raise BadZipfile, s)
       | Some NoApplicationIni =>
           (Raise (KeyError "There is no item named 'application.ini' in the archive"), s)
       | Some CorruptApplicationIni => (Raise BadZipfile, s)
       | Some (ApplicationIni sections) => (Ok sections, s)
       end.

Definition build_job (cache_build_dir : option string)
    : M (option (gmap string value)) :=
  match cache_build_dir with
  | None | Some "" =>
      (run logging WARNING "No build available. Aborting job." in ret None)%py
  | Some cache_build_dir =>
      (run mkdtemp in
       let build_path := Str.os_path_join cache_build_dir "build.apk" in
       let* extracted :=
         try_except
           (let* cfg := extract_application_ini build_path in ret (Some cfg))
           (λ e, match e with
                 | BadZipfile =>
                     (* we should have already tried to redownload bad zips, so
                        treat this as fatal. *)
                     Some (run logging ERROR
                                 (build_path +:+ " is a bad apk; aborting job.") in
                           run rmtree_tmpdir in
                           ret None)
                 | _ => None
                 end) in
       match extracted with
       | None => ret None
       | Some cfg =>
           let* rev := cfg_get cfg "App" "SourceStamp" in
           let* ver := cfg_get cfg "App" "Version" in
           let* repo := cfg_get cfg "App" "SourceRepository" in
           let* buildid := cfg_get cfg "App" "BuildID" in
           let* blddate :=
             match strptime env buildid "%Y%m%d%H%M%S" with
             | Some t => ret t
             | None => raise (ValueError "time data does not match format")
             end in
           let tree := (tree_and_procname repo).1 in
           let procname := (tree_and_procname repo).2 in
           let* tree := local "tree" tree in
           let job : gmap string value :=
             <["cache_build_dir" := VStr cache_build_dir]>
             (<["tree" := VStr tree]>
             (<["blddate" := VInt (mktime env blddate)]>
             (<["buildid" := VStr buildid]>
             (<["revision" := VStr rev]>
             (<["androidprocname" := VStr procname]>
             (<["version" := VStr ver]>
             (<["bldtype" := VStr "opt"]> ∅))))))) in
           run rmtree_tmpdir in
           ret (Some job)
       end)%py
  end.

(** *** [trigger_jobs] and [on_build] *)

Definition trigger_jobs (data : string) : M unit :=
  (run logging DEBUG ("trigger_jobs: data  " +:+ data) in
   let* job := build_job (get_build env data) in
   run logging INFO
         ("Received user-specified job: "
          +:+ from_option (str_dict env) "None" job) in
   start_tests job)%py.

(** [msg] is the dictionary of the notification; only its [buildurl]
    matters. *)
Definition on_build (msg_buildurl : option string) : M unit :=
  match msg_buildurl with
  | Some buildurl =>
      (let* job := build_job (get_build env buildurl) in start_tests job)%py
  | None => ret tt
  end.

End orchestrator.

End Autophone.

(** ** autophone.py: the command server *)

Module Cmd.
Import Autophone.

(** [s.partition(sep)] for a separator of one character: what is
    before the first separator, whether there is one, what is after. *)
Fixpoint partition (sep : ascii) (s : string) : string * bool * string :=
  match s with
  | EmptyString => ("", false, "")
  | String c s' =>
      if bool_decide (c = sep) then ("", true, s')
      else (String c (partition sep s').1.1, (partition sep s').1.2, (partition sep s').2)
  end.

(** *** [CmdTCPHandler.handle] *)

(** What [self.request.recv(1024)] gives, call after call: some bytes,
    the empty string once the peer has closed, or a [socket.error]. *)
Inductive received : Type :=
  | Data (data : string)
  | RecvRaises (errno : Z) (msg : string).

Definition ECONNRESET : Z := 104.

(** One connection: the state the callback works on, what was sent to
    the peer, and whether the handler closed the socket. *)
Record session (A : Type) : Type := Session {
  app : A;
  sent : list string;
  closed : bool
}.
Arguments Session {A}.
Arguments app {A}.
Arguments sent {A}.
Arguments closed {A}.

(** How the inner loop is left: by [break] or the end of the loop,
    with the buffer, or by [return]. *)
Inductive left_by : Type :=
  | Break (buffer : string)
  | Return.

Section handler.
Context {A : Type} (cmd_cb : string → Py.M A string).

Definition send (msg : string) : Py.M (session A) unit :=
  modify (λ c, Session (app c) (sent c ++ [msg]) (closed c)).
Definition close : Py.M (session A) unit :=
  modify (λ c, Session (app c) (sent c) true).

(** [self.server.cmd_cb(line)] *)
Definition server_cmd_cb (line : string) : Py.M (session A) string :=
  λ c, ((cmd_cb line (app c)).1, Session (cmd_cb line (app c)).2 (sent c) (closed c)).

(** [while buffer: ...]; every round that does not leave the loop
    takes a line and its newline off the buffer, so the length of
    the buffer bounds the rounds. *)
Fixpoint lines_loop (rounds : nat) (buffer : string) : Py.M (session A) left_by :=
  match rounds with
  | O => ret (Break buffer)
  | S rounds' =>
      if bool_decide (buffer = "") then ret (Break buffer)
      else
        let line := (partition Str.newline buffer).1.1 in
        let nl := (partition Str.newline buffer).1.2 in
        let rest := (partition Str.newline buffer).2 in
        if negb nl then ret (Break buffer)
        else
          let buffer := rest in
          let line := Str.strip line in
          if bool_decide (line = "") then lines_loop rounds' buffer
          else if bool_decide (line = "quit") || bool_decide (line = "exit") then
            (run close in ret Return)%py
          else
            (let* response := server_cmd_cb line in
             run send (response +:+ String Str.newline "") in
             lines_loop rounds' buffer)%py
  end.

(** [while True: ...] over what [recv] gives; after the last element
    the peer has closed. *)
Fixpoint recv_loop (buffer : string) (stream : list received) : Py.M (session A) unit :=
  match stream with
  | [] => ret tt
  | RecvRaises errno msg :: _ =>
      if bool_decide (errno = ECONNRESET) then ret tt else raise (SocketError msg)
  | Data data :: stream' =>
      if bool_decide (data = "") then ret tt
      else
        let buffer := buffer +:+ data in
        (let* left := lines_loop (String.length buffer) buffer in
         match left with
         | Break buffer => recv_loop buffer stream'
         | Return => ret tt
         end)%py
  end.

Definition handle (stream : list received) : Py.M (session A) unit :=
  (run send ("Hello? Yes this is Autophone." +:+ String Str.newline "") in
   recv_loop "" stream)%py.
End handler.

(** *** [route_cmd] and [stop] *)

(** The orchestrator with what the command thread adds: the lock
    [cmd_lock] and the flag [_stop]. *)
Record server (C : Type) : Type := Server {
  orchestrator : state C;
  cmd_lock : bool;                (* held *)
  _stop : bool
}.
Arguments Server {C}.
Arguments orchestrator {C}.
Arguments cmd_lock {C}.
Arguments _stop {C}.

(** A call of [route_cmd] gives its response, or is left by an
    exception, or never gets the lock. *)
Inductive outcome : Type :=
  | Responds (response : string)
  | Escapes (e : exn)
  | Blocks.

Section commands.
Context {C : Type} `{Crashes C} (env : environ).

(** The collaborators whose code is elsewhere or rests on libraries:
    [register_cmd], the text of the [status] response before its
    closing [ok], a command method of the worker registered under a
    key, with its parameter if it has one, and [update_phone_cache]. *)
Context (register_cmd : string → Py.M (state C) unit).
Context (status : Py.M (state C) string).
Context (worker_command : string → string → option string → Py.M (state C) unit).
Context (update_phone_cache : Py.M (state C) unit).

Definition set_orchestrator (f : state C → state C) (s : server C) : server C :=
  Server (f (orchestrator s)) (cmd_lock s) (_stop s).
Definition set_cmd_lock (held : bool) (s : server C) : server C :=
  Server (orchestrator s) held (_stop s).

(** A method of the orchestrator that knows nothing of the lock. *)
Definition on_orchestrator {B} (m : Py.M (state C) B) : Py.M (server C) B :=
  λ s, ((m (orchestrator s)).1, Server (m (orchestrator s)).2 (cmd_lock s) (_stop s)).

(** [stop]; shutting the server down and joining its thread change
    nothing that is kept here. *)
Definition stop : Py.M (server C) unit :=
  (run modify (λ s, Server (orchestrator s) (cmd_lock s) true) in
   on_orchestrator (modify (set_phone_workers (fmap Autophone.stop))))%py.

(** The first worker, in the order of [values()], whose serial or
    phone id is [phoneid]: its key. *)
Definition find_worker (phoneid : string) (s : state C) : option string :=
  fst <$> head (filter (λ kw, serial (phone_cfg kw.2) = phoneid
                              ∨ Autophone.phoneid (phone_cfg kw.2) = phoneid)
                  (map_to_list (phone_workers s))).

(** [route_cmd] between [acquire] and [release]. *)
Definition dispatch (data : string) : Py.M (server C) string :=
  let data := Str.strip data in
  let cmd := (partition " " data).1.1 in
  let params := (partition " " data).2 in
  let cmd := Str.lower cmd in
  let response := "ok" in
  if bool_decide (cmd = "stop") then
    (run stop in ret response)%py
  else if bool_decide (cmd = "log") then
    (run on_orchestrator (logging INFO params) in ret response)%py
  else if bool_decide (cmd = "triggerjobs") then
    (run on_orchestrator (trigger_jobs env params) in ret response)%py
  else if bool_decide (cmd = "register") then
    (run on_orchestrator (register_cmd params) in ret response)%py
  else if bool_decide (cmd = "status") then
    (let* response := on_orchestrator status in ret (response +:+ "ok"))%py
  else if bool_decide (cmd = "disable") || bool_decide (cmd = "enable")
          || bool_decide (cmd = "debug") || bool_decide (cmd = "ping") then
    let phoneid := (partition " " params).1.1 in
    let params := (partition " " params).2 in
    (let* worker := gets (λ s, find_worker phoneid (orchestrator s)) in
     match worker with
     | Some key =>
         run on_orchestrator
               (worker_command cmd key
                  (if bool_decide (params = "") then None else Some params)) in
         let response := "ok" in
         run on_orchestrator update_phone_cache in
         ret response
     | None => ret "error: phone not found"
     end)%py
  else
    ret ("Unknown command " +:+ Str.quoted cmd +:+ String Str.newline "").

(** [route_cmd]: the lock is taken, which never happens when it is
    held, and released on the way out by [return]. *)
Definition route_cmd (data : string) (s : server C) : outcome * server C :=
  if cmd_lock s then (Blocks, s)
  else
    match dispatch data (set_cmd_lock true s) with
    | (Ok response, s') => (Responds response, set_cmd_lock false s')
    | (Raise e, s') => (Escapes e, s')
    end.

(** Commands one after the other, as one connection sends them. *)
Fixpoint route_cmds (commands : list string) (s : server C) : list outcome * server C :=
  match commands with
  | [] => ([], s)
  | data :: rest =>
      let (o, s') := route_cmd data s in
      let (os, s'') := route_cmds rest s' in
      (o :: os, s'')
  end.
End commands.

End Cmd.

(** ** autophone.py: [get_build] *)

Module Retrieval.
Import Builds.

(** [zipfile.ZipFile(build_path)] for [build.apk] in the directory
    [get] answered, and [z.testzip()], which reads the members and
    returns the name of the first bad one without raising.  Outside
    override mode the directory is the one of the build in the cache;
    in override mode it is a directory the cache does not manage,
    whose files are given by [outside]. *)
Definition ZipFile_testzip (self : BuildCache) (outside : string → option content)
    (buildurl build_path : string) : M world unit :=
  λ w,
    let file :=
      if truthy (override_build_dir self) then outside build_path
      else cache w !! Str.b64encode buildurl ≫= build_apk in
    match file with
    | Some (Zip members) => (Ok tt, w)
    | Some (Raw _) => (Raise BadZipfile, w)
    | None => (Raise (IOError (PInt 2) (PStr "No such file or directory")), w)
    end.

(** [AutoPhone.get_build]; [enable_unittests] is the attribute of the
    orchestrator. *)
Definition get_build (env : environ) (self : BuildCache)
    (outside : string → option content) (enable_unittests : bool) (buildurl : string)
    : M world (option string) :=
  (let* cache_build_dir := get env self buildurl enable_unittests false in
   match cache_build_dir with
   | None | Some "" =>
       run logging WARNING ("Errors occured getting build " +:+ buildurl +:+ ".") in
       ret None
   | Some dir =>
       let build_path := Str.os_path_join dir "build.apk" in
       try_except
         (run ZipFile_testzip self outside buildurl build_path in
          ret (Some dir))
         (λ e, match e with
               | BadZipfile =>
                   Some (run logging ERROR
                               (build_path +:+ " is a bad apk; redownloading...") in
                         get env self buildurl enable_unittests true)
               | _ => None
               end)
   end)%py.

End Retrieval.

(** ** Sample surroundings

    Concrete libraries, servers and states on which the definitions
    above are run. *)

Module Samples.

(** The calendar fields of a date and time of day, in seconds from
    1970-01-01 00:00:00. *)
Definition days_from_civil (y m d : Z) : Z :=
  let y := if bool_decide (m ≤ 2) then y - 1 else y in
  let era := y `div` 400 in
  let yoe := y - era * 400 in
  let doy := (153 * (if bool_decide (2 < m) then m - 3 else m + 9) + 2) `div` 5 + d - 1 in
  let doe := yoe * 365 + yoe `div` 4 - yoe `div` 100 + doy in
  era * 146097 + doe - 719468.

Definition digits_at (start len : nat) (s : string) : option Z :=
  let field := Str.take len (Str.drop start s) in
  if bool_decide (String.length field = len) then Str.digits_value 0 field else None.

(** [strptime] for the two formats of the sources, on zero-padded
    fields. *)
Definition strptime (s fmt : string) : option Z :=
  let at_ (y mo d h mi sec : nat) :=
    y ← digits_at y 4%nat s; mo ← digits_at mo 2%nat s; d ← digits_at d 2%nat s;
    h ← digits_at h 2%nat s; mi ← digits_at mi 2%nat s; sec ← digits_at sec 2%nat s;
    if bool_decide (1 ≤ mo ≤ 12 ∧ 1 ≤ d ≤ 31 ∧ h < 24 ∧ mi < 60 ∧ sec < 62)
    then Some (days_from_civil y mo d * 86400 + h * 3600 + mi * 60 + sec)
    else None in
  if bool_decide (fmt = "%Y%m%d%H%M%S") then
    if bool_decide (String.length s = 14%nat) then at_ 0%nat 4%nat 6%nat 8%nat 10%nat 12%nat else None
  else if bool_decide (fmt = "%Y-%m-%d-%H-%M-%S") then
    if bool_decide (String.length s = 19%nat
                    ∧ Builds.match_shape "dddd-dd-dd-dd-dd-dd" s = true)
    then at_ 0%nat 5%nat 8%nat 11%nat 14%nat 17%nat else None
  else None.

(** [urlparse.urljoin(base, name)] for a base with a path: the name
    replaces what follows the last slash. *)
Definition urljoin (base name : string) : string :=
  String.rev (Str.drop_while (λ c, negb (bool_decide (c = "/"%char))) (String.rev base))
  +:+ name.

(** [os.listdir] in the order of the names. *)
Definition os_listdir (m : gmap string Builds.entry) : list string := (map_to_list m).*1.

Definition build_url : string :=
  "ftp://ftp.mozilla.org/pub/mobile/nightly/2012/06/2012-06-18-03-05-17-mozilla-central-android/fennec-16.0a1.multi.android-arm.apk".

Definition build_key : string := Eval vm_compute in Str.b64encode build_url.

Definition fennec_apk : Builds.content :=
  Builds.Zip [("application.ini", Some "[App]"); ("classes.dex", Some "dex")].

Definition symbols_zip : Builds.content :=
  Builds.Zip [("libxul.so.sym", Some "MODULE Linux arm")].

(** A server that has every file. *)
Definition network_up (n : nat) (url : string) : Builds.fetch_result :=
  if Str.ends_with ".crashreporter-symbols.zip" url then Builds.Fetched symbols_zip
  else Builds.Fetched fennec_apk.

(** A server that refuses every connection: [urllib] raises
    [IOError('ftp error', socket.error(111, 'Connection refused'))]. *)
Definition connection_refused : Builds.fetch_result :=
  Builds.FetchFailed (Builds.Raw "") (PStr "ftp error")
    (PEnvError (PInt 111) (PStr "Connection refused")).

Definition network_down (n : nat) (url : string) : Builds.fetch_result :=
  connection_refused.

(** A server that answers the first download and then goes away. *)
Definition network_drops (n : nat) (url : string) : Builds.fetch_result :=
  match n with
  | O => Builds.Fetched fennec_apk
  | S _ => connection_refused
  end.

(** A server of tinderbox builds with one build of each of two
    repositories. *)
Definition tinderbox : string := "/pub/mozilla.org/mobile/tinderbox-builds/".

Definition ftp_dir (netloc path : string) : result (list string) :=
  if bool_decide (netloc ≠ "ftp.mozilla.org") then
    Raise (SocketError "Name or service not known")
  else if bool_decide (path = tinderbox +:+ "mozilla-central-android/") then
    Ok ["drwxr-xr-x    2 ftp      ftp          4096 Jun 18 06:13 1340000000"]
  else if bool_decide (path = tinderbox +:+ "mozilla-inbound-android/") then
    Ok ["drwxr-xr-x    2 ftp      ftp          4096 Jun 17 02:26 1339900000"]
  else if bool_decide (path = tinderbox +:+ "mozilla-central-android/1340000000") then
    Ok ["-rw-r--r--    1 ftp      ftp      17550757 Jun 18 06:13 fennec-16.0a1.en-US.android-arm.apk";
        "-rw-r--r--    1 ftp      ftp           512 Jun 18 06:13 fennec-16.0a1.en-US.android-arm.txt"]
  else if bool_decide (path = tinderbox +:+ "mozilla-inbound-android/1339900000") then
    Ok ["-rw-r--r--    1 ftp      ftp      17550112 Jun 17 02:26 fennec-16.0a1.en-US.android-arm.apk"]
  else Ok [].

Definition environ (network : nat → string → Builds.fetch_result) : Builds.environ :=
  Builds.Environ os_listdir network urljoin ftp_dir strptime (-28380) (λ _, -25200).

Definition build_cache (repos : list string) (override_build_dir : option string)
    : Builds.BuildCache :=
  {| Builds.repos := repos; Builds.buildtypes := ["opt"]; Builds.cache_dir := "builds";
     Builds.enable_unittests := false; Builds.override_build_dir := override_build_dir |}.

(** 2012-06-18 20:06:40 on the local clock, in microseconds. *)
Definition noon : Z := 1340050000 * 1000 * 1000.

Definition day : Z := 86400 * 1000 * 1000.

(** Nothing cached yet. *)
Definition fresh_world : Builds.world := Builds.World ∅ ∅ [] [] None noon.

(** A build directory last used [age] days ago. *)
Definition used (age : Z) : Builds.entry :=
  Builds.Entry (Some fennec_apk) (Some (noon - age * day)) None None None None.

(** The build of [build_url] cached two days ago. *)
Definition cached_world : Builds.world :=
  Builds.World {[ build_key := used 2 ]} ∅ [] [] None noon.

(** Twenty-two build directories [b1] to [b22], [bN] last used [N + 1]
    days ago, and a directory without a marker. *)
Definition crowded_cache : gmap string Builds.entry :=
  <["notes" := Builds.empty_dir]>
    (list_to_map ((λ n : nat, ("b" +:+ pretty n, used (Z.of_nat n + 1))) <$> seq 1 22)).

Definition crowded_world : Builds.world := Builds.World crowded_cache ∅ [] [] None noon.

(** The orchestrator's side. *)

(** A crash counter that trips above five crashes. *)
Global Instance crash_count : Autophone.Crashes nat := {
  Autophone.add_crash := S;
  Autophone.too_many_crashes n := bool_decide (5 < n)%nat
}.

Definition show_value (v : Autophone.value) : string :=
  match v with
  | Autophone.VStr s => "'" +:+ s +:+ "'"
  | Autophone.VInt n => pretty n
  end.

Definition str_dict (d : gmap string Autophone.value) : string :=
  "{" +:+ Str.join ", " ((λ kv, "'" +:+ kv.1 +:+ "': " +:+ show_value kv.2) <$> map_to_list d)
  +:+ "}".

(** A mailer that delivers, and one whose server cannot be reached. *)
Definition delivers (subj body : string) : Autophone.send_outcome := Autophone.Sent.
Definition unreachable (subj body : string) : Autophone.send_outcome :=
  Autophone.SendRaises (SocketError "Connection refused").

Definition orchestrator_environ (mailer : string → string → Autophone.send_outcome)
    : Autophone.environ :=
  Autophone.Environ mailer strptime (λ t, t) str_dict
    (λ buildurl, Some (Str.os_path_join "builds" (Str.b64encode buildurl))).

Definition phone (id : string) : Autophone.PhoneConfig :=
  {| Autophone.phoneid := id; Autophone.serial := "POOL1"; Autophone.ip := "192.168.1.10";
     Autophone.sutcmdport := 20701; Autophone.machinetype := "nexus_s";
     Autophone.osver := "2.3.6"; Autophone.debug := 3; Autophone.ipaddr := "192.168.1.2" |}.

(** Three workers: one alive, one dead after its first crash, one dead
    with five crashes counted before. *)
Definition fleet : gmap string (Autophone.PhoneWorker nat) :=
  {[ "aa_bb_cc_00_00_01_nexus_s" :=
       Autophone.Worker (phone "aa_bb_cc_00_00_01_nexus_s") 0%nat
         (Autophone.Running Autophone.IDLE) [];
     "aa_bb_cc_00_00_02_nexus_s" :=
       Autophone.Worker (phone "aa_bb_cc_00_00_02_nexus_s") 0%nat Autophone.Dead [];
     "aa_bb_cc_00_00_03_nexus_s" :=
       Autophone.Worker (phone "aa_bb_cc_00_00_03_nexus_s") 5%nat Autophone.Dead [] ]}.

(** [application.ini] of a build from a repository outside the table. *)
Definition release_ini : gmap string (gmap string string) :=
  {[ "App" := {[ "sourcestamp" := "f8a1e2c4b6d0";
                 "version" := "14.0";
                 "sourcerepository" := "http://hg.mozilla.org/releases/mozilla-release";
                 "buildid" := "20120618061320" ]} ]}.

Definition release_build_dir : string := Str.os_path_join "builds" build_key.

Definition orchestrator_state : Autophone.state nat :=
  Autophone.State fleet [] [] []
    {[ Str.os_path_join release_build_dir "build.apk" := Autophone.ApplicationIni release_ini ]}
    0.

End Samples.

(** * Properties *)

(** ** The library calls, on examples *)

Example b64encode_Man : Str.b64encode "Man" = "TWFu".
Proof. reflexivity. Qed.

Example b64encode_padded : Str.b64encode "light w" = "bGlnaHQgdw==".
Proof. reflexivity. Qed.

Example re_sub_apk_suffix :
  Str.re_sub_apk ".tests.zip" "ftp://h/fennec.apk" = "ftp://h/fennec.tests.zip".
Proof. reflexivity. Qed.

Example re_sub_apk_other : Str.re_sub_apk ".tests.zip" "ftp://h/fennec" = "ftp://h/fennec".
Proof. reflexivity. Qed.

Example urlparse_ftp :
  Str.urlparse "ftp://ftp.mozilla.org/pub/mobile/nightly/2012/06/"
  = ("ftp", "ftp.mozilla.org", "/pub/mobile/nightly/2012/06/").
Proof. reflexivity. Qed.

Example strip_field : Str.strip (Str.after_last_space "drwxr-xr-x 2 ftp 1340000000 ") = "".
Proof. reflexivity. Qed.

Example int_signed : Str.int "-42" = Some (-42) ∧ Str.int "12a" = None ∧ Str.int "" = None.
Proof. done. Qed.

Example civil_of_sample_day : Builds.civil_from_days 15509 = (2012, 6, 18).
Proof. reflexivity. Qed.

(** ** The eviction sweep *)

Module CleanCache.
Import Builds.

(** A non-preserved entry whose [lastused] marker is older than
    [EXPIRE_AFTER_SECONDS], in the words of the specification. *)
Definition stale (preserve : list string) (now : Z) (kv : string * entry) : Prop :=
  (kv.1 ∉ preserve) ∧
  (match lastused kv.2 with
   | Some t => 1000 * 1000 * EXPIRE_AFTER_SECONDS < now - t
   | None => False
   end).

Global Instance stale_dec preserve now kv : Decision (stale preserve now kv).
Proof. unfold stale. destruct (lastused kv.2); apply _. Defined.

(** [os.listdir] returns every name under the cache root once. *)
Definition lists_every_name_once (env : environ) (w : world) : Prop :=
  os_listdir env (cache w) ≡ₚ (map_to_list (cache w)).*1.

(** The names the [while] loop deletes: the front of the sorted list,
    as long as more than [MAX_NUM_BUILDS] are left. *)
Definition popped (builds : list (string * Z)) : list (string * Z) :=
  take (length builds - MAX_NUM_BUILDS) builds.

Definition delete_all (names : list string) (m : gmap string entry) : gmap string entry :=
  foldl (λ m d, delete d m) m names.

Lemma lookup_delete_all names (m : gmap string entry) d :
  delete_all names m !! d = if decide (d ∈ names) then None else m !! d.
Proof.
  unfold delete_all. revert m. induction names as [|x names IH]; intros m; simpl.
  - destruct (decide (d ∈ [])) as [H|]; [by apply elem_of_nil in H | done].
  - rewrite IH. destruct (decide (d = x)) as [->|Hne].
    + rewrite lookup_delete_eq, (decide_True (P := x ∈ x :: names))
        by apply list_elem_of_here.
      by case_decide.
    + rewrite lookup_delete_ne by done.
      apply decide_ext. rewrite elem_of_cons. tauto.
Qed.

Lemma popped_cons b rest :
  (MAX_NUM_BUILDS < length (b :: rest))%nat →
  popped (b :: rest) = b :: popped rest.
Proof.
  unfold popped, MAX_NUM_BUILDS. cbn [length]. intros H.
  replace (S (length rest) - 20)%nat with (S (length rest - 20)) by lia. done.
Qed.

Lemma popped_few builds :
  ¬ (MAX_NUM_BUILDS < length builds)%nat → popped builds = [].
Proof.
  unfold popped. intros H.
  replace (length builds - MAX_NUM_BUILDS)%nat with 0%nat by lia. done.
Qed.

(** The loop returns, and what it leaves. *)
Lemma expire_spec builds w :
  ∃ w', expire builds w = (Ok tt, w')
        ∧ cache w' = delete_all (popped builds).*1 (cache w)
        ∧ tmp w' = tmp w ∧ fetched w' = fetched w ∧ now w' = now w
        ∧ lines_out w' = lines_out w
        ∧ log w' = (log w ++ ((λ b, Log INFO ("Expiring " +:+ b.1)) <$> popped builds))%list.
Proof.
  revert w. induction builds as [|b rest IH]; intros w.
  - exists w. simpl. rewrite app_nil_r. done.
  - cbn [expire]. case_bool_decide as Hlen.
    + rewrite popped_cons by done.
      unfold bind, logging, rmtree, modify. cbn beta iota.
      destruct (IH (set_cache (delete b.1) (add_log (Log INFO ("Expiring " +:+ b.1)) w)))
        as (w' & -> & Hc & Ht & Hf & Hn & Hl & Hlog).
      exists w'. rewrite Hc, Ht, Hf, Hn, Hl, Hlog. simpl.
      rewrite <- app_assoc. done.
    + rewrite popped_few by done. exists w. simpl. rewrite app_nil_r. done.
Qed.

Lemma clean_cache_spec env preserve w :
  ∃ w', clean_cache env preserve w = (Ok tt, w')
        ∧ cache w' =
            delete_all (popped (sort_by_mtime (expired_builds env preserve w))).*1 (cache w)
        ∧ tmp w' = tmp w ∧ fetched w' = fetched w ∧ now w' = now w
        ∧ lines_out w' = lines_out w.
Proof.
  unfold clean_cache, bind, gets.
  destruct (expire_spec (sort_by_mtime (expired_builds env preserve w)) w)
    as (w' & H & ? & ? & ? & ? & ? & ?).
  exists w'. rewrite H. done.
Qed.

(** Sorting. *)
Lemma insert_by_mtime_perm b l : insert_by_mtime b l ≡ₚ b :: l.
Proof.
  induction l as [|c l IH]; simpl; [done|].
  case_bool_decide; [done|]. rewrite IH. apply perm_swap.
Qed.

Lemma sort_by_mtime_perm l : sort_by_mtime l ≡ₚ l.
Proof.
  induction l as [|b l IH]; simpl; [done|].
  rewrite insert_by_mtime_perm. by rewrite IH.
Qed.

Definition older (a b : string * Z) : Prop := a.2 ≤ b.2.

Lemma insert_by_mtime_sorted b l :
  StronglySorted older l → StronglySorted older (insert_by_mtime b l).
Proof.
  induction 1 as [|c l Hs IH Hall]; simpl.
  - repeat constructor.
  - case_bool_decide as Hle.
    + constructor; [by constructor|].
      constructor; [done|].
      eapply Forall_impl; [exact Hall|]. unfold older. intros; simpl in *; lia.
    + constructor; [done|].
      rewrite insert_by_mtime_perm. constructor; [|done].
      unfold older. lia.
Qed.

Lemma sort_by_mtime_sorted l : StronglySorted older (sort_by_mtime l).
Proof.
  induction l; simpl; [constructor | by apply insert_by_mtime_sorted].
Qed.

Lemma sorted_take_drop (l : list (string * Z)) n a b :
  StronglySorted older l → a ∈ take n l → b ∈ drop n l → a.2 ≤ b.2.
Proof.
  intros Hs. revert n. induction Hs as [|c l Hs IH Hall]; intros n Ha Hb.
  - rewrite take_nil in Ha. by apply elem_of_nil in Ha.
  - destruct n as [|n]; simpl in *; [by apply elem_of_nil in Ha|].
    apply elem_of_cons in Ha as [->|Ha]; [|by eapply IH].
    rewrite Forall_forall in Hall. apply Hall.
    eapply subseteq_drop, Hb.
Qed.

Lemma keep_build_preserved preserve w d : d ∈ preserve → keep_build preserve w d = true.
Proof.
  intros Hd. unfold keep_build.
  rewrite (bool_decide_eq_true_2 (d ∈ preserve)) by done.
  rewrite bool_decide_eq_false_2; [done|]. intros ->. by apply elem_of_nil in Hd.
Qed.

(** [keep_build] answers [False] exactly on the stale entries. *)
Lemma keep_build_false preserve w d :
  keep_build preserve w d = false ↔
  ∃ e, cache w !! d = Some e ∧ stale preserve (now w) (d, e).
Proof.
  unfold keep_build, lastused_mtime, stale. simpl. split.
  - destruct (bool_decide (d ∈ preserve)) eqn:Hin.
    + apply bool_decide_eq_true in Hin.
      rewrite bool_decide_eq_false_2; [done|]. intros ->. by apply elem_of_nil in Hin.
    + apply bool_decide_eq_false in Hin. rewrite andb_false_r.
      destruct (cache w !! d) as [e|]; simpl; [|done].
      destruct (lastused e) as [t|] eqn:Ht; simpl; [|done].
      intros Hold%bool_decide_eq_false. exists e. rewrite Ht. split_and!; [done..|lia].
  - intros (e & -> & Hnot & Hold). simpl.
    rewrite (bool_decide_eq_false_2 (d ∈ preserve)), andb_false_r by done.
    destruct (lastused e) as [t|]; simpl; [|done].
    apply bool_decide_eq_false. lia.
Qed.

Lemma elem_of_expired_builds env preserve w d t :
  (d, t) ∈ expired_builds env preserve w ↔
  d ∈ os_listdir env (cache w) ∧ keep_build preserve w d = false
  ∧ lastused_mtime w d = Some t.
Proof.
  unfold expired_builds. rewrite list_elem_of_omap. split.
  - intros (x & Hx & Hf). destruct (keep_build preserve w x) eqn:Hk; [done|].
    destruct (lastused_mtime w x) as [t'|] eqn:Hm; simplify_eq/=. done.
  - intros (Hd & Hk & Hm). exists d. by rewrite Hk, Hm.
Qed.

Lemma expired_builds_names env preserve w :
  (expired_builds env preserve w).*1
  = filter (λ d, keep_build preserve w d = false) (os_listdir env (cache w)).
Proof.
  unfold expired_builds. induction (os_listdir env (cache w)) as [|x l IH]; [done|].
  rewrite filter_cons. csimpl. destruct (keep_build preserve w x) eqn:Hk.
  - rewrite decide_False by done. done.
  - rewrite decide_True by done.
    apply keep_build_false in Hk as (e & He & _ & Hold). simpl in Hold.
    unfold lastused_mtime in *. rewrite He in *. simpl in *.
    destruct (lastused e); [|done]. csimpl. by rewrite IH.
Qed.

Lemma popped_expired env preserve w d :
  d ∈ (popped (sort_by_mtime (expired_builds env preserve w))).*1 →
  keep_build preserve w d = false.
Proof.
  intros ([d' t] & -> & Hin)%list_elem_of_fmap.
  apply subseteq_take in Hin. rewrite sort_by_mtime_perm in Hin.
  by apply elem_of_expired_builds in Hin as (_ & ? & _).
Qed.

Lemma preserved_not_popped env preserve w d :
  d ∈ preserve →
  delete_all (popped (sort_by_mtime (expired_builds env preserve w))).*1 (cache w) !! d
  = cache w !! d.
Proof.
  intros Hd. rewrite lookup_delete_all. case_decide as Hin; [|done].
  apply popped_expired in Hin. by rewrite keep_build_preserved in Hin.
Qed.

(** C1.  For every set of keys [preserve] and every cache state,
    [clean_cache preserve] returns and leaves every entry whose key is
    in [preserve] as it was, whatever the age of its [lastused] marker. *)
Theorem clean_cache_keeps_preserved env preserve w d :
  d ∈ preserve →
  ∃ w', clean_cache env preserve w = (Ok tt, w') ∧ cache w' !! d = cache w !! d.
Proof.
  intros Hd. destruct (clean_cache_spec env preserve w) as (w' & Hrun & Hc & _).
  exists w'. split; [done|]. rewrite Hc. by apply preserved_not_popped.
Qed.

(** Counting the entries of a map that satisfy a predicate through a
    duplicate-free list of their names. *)
Lemma size_filter_names (P : string * entry → Prop) `{!∀ kv, Decision (P kv)}
    (m : gmap string entry) (names : list string) :
  NoDup names →
  (∀ d, d ∈ names ↔ ∃ e, m !! d = Some e ∧ P (d, e)) →
  size (filter P m) = length names.
Proof.
  intros Hnd Hel. rewrite <- length_map_to_list.
  rewrite <- (length_fmap fst (map_to_list _)).
  apply Permutation_length, NoDup_Permutation; [apply NoDup_fst_map_to_list|done|].
  intros d. rewrite Hel, list_elem_of_fmap. split.
  - intros ([d' e] & -> & Hin). apply elem_of_map_to_list in Hin.
    apply map_lookup_filter_Some in Hin as [? ?]. eauto.
  - intros (e & He & HP). exists (d, e). split; [done|].
    apply elem_of_map_to_list, map_lookup_filter_Some. done.
Qed.

Section sweep.
Context (env : environ) (preserve : list string) (w : world).
Hypothesis Hlist : lists_every_name_once env w.

Let builds := sort_by_mtime (expired_builds env preserve w).
Let k := (length builds - MAX_NUM_BUILDS)%nat.

Lemma listed d : d ∈ os_listdir env (cache w) ↔ is_Some (cache w !! d).
Proof using Hlist.
  rewrite Hlist, list_elem_of_fmap. split.
  - intros ([d' e] & -> & Hin). apply elem_of_map_to_list in Hin. eauto.
  - intros [e He]. exists (d, e). split; [done|]. by apply elem_of_map_to_list.
Qed.

Lemma builds_names d :
  d ∈ builds.*1 ↔ ∃ e, cache w !! d = Some e ∧ stale preserve (now w) (d, e).
Proof using Hlist.
  unfold builds. rewrite sort_by_mtime_perm, expired_builds_names.
  rewrite list_elem_of_filter, keep_build_false, listed.
  split; [tauto|]. intros (e & He & Hst). eauto.
Qed.

Lemma builds_NoDup : NoDup builds.*1.
Proof using Hlist.
  unfold builds. rewrite sort_by_mtime_perm, expired_builds_names.
  apply NoDup_filter. rewrite Hlist. apply NoDup_fst_map_to_list.
Qed.

Lemma builds_mtime d t :
  (d, t) ∈ builds → ∃ e, cache w !! d = Some e ∧ lastused e = Some t.
Proof.
  unfold builds. rewrite sort_by_mtime_perm, elem_of_expired_builds.
  unfold lastused_mtime. intros (_ & _ & Hm).
  destruct (cache w !! d) as [e|]; simplify_eq/=. eauto.
Qed.

Lemma builds_split : builds.*1 = ((popped builds).*1 ++ (drop k builds).*1)%list.
Proof. unfold popped. fold k. by rewrite <- fmap_app, take_drop. Qed.

Lemma kept_names d :
  d ∈ (drop k builds).*1 ↔ d ∈ builds.*1 ∧ d ∉ (popped builds).*1.
Proof using Hlist.
  pose proof builds_NoDup as Hnd. rewrite builds_split in Hnd |- *.
  apply NoDup_app in Hnd as (_ & Hdisj & _). rewrite elem_of_app.
  split; [|tauto]. intros Hd. split; [tauto|]. intros Hp. by eapply Hdisj.
Qed.
(** What the sweep leaves, from the names it deletes. *)
Lemma sweep_result w' :
  (∀ d, cache w' !! d
        = if decide (d ∈ (popped builds).*1) then None else cache w !! d) →
  size (filter (stale preserve (now w)) (cache w'))
    = Nat.min (size (filter (stale preserve (now w)) (cache w))) MAX_NUM_BUILDS ∧
  (∀ d e, cache w !! d = Some e →
     cache w' !! d = Some e ∨ (cache w' !! d = None ∧ stale preserve (now w) (d, e))) ∧
  (∀ d e, cache w' !! d = Some e → cache w !! d = Some e) ∧
  (∀ d e t d' e' t',
     cache w !! d = Some e → cache w' !! d = None → lastused e = Some t →
     cache w' !! d' = Some e' → stale preserve (now w) (d', e') → lastused e' = Some t' →
     t ≤ t').
Proof using Hlist.
  intros Hlook. split_and!.
  - rewrite (size_filter_names _ (cache w) builds.*1);
      [|by apply builds_NoDup|by apply builds_names].
    rewrite (size_filter_names _ (cache w') (drop k builds).*1).
    + rewrite !length_fmap, length_drop. unfold k. lia.
    + eapply sublist_NoDup; [by apply builds_NoDup|].
      apply fmap_sublist, sublist_drop.
    + intros d. rewrite kept_names, builds_names.
      setoid_rewrite Hlook. case_decide as Hin.
      * split; [tauto|]. by intros (e & ? & _).
      * split; [tauto|]. intros (e & ? & ?). eauto.
  - intros d e He. rewrite Hlook. case_decide as Hin; [|by left]. right. split; [done|].
    apply popped_expired, keep_build_false in Hin as (e' & He' & Hst). by simplify_eq.
  - intros d e. rewrite Hlook. by case_decide.
  - intros d e t d' e' t' He Hgone Ht He' Hst' Ht'.
    rewrite Hlook in Hgone. rewrite Hlook in He'.
    destruct (decide (d ∈ (popped builds).*1)) as [Hin|]; [|congruence].
    destruct (decide (d' ∈ (popped builds).*1)) as [|Hin']; [done|].
    apply list_elem_of_fmap in Hin as ([d0 t0] & -> & Hin).
    assert (d' ∈ (drop k builds).*1) as ([d1 t1] & -> & Hkept)%list_elem_of_fmap.
    { apply kept_names. split; [|done]. apply builds_names; eauto. }
    simpl in *.
    pose proof (sorted_take_drop builds k _ _ (sort_by_mtime_sorted _) Hin Hkept) as Hle.
    apply subseteq_take, builds_mtime in Hin as (? & ? & ?).
    apply subseteq_drop, builds_mtime in Hkept as (? & ? & ?).
    simplify_eq/=. done.
Qed.
End sweep.

(** C2.  For every cache state whose listing names every entry once,
    [clean_cache preserve] returns; the stale entries (non-preserved,
    with a [lastused] marker older than [EXPIRE_AFTER_SECONDS]) that
    remain are as many as before or [MAX_NUM_BUILDS], whichever is less;
    only stale entries are removed, the others are untouched; and every
    removed entry has a [lastused] time no later than that of every
    stale entry that remains. *)
Theorem clean_cache_bound env preserve w :
  lists_every_name_once env w →
  ∃ w', clean_cache env preserve w = (Ok tt, w') ∧
    size (filter (stale preserve (now w)) (cache w'))
      = Nat.min (size (filter (stale preserve (now w)) (cache w))) MAX_NUM_BUILDS ∧
    (∀ d e, cache w !! d = Some e →
       cache w' !! d = Some e ∨ (cache w' !! d = None ∧ stale preserve (now w) (d, e))) ∧
    (∀ d e, cache w' !! d = Some e → cache w !! d = Some e) ∧
    (∀ d e t d' e' t',
       cache w !! d = Some e → cache w' !! d = None → lastused e = Some t →
       cache w' !! d' = Some e' → stale preserve (now w) (d', e') → lastused e' = Some t' →
       t ≤ t').
Proof.
  intros Hlist. destruct (clean_cache_spec env preserve w) as (w' & Hrun & Hc & _).
  exists w'. split; [done|]. apply (sweep_result env preserve w Hlist).
  intros d. by rewrite Hc, lookup_delete_all.
Qed.

(** On the crowded sample cache, where [b22] is the oldest of the
    twenty-two stale builds, a sweep that preserves it keeps it. *)
Lemma clean_cache_keeps_preserved_witness :
  "b22" ∈ ["b22"] ∧
  ∃ w', clean_cache (Samples.environ Samples.network_up) ["b22"] Samples.crowded_world
          = (Ok tt, w')
        ∧ cache w' !! "b22" = cache Samples.crowded_world !! "b22".
Proof.
  split; [apply list_elem_of_here|].
  apply (clean_cache_keeps_preserved (Samples.environ Samples.network_up) ["b22"]
           Samples.crowded_world "b22").
  apply list_elem_of_here.
Defined.

Lemma clean_cache_bound_witness :
  lists_every_name_once (Samples.environ Samples.network_up) Samples.crowded_world ∧
  ∃ w', clean_cache (Samples.environ Samples.network_up) [] Samples.crowded_world
          = (Ok tt, w') ∧
    size (filter (stale [] (now Samples.crowded_world)) (cache w'))
      = Nat.min (size (filter (stale [] (now Samples.crowded_world))
                         (cache Samples.crowded_world))) MAX_NUM_BUILDS.
Proof.
  assert (lists_every_name_once (Samples.environ Samples.network_up) Samples.crowded_world)
    as Hlist by (unfold lists_every_name_once; reflexivity).
  split; [exact Hlist|].
  destruct (clean_cache_bound (Samples.environ Samples.network_up) [] Samples.crowded_world
              Hlist) as (w' & Hrun & Hsize & _).
  exists w'. split; [exact Hrun | exact Hsize].
Defined.

(** The sweep on the crowded sample cache: the two oldest of the
    twenty-two stale builds go, the directory without a marker stays. *)
Example clean_cache_crowded :
  let w' := (clean_cache (Samples.environ Samples.network_up) [] Samples.crowded_world).2 in
  size (cache Samples.crowded_world) = 23%nat ∧ size (cache w') = 21%nat
  ∧ cache w' !! "b22" = None ∧ cache w' !! "b21" = None
  ∧ is_Some (cache w' !! "b20") ∧ is_Some (cache w' !! "notes")
  ∧ log w' = [Log INFO "Expiring b22"; Log INFO "Expiring b21"].
Proof. vm_compute. split_and!; eauto. Qed.

End CleanCache.

(** ** Build acquisition *)

Module Acquire.
Import Builds CleanCache.

(** A relation between the world before and the world after that every
    step of a computation respects. *)
Definition preserves {A} (R : relation world) (m : M world A) : Prop :=
  ∀ w r w', m w = (r, w') → R w w'.

Section preserves.
Context (R : relation world) `{!PreOrder R}.

Lemma preserves_ret {A} (a : A) : preserves R (ret a).
Proof. intros w r w' [= <- <-]. done. Qed.

Lemma preserves_raise {A} e : preserves R (raise (A := A) e).
Proof. intros w r w' [= <- <-]. done. Qed.

Lemma preserves_lift {A} (x : result A) : preserves R (lift x).
Proof. intros w r w' [= <- <-]. done. Qed.

Lemma preserves_gets {A} (f : world → A) : preserves R (gets f).
Proof. intros w r w' [= <- <-]. done. Qed.

Lemma preserves_modify f : (∀ w, R w (f w)) → preserves R (modify f).
Proof. intros Hf w r w' [= <- <-]. done. Qed.

Lemma preserves_bind {A B} (m : M world A) (k : A → M world B) :
  preserves R m → (∀ a, preserves R (k a)) → preserves R (bind m k).
Proof.
  intros Hm Hk w r w'. unfold bind. destruct (m w) as [[a|e] w1] eqn:Hmw.
  - intros Hkw. etrans; [by eapply Hm | by eapply Hk].
  - intros [= <- <-]. by eapply Hm.
Qed.

Lemma preserves_try_except {A} (m : M world A) h :
  preserves R m → (∀ e k, h e = Some k → preserves R k) →
  preserves R (try_except m h).
Proof.
  intros Hm Hh w r w'. unfold try_except. destruct (m w) as [[a|e] w1] eqn:Hmw.
  - intros [= <- <-]. by eapply Hm.
  - destruct (h e) as [k|] eqn:He.
    + intros Hkw. etrans; [by eapply Hm | by eapply Hh].
    + intros [= <- <-]. by eapply Hm.
Qed.
End preserves.

(** What the steps after the primary download leave alone in the
    entry [key]: its [build.apk], its [lastused] marker and its
    existence; the clock; and the downloads, which grow by none of the
    primary artifact. *)
Record keeps (key : string) (w w' : world) : Prop := Keeps {
  keeps_build_apk : cache w' !! key ≫= build_apk = cache w !! key ≫= build_apk;
  keeps_lastused : cache w' !! key ≫= lastused = cache w !! key ≫= lastused;
  keeps_entry : is_Some (cache w !! key) → is_Some (cache w' !! key);
  keeps_now : now w' = now w;
  keeps_fetched : ∃ l, fetched w' = (fetched w ++ l)%list ∧ BuildApk ∉ l.*1
}.

Global Instance keeps_preorder key : PreOrder (keeps key).
Proof.
  split.
  - intros w. split; try done. exists []. rewrite app_nil_r. split; [done|].
    apply not_elem_of_nil.
  - intros w1 w2 w3 [Ha1 Hl1 He1 Hn1 (l1 & Hf1 & Hno1)] [Ha2 Hl2 He2 Hn2 (l2 & Hf2 & Hno2)].
    split; try congruence; [tauto|].
    exists (l1 ++ l2)%list. rewrite Hf2, Hf1, app_assoc. split; [done|].
    rewrite fmap_app, not_elem_of_app. done.
Qed.

(** A change of an entry that touches neither file. *)
Definition harmless (f : entry → entry) : Prop :=
  ∀ e, build_apk (f e) = build_apk e ∧ lastused (f e) = lastused e.

Lemma keeps_alter key d f w :
  harmless f → keeps key w (set_cache (alter f d) w).
Proof.
  intros Hf. split; simpl; try done.
  - destruct (decide (d = key)) as [->|]; [|by rewrite lookup_alter_ne].
    rewrite lookup_alter_eq. destruct (cache w !! key) as [e|]; simpl; [|done].
    apply Hf.
  - destruct (decide (d = key)) as [->|]; [|by rewrite lookup_alter_ne].
    rewrite lookup_alter_eq. destruct (cache w !! key) as [e|]; simpl; [|done].
    apply Hf.
  - intros He. destruct (decide (d = key)) as [->|]; [|by rewrite lookup_alter_ne].
    rewrite lookup_alter_eq. by apply fmap_is_Some.
  - exists []. rewrite app_nil_r. split; [done|]. apply not_elem_of_nil.
Qed.

Lemma keeps_set_tmp key f w : keeps key w (set_tmp f w).
Proof.
  split; simpl; try done. exists []. rewrite app_nil_r. split; [done|].
  apply not_elem_of_nil.
Qed.

Lemma keeps_add_log key r w : keeps key w (add_log r w).
Proof.
  split; simpl; try done. exists []. rewrite app_nil_r. split; [done|].
  apply not_elem_of_nil.
Qed.

Lemma keeps_add_fetched key what url w :
  what ≠ BuildApk → keeps key w (add_fetched what url w).
Proof.
  intros Hne. split; simpl; try done. exists [(what, url)]. split; [done|].
  simpl. rewrite list_elem_of_singleton. done.
Qed.

Section keeps.
Context (key : string).
Local Abbreviation ok := (preserves (keeps key)).

Lemma ok_logging lvl msg : ok (logging lvl msg).
Proof. apply preserves_modify; []. apply keeps_add_log. Qed.

Lemma ok_logging_traceback lvl : ok (logging_traceback lvl).
Proof. apply preserves_modify; []. apply keeps_add_log. Qed.

Lemma ok_NamedTemporaryFile : ok NamedTemporaryFile.
Proof. intros w r w' [= <- <-]. apply keeps_set_tmp. Qed.

Lemma ok_os_unlink tmpf : ok (os_unlink tmpf).
Proof. apply preserves_modify; []. intros w. apply keeps_set_tmp. Qed.

Lemma ok_urlretrieve env what url tmpf :
  what ≠ BuildApk → ok (urlretrieve env what url tmpf).
Proof.
  intros Hne w r w'. unfold urlretrieve.
  destruct (network env _ url); intros [= <- <-];
    (etrans; [apply keeps_set_tmp | by apply keeps_add_fetched]).
Qed.

Lemma ok_os_rename tmpf d place :
  (∀ c, harmless (place c)) → ok (os_rename tmpf d place).
Proof.
  intros Hp w r w'. unfold os_rename. destruct (tmp w !! tmpf) as [c|].
  - intros [= <- <-]. etrans; [apply keeps_set_tmp | by apply keeps_alter].
  - intros [= <- <-]. done.
Qed.

Lemma ok_ZipFile tmpf : ok (ZipFile tmpf).
Proof.
  intros w r w'. unfold ZipFile.
  destruct (tmp w !! tmpf) as [[?|?]|]; intros [= <- <-]; done.
Qed.

Lemma ok_extractall members d dir place :
  (∀ files, harmless (place files)) → ok (extractall members d dir place).
Proof.
  intros Hp. induction members as [|[name [bytes|]] rest IH]; cbn [extractall].
  - by apply (preserves_ret _).
  - apply preserves_bind; [apply _| |done].
    apply preserves_modify; []. intros w. apply keeps_alter.
    intros e. apply Hp.
  - apply preserves_bind; [apply _| |intros; by apply (preserves_raise _)].
    apply preserves_modify; []. intros w. apply keeps_alter.
    intros e. apply Hp.
Qed.

Lemma ok_retrieve_or_return_None env what url msg :
  what ≠ BuildApk → ok (retrieve_or_return_None env what url msg).
Proof.
  intros Hne. unfold retrieve_or_return_None.
  apply preserves_bind; [apply _|apply ok_NamedTemporaryFile|]. intros tmpf.
  apply preserves_try_except; [apply _| |].
  - apply preserves_bind; [apply _|by apply ok_urlretrieve|].
    intros. by apply (preserves_ret _).
  - intros [] k Hk; simplify_eq.
    repeat (apply preserves_bind; [apply _| |intros]);
      auto using ok_os_unlink, ok_logging, ok_logging_traceback.
    by apply (preserves_ret _).
Qed.

Lemma ok_fetch_symbols env buildurl d : ok (fetch_symbols env buildurl d).
Proof.
  unfold fetch_symbols.
  apply preserves_bind; [apply _|apply ok_NamedTemporaryFile|]. intros tmpf.
  apply preserves_bind; [apply _| |intros; apply ok_os_unlink].
  apply preserves_try_except; [apply _| |].
  - apply preserves_bind; [apply _|by apply ok_urlretrieve|]. intros _.
    apply preserves_bind; [apply _|apply ok_ZipFile|]. intros members.
    apply ok_extractall. done.
  - intros [] k Hk; simplify_eq.
    + repeat (apply preserves_bind; [apply _|by apply (preserves_lift _)|intros]).
      case_match.
      * apply ok_logging.
      * apply preserves_bind; [apply _|apply ok_logging|intros].
        apply ok_logging_traceback.
    + apply preserves_bind; [apply _|apply ok_logging|intros].
      intros w r w'. destruct (tmp w !! tmpf); intros [= <- <-];
        [apply keeps_add_log|done].
Qed.

Lemma ok_fetch_tests env buildurl d : ok (fetch_tests env buildurl d).
Proof.
  unfold fetch_tests.
  apply preserves_bind; [apply _|by apply ok_retrieve_or_return_None|].
  intros [tmpf|]; [|by apply (preserves_ret _)].
  apply preserves_bind; [apply _|apply ok_ZipFile|]. intros members.
  apply preserves_bind; [apply _|by apply ok_extractall|]. intros _.
  apply preserves_bind; [apply _|apply ok_os_unlink|]. intros _.
  apply preserves_bind; [apply _|by apply ok_retrieve_or_return_None|].
  intros [tmpf'|]; [|by apply (preserves_ret _)].
  apply preserves_bind; [apply _|by apply ok_os_rename|]. intros _.
  apply preserves_bind; [apply _|by apply ok_retrieve_or_return_None|].
  intros [tmpf''|]; [|by apply (preserves_ret _)].
  apply preserves_bind; [apply _|by apply ok_os_rename|]. intros _.
  by apply (preserves_ret _).
Qed.
End keeps.

(** Running a computation step by step. *)
Lemma bind_ok {A B} (m : M world A) (k : A → M world B) w a w1 :
  m w = (Ok a, w1) → bind m k w = k a w1.
Proof. unfold bind. by intros ->. Qed.

Lemma bind_modify_world {B} (f : world → world) (k : unit → M world B) w :
  bind (modify f) k w = k tt (f w).
Proof. done. Qed.

Lemma bind_raise {A B} (m : M world A) (k : A → M world B) w e w1 :
  m w = (Raise e, w1) → bind m k w = (Raise e, w1).
Proof. unfold bind. by intros ->. Qed.

Lemma clean_cache_key env key w :
  ∃ w0, clean_cache env [key] w = (Ok tt, w0)
        ∧ cache w0 !! key = cache w !! key
        ∧ tmp w0 = tmp w ∧ fetched w0 = fetched w ∧ now w0 = now w.
Proof.
  destruct (clean_cache_spec env [key] w) as (w0 & Hrun & Hc & ? & ? & ? & _).
  exists w0. split_and!; try done.
  rewrite Hc. apply preserved_not_popped, list_elem_of_here.
Qed.

Lemma ensure_dir_spec key w :
  ∃ w1, ensure_dir key w = (Ok tt, w1)
        ∧ cache w1 !! key = Some (default empty_dir (cache w !! key))
        ∧ tmp w1 = tmp w ∧ fetched w1 = fetched w ∧ now w1 = now w.
Proof.
  unfold ensure_dir, bind, gets, ret, modify. case_bool_decide as He.
  - exists w. destruct He as [e ->]. done.
  - eexists. split; [done|]. simpl. rewrite lookup_insert_eq.
    apply eq_None_not_Some in He. by rewrite He.
Qed.

(** The temporary file of a failed download is gone afterwards. *)
Lemma tmp_restored (files : gmap nat content) c c' :
  delete (fresh (dom files)) (<[fresh (dom files) := c]> (<[fresh (dom files) := c']> files))
  = files.
Proof.
  rewrite insert_insert_eq, delete_insert_eq. apply delete_id.
  apply not_elem_of_dom, is_fresh.
Qed.

Lemma fetch_build_spec env buildurl key w :
  match network env (length (fetched w)) buildurl with
  | Fetched c =>
      ∃ w', fetch_build env buildurl key w = (Ok true, w')
            ∧ cache w' = alter (with_build_apk c) key (cache w)
            ∧ tmp w' = tmp w ∧ now w' = now w
            ∧ fetched w' = (fetched w ++ [(BuildApk, buildurl)])%list
  | FetchFailed _ _ _ =>
      ∃ w', fetch_build env buildurl key w = (Ok false, w')
            ∧ cache w' = cache w ∧ tmp w' = tmp w ∧ now w' = now w
            ∧ fetched w' = (fetched w ++ [(BuildApk, buildurl)])%list
            ∧ log w' = (log w ++ [Log ERROR ("IO Error retrieving build: " +:+ buildurl +:+ ".");
                                  LogTraceback ERROR])%list
  end.
Proof.
  unfold fetch_build, retrieve_or_return_None, NamedTemporaryFile, urlretrieve,
    try_except, bind, os_rename, os_unlink, logging, logging_traceback, modify, ret.
  simpl. destruct (network env (length (fetched w)) buildurl) as [c|p errno strerror]; simpl.
  - rewrite lookup_insert_eq. eexists. split; [done|]. simpl.
    by rewrite tmp_restored.
  - eexists. split; [done|]. simpl. rewrite tmp_restored.
    by rewrite <- app_assoc.
Qed.

Lemma touch_lastused_spec key w e :
  cache w !! key = Some e →
  ∃ w', touch_lastused key w = (Ok tt, w')
        ∧ cache w' !! key = Some (with_lastused (now w) e)
        ∧ tmp w' = tmp w ∧ now w' = now w ∧ fetched w' = fetched w.
Proof.
  intros He. eexists. split; [done|]. simpl. by rewrite lookup_alter_eq, He.
Qed.

(** What [get] does once the marker is touched: the symbols, then the
    tests. *)
Definition finish (env : environ) (self : BuildCache) (buildurl : string)
    (eu force : bool) : M world (option string) :=
  (let* have_symbols := exists_in symbols (Str.b64encode buildurl) in
   run (if force || negb have_symbols
        then fetch_symbols env buildurl (Str.b64encode buildurl)
        else ret tt) in
   if eu then
     let* have_tests := exists_in tests (Str.b64encode buildurl) in
     if (force || negb have_tests) && eu then
       let* fetched_all := fetch_tests env buildurl (Str.b64encode buildurl) in
       if fetched_all
       then ret (Some (Str.os_path_join (cache_dir self) (Str.b64encode buildurl)))
       else ret None
     else ret (Some (Str.os_path_join (cache_dir self) (Str.b64encode buildurl)))
   else ret (Some (Str.os_path_join (cache_dir self) (Str.b64encode buildurl))))%py.

(** Everything after the marker is touched respects [keeps]. *)
Lemma finish_keeps key env self buildurl (eu force : bool) :
  preserves (keeps key) (finish env self buildurl eu force).
Proof.
  unfold finish.
  apply preserves_bind; [apply _|apply (preserves_gets _)|]. intros have_symbols.
  apply preserves_bind; [apply _| |intros _].
  { case_match; [apply ok_fetch_symbols|apply (preserves_ret _)]. }
  destruct eu; [|apply (preserves_ret _)].
  apply preserves_bind; [apply _|apply (preserves_gets _)|]. intros have_tests.
  case_match; [|apply (preserves_ret _)].
  apply preserves_bind; [apply _|apply ok_fetch_tests|].
  intros []; apply (preserves_ret _).
Qed.

(** The entry of [key] as [get] finds it, or the directory it makes. *)
Definition found (w : world) (key : string) : entry :=
  default empty_dir (cache w !! key).

(** The three ways through [get] outside override mode: the download
    of the primary artifact is attempted and fails; it is attempted
    and succeeds; it is not attempted. *)
Inductive get_path (env : environ) (self : BuildCache) (buildurl key : string)
    (eu force : bool) (w : world) (r : result (option string)) (w' : world) : Prop :=
  | download_failed partial errno strerror :
      force = true ∨ build_apk (found w key) = None →
      network env (length (fetched w)) buildurl = FetchFailed partial errno strerror →
      r = Ok None →
      cache w' !! key = Some (found w key) →
      tmp w' = tmp w →
      fetched w' = (fetched w ++ [(BuildApk, buildurl)])%list →
      Log ERROR ("IO Error retrieving build: " +:+ buildurl +:+ ".") ∈ log w' →
      get_path env self buildurl key eu force w r w'
  | download_done c w2 :
      force = true ∨ build_apk (found w key) = None →
      network env (length (fetched w)) buildurl = Fetched c →
      cache w2 !! key = Some (with_lastused (now w) (with_build_apk c (found w key))) →
      fetched w2 = (fetched w ++ [(BuildApk, buildurl)])%list →
      now w2 = now w →
      finish env self buildurl eu force w2 = (r, w') →
      keeps key w2 w' →
      get_path env self buildurl key eu force w r w'
  | download_skipped w2 :
      force = false → is_Some (build_apk (found w key)) →
      cache w2 !! key = Some (with_lastused (now w) (found w key)) →
      fetched w2 = fetched w →
      now w2 = now w →
      finish env self buildurl eu force w2 = (r, w') →
      keeps key w2 w' →
      get_path env self buildurl key eu force w r w'.

Lemma get_cases env self buildurl eu force w r w' :
  truthy (override_build_dir self) = false →
  get env self buildurl eu force w = (r, w') →
  get_path env self buildurl (Str.b64encode buildurl) eu force w r w'.
Proof.
  intros Hov Hget. unfold get in Hget. rewrite Hov in Hget.
  set (key := Str.b64encode buildurl) in *.
  destruct (clean_cache_key env key w) as (w0 & Hcc & Hk0 & Ht0 & Hf0 & Hn0).
  rewrite (bind_ok _ _ _ _ _ Hcc) in Hget.
  destruct (ensure_dir_spec key w0) as (w1 & Hed & Hk1 & Ht1 & Hf1 & Hn1).
  rewrite (bind_ok _ _ _ _ _ Hed) in Hget.
  rewrite Hk0 in Hk1. fold (found w key) in Hk1. set (e0 := found w key) in *.
  unfold exists_in at 1 in Hget. unfold bind at 1, gets at 1 in Hget.
  rewrite Hk1 in Hget. cbn [mbind option_bind] in Hget.
  destruct (force || negb (bool_decide (is_Some (build_apk e0)))) eqn:Hattempt.
  - assert (force = true ∨ build_apk e0 = None) as Hwhy.
    { destruct force; [by left|right]. simpl in Hattempt.
      apply negb_true_iff, bool_decide_eq_false in Hattempt.
      by apply eq_None_not_Some. }
    pose proof (fetch_build_spec env buildurl key w1) as Hfb.
    rewrite Hf1, Hf0 in Hfb.
    destruct (network env (length (fetched w)) buildurl) as [c|p errno strerror] eqn:Hnet.
    + destruct Hfb as (w2 & Hrun & Hc2 & Ht2 & Hn2 & Hf2).
      rewrite (bind_ok _ _ _ _ _ Hrun) in Hget. cbn [negb] in Hget.
      destruct (touch_lastused_spec key w2 (with_build_apk c e0))
        as (w3 & Htl & Hk3 & Ht3 & Hn3 & Hf3).
      { by rewrite Hc2, lookup_alter_eq, Hk1. }
      rewrite (bind_ok _ _ _ _ _ Htl) in Hget.
      eapply (download_done _ _ _ _ _ _ _ _ _ c w3); try done; fold e0.
      * rewrite Hk3. do 2 f_equal. congruence.
      * congruence.
      * congruence.
      * eapply finish_keeps, Hget.
    + destruct Hfb as (w2 & Hrun & Hc2 & Ht2 & Hn2 & Hf2 & Hl2).
      rewrite (bind_ok _ _ _ _ _ Hrun) in Hget. cbn [negb] in Hget.
      injection Hget as <- <-.
      eapply download_failed; try done; fold e0.
      * by rewrite Hc2.
      * congruence.
      * rewrite Hl2, !elem_of_app, elem_of_cons. tauto.
  - apply orb_false_iff in Hattempt as [-> Hhave].
    apply negb_false_iff, bool_decide_eq_true in Hhave.
    unfold ret at 1 in Hget. unfold bind at 1 in Hget. cbn [negb] in Hget.
    destruct (touch_lastused_spec key w1 e0) as (w3 & Htl & Hk3 & Ht3 & Hn3 & Hf3); [done|].
    rewrite (bind_ok _ _ _ _ _ Htl) in Hget.
    eapply (download_skipped _ _ _ _ _ _ _ _ _ w3); try done; fold e0.
    + rewrite Hk3. do 2 f_equal. congruence.
    + congruence.
    + congruence.
    + eapply finish_keeps, Hget.
Qed.


(** C6.  Outside override mode, when the download of the primary
    artifact is attempted (forced, or no [build.apk] in the entry) and
    [urlretrieve] raises [IOError], [get] with tests disabled returns
    [None], has logged the failure, and leaves the entry as it found it
    (an empty directory if there was none), so no part of the download
    is in it; the temporary file is removed. *)
Theorem get_download_fails env self buildurl force w partial errno strerror :
  truthy (override_build_dir self) = false →
  force = true ∨ build_apk (found w (Str.b64encode buildurl)) = None →
  network env (length (fetched w)) buildurl = FetchFailed partial errno strerror →
  ∃ w', get env self buildurl false force w = (Ok None, w')
        ∧ Log ERROR ("IO Error retrieving build: " +:+ buildurl +:+ ".") ∈ log w'
        ∧ cache w' !! Str.b64encode buildurl = Some (found w (Str.b64encode buildurl))
        ∧ tmp w' = tmp w.
Proof.
  intros Hov Hwhy Hnet.
  destruct (get env self buildurl false force w) as [r w'] eqn:Hget.
  destruct (get_cases _ _ _ _ _ _ _ _ Hov Hget)
    as [? ? ? _ _ -> ? ? _ ?|? ? _ Hnet' _ _ _ _ _|w2 -> Hsome _ _ _ _ _].
  - exists w'. done.
  - congruence.
  - destruct Hwhy as [?|Hnone]; [done|]. rewrite Hnone in Hsome. by destruct Hsome.
Qed.


(** Twice in a row on an empty cache: the first [get] downloads the
    build and its symbols, the second downloads nothing. *)
Example get_twice :
  let env := Samples.environ Samples.network_up in
  let self := Samples.build_cache [] None in
  let first := get env self Samples.build_url false false Samples.fresh_world in
  let second := get env self Samples.build_url false false first.2 in
  first.1 = Ok (Some (Str.os_path_join "builds" Samples.build_key))
  ∧ second.1 = first.1
  ∧ fetched first.2
    = [(BuildApk, Samples.build_url);
       (Symbols, Str.re_sub_apk ".crashreporter-symbols.zip" Samples.build_url)]
  ∧ fetched second.2 = fetched first.2.
Proof. vm_compute. done. Qed.


Lemma get_download_fails_witness :
  let env := Samples.environ Samples.network_down in
  let self := Samples.build_cache [] None in
  ∃ w', get env self Samples.build_url false false Samples.fresh_world = (Ok None, w')
        ∧ Log ERROR ("IO Error retrieving build: " +:+ Samples.build_url +:+ ".") ∈ log w'
        ∧ cache w' !! Str.b64encode Samples.build_url
          = Some (found Samples.fresh_world (Str.b64encode Samples.build_url))
        ∧ tmp w' = tmp Samples.fresh_world.
Proof.
  apply (get_download_fails (Samples.environ Samples.network_down)
           (Samples.build_cache [] None) Samples.build_url false Samples.fresh_world
           (Raw "") (PStr "ftp error") (PEnvError (PInt 111) (PStr "Connection refused"))).
  - reflexivity.
  - right. reflexivity.
  - reflexivity.
Defined.

(** *** The symbols *)

(** [ioerror.strerror.strerror.message] and the test made on it. *)
Definition no_such_directory (ioerror_strerror : pyobj) : result bool :=
  match getattr_strerror ioerror_strerror with
  | Ok o1 =>
      match getattr_message o1 with
      | Ok o2 => str_in "550 Failed to change directory" o2
      | Raise e => Raise e
      end
  | Raise e => Raise e
  end.

Lemma extractall_result members d dir place w :
  (extractall members d dir place w).1 = Ok tt
  ∨ (extractall members d dir place w).1 = Raise BadZipfile.
Proof.
  revert w. induction members as [|[name [bytes|]] rest IH]; intros w; cbn [extractall].
  - by left.
  - rewrite bind_modify_world. apply IH.
  - right. done.
Qed.

(** The download of the symbols ends well whenever the file arrives,
    be it a corrupt archive, and when [urlretrieve] raises an [IOError]
    of the shape the handler reads; for any other [IOError] the handler
    itself raises. *)
Lemma fetch_symbols_result env buildurl key w :
  (fetch_symbols env buildurl key w).1 =
  match network env (length (fetched w))
          (Str.re_sub_apk ".crashreporter-symbols.zip" buildurl) with
  | Fetched _ => Ok tt
  | FetchFailed _ _ ioerror_strerror =>
      match no_such_directory ioerror_strerror with
      | Ok _ => Ok tt
      | Raise e => Raise e
      end
  end.
Proof.
  unfold fetch_symbols, NamedTemporaryFile. unfold bind at 1.
  unfold bind at 1. unfold try_except. unfold bind at 1. unfold urlretrieve at 1.
  cbn [fetched set_tmp].
  destruct (network env (length (fetched w)) _) as [c|p errno ioerror_strerror].
  - unfold bind at 1, ZipFile at 1. cbn [tmp add_fetched set_tmp].
    rewrite lookup_insert_eq. destruct c as [data|members].
    + unfold logging. rewrite bind_modify_world. cbn [tmp add_log add_fetched set_tmp].
      destruct (_ !! _); reflexivity.
    + match goal with
      | |- context [ extractall members key symbols with_symbols ?w1 ] =>
          destruct (extractall_result members key symbols with_symbols w1) as [Hr|Hr];
          destruct (extractall members key symbols with_symbols w1) as [r w2];
          simpl in Hr; subst r
      end.
      * reflexivity.
      * unfold logging. rewrite bind_modify_world. cbn [tmp add_log].
        destruct (tmp w2 !! _); reflexivity.
  - unfold no_such_directory, lift, bind.
    destruct (getattr_strerror ioerror_strerror) as [o1|e]; [|reflexivity].
    destruct (getattr_message o1) as [o2|e]; [|reflexivity].
    destruct (str_in _ o2) as [[]|e]; reflexivity.
Qed.

Lemma finish_without_tests env self buildurl force w :
  (finish env self buildurl false force w).1 =
  if force || negb (bool_decide (is_Some (cache w !! Str.b64encode buildurl ≫= symbols)))
  then match (fetch_symbols env buildurl (Str.b64encode buildurl) w).1 with
       | Ok _ => Ok (Some (Str.os_path_join (cache_dir self) (Str.b64encode buildurl)))
       | Raise e => Raise e
       end
  else Ok (Some (Str.os_path_join (cache_dir self) (Str.b64encode buildurl))).
Proof.
  unfold finish, exists_in, gets. unfold bind at 1.
  destruct (force || negb _); [|reflexivity].
  unfold bind. destruct (fetch_symbols _ _ _ w) as [[[]|e] w1]; reflexivity.
Qed.

(** With the primary artifact cached and no symbols yet, [get] without
    tests answers the cache directory whenever the symbols arrive, in
    whatever state, and when their download raises an [IOError] of the
    shape the handler reads; for any other [IOError] it raises what the
    handler raises. *)
Lemma get_symbols_outcome env self buildurl w e r w' :
  truthy (override_build_dir self) = false →
  cache w !! Str.b64encode buildurl = Some e →
  is_Some (build_apk e) → symbols e = None →
  get env self buildurl false false w = (r, w') →
  r = match network env (length (fetched w))
              (Str.re_sub_apk ".crashreporter-symbols.zip" buildurl) with
      | Fetched _ => Ok (Some (Str.os_path_join (cache_dir self) (Str.b64encode buildurl)))
      | FetchFailed _ _ ioerror_strerror =>
          match no_such_directory ioerror_strerror with
          | Ok _ => Ok (Some (Str.os_path_join (cache_dir self) (Str.b64encode buildurl)))
          | Raise ex => Raise ex
          end
      end.
Proof.
  intros Hov He Hapk Hsym Hget.
  destruct (get_cases _ _ _ _ _ _ _ _ Hov Hget)
    as [? ? ? [?|Hnone]|? ? [?|Hnone]|w2 _ _ Hk2 Hf2 _ Hfin _];
    try done; unfold found in *; rewrite He in *; simpl in *.
  - rewrite Hnone in Hapk. by destruct Hapk.
  - rewrite Hnone in Hapk. by destruct Hapk.
  - pose proof (finish_without_tests env self buildurl false w2) as Hr.
    rewrite Hfin, Hk2 in Hr. simpl in Hr. rewrite Hsym in Hr. simpl in Hr.
    rewrite fetch_symbols_result, Hf2 in Hr. rewrite Hr.
    destruct (network env _ _) as [c|p errno s]; [done|].
    by destruct (no_such_directory s).
Qed.

(** The shapes: the nested error of a missing directory on an FTP
    server is read; the error of a refused connection is not. *)
Example no_such_directory_550 :
  no_such_directory
    (PEnvError (PStr "ftp error") (PException "550 Failed to change directory."))
  = Ok true.
Proof. reflexivity. Qed.

Example no_such_directory_refused :
  no_such_directory (PEnvError (PInt 111) (PStr "Connection refused"))
  = Raise (AttributeError "'str' object has no attribute 'message'").
Proof. reflexivity. Qed.

(** C7 (what the code does).  Nothing is cached, the server sends the
    primary artifact and then refuses the connection for the symbols:
    [urlretrieve] raises [IOError('ftp error', socket.error(111,
    'Connection refused'))], the handler reads
    [ioerror.strerror.strerror.message], and [get] ends with the
    [AttributeError] of that expression instead of the cache directory;
    the primary artifact is in place and the temporary file of the
    symbols is left behind. *)
Theorem get_symbols_connection_refused :
  let outcome :=
    get (Samples.environ Samples.network_drops) (Samples.build_cache [] None)
      Samples.build_url false false Samples.fresh_world in
  outcome.1 = Raise (AttributeError "'str' object has no attribute 'message'")
  ∧ cache outcome.2 !! Samples.build_key ≫= build_apk = Some Samples.fennec_apk
  ∧ fetched outcome.2
    = [(BuildApk, Samples.build_url);
       (Symbols, Str.re_sub_apk ".crashreporter-symbols.zip" Samples.build_url)]
  ∧ size (tmp outcome.2) = 1%nat.
Proof. vm_compute. done. Qed.

(** The same server answering the symbols with a missing directory or
    with bytes that are no archive: [get] returns the directory. *)
Example get_symbols_missing_or_corrupt :
  let dir := Some (Str.os_path_join "builds" Samples.build_key) in
  let missing (n : nat) (url : string) :=
    match n with
    | O => Fetched Samples.fennec_apk
    | S _ => FetchFailed (Raw "") (PStr "ftp error")
               (PEnvError (PStr "ftp error")
                  (PException "550 Failed to change directory."))
    end in
  let corrupt (n : nat) (url : string) :=
    match n with
    | O => Fetched Samples.fennec_apk
    | S _ => Fetched (Raw "<html>404 Not Found</html>")
    end in
  (get (Samples.environ missing) (Samples.build_cache [] None)
     Samples.build_url false false Samples.fresh_world).1 = Ok dir
  ∧ (get (Samples.environ corrupt) (Samples.build_cache [] None)
       Samples.build_url false false Samples.fresh_world).1 = Ok dir.
Proof. vm_compute. done. Qed.

End Acquire.

(** ** Build discovery *)

Module Discovery.
Import Builds.

(** The [while] loop of [Nightly.ftpdirs] ends within the rounds it
    is given: more rounds change nothing. *)
Lemma nightly_ftpdirs_loop_ends rounds extra y m end_year end_month :
  1 ≤ m ≤ 12 → 1 ≤ end_month ≤ 12 →
  (end_year * 12 + end_month) - (y * 12 + m) + 1 ≤ Z.of_nat rounds →
  nightly_ftpdirs_loop (rounds + extra) y m end_year end_month
  = nightly_ftpdirs_loop rounds y m end_year end_month.
Proof.
  revert y m. induction rounds as [|rounds IH]; intros y m Hm Hend Hrounds.
  - destruct extra as [|extra]; [done|]. simpl.
    rewrite bool_decide_eq_false_2; [done|]. lia.
  - cbn [Nat.add nightly_ftpdirs_loop].
    case_bool_decide as Hgo; [|done]. f_equal.
    case_bool_decide as Hdec; apply IH; lia.
Qed.

Example nightly_ftpdirs_two_months :
  ftpdirs (Samples.build_cache [] None) Nightly
    (Datetime (Samples.noon - 30 * Samples.day) None) (Datetime Samples.noon None)
  = ["ftp://ftp.mozilla.org/pub/mobile/nightly/2012/05/";
     "ftp://ftp.mozilla.org/pub/mobile/nightly/2012/06/"].
Proof. vm_compute. reflexivity. Qed.

(** [builds.sort()] puts the strings in byte order. *)
Lemma insert_str_perm x l : insert_str x l ≡ₚ x :: l.
Proof.
  induction l as [|y l IH]; simpl; [done|].
  destruct (String.leb x y); [done|]. rewrite IH. apply perm_swap.
Qed.

Lemma sort_str_perm l : sort_str l ≡ₚ l.
Proof.
  induction l as [|x l IH]; simpl; [done|]. by rewrite insert_str_perm, IH.
Qed.

Lemma insert_str_sorted x l :
  StronglySorted String.le l → StronglySorted String.le (insert_str x l).
Proof.
  induction 1 as [|y l Hs IH Hall]; simpl.
  - repeat constructor.
  - destruct (String.leb x y) eqn:Hle.
    + assert (String.le x y) as Hxy by (unfold String.le; by rewrite Hle).
      constructor; [by constructor|]. constructor; [done|].
      eapply Forall_impl; [exact Hall|]. intros z Hyz. by etrans.
    + assert (String.le y x) as Hyx.
      { destruct (total String.le x y) as [Hxy|]; [|done].
        unfold String.le in Hxy. by rewrite Hle in Hxy. }
      constructor; [done|]. rewrite insert_str_perm. by constructor.
Qed.

Lemma sort_str_sorted l : StronglySorted String.le (sort_str l).
Proof. induction l; simpl; [constructor | by apply insert_str_sorted]. Qed.

Lemma sorted_last_max (l : list string) u :
  StronglySorted String.le l → last l = Some u → ∀ v, v ∈ l → String.le v u.
Proof.
  induction 1 as [|x l Hs IH Hall]; [done|]. intros Hlast v Hv.
  destruct l as [|y l].
  - simplify_eq/=. apply list_elem_of_singleton in Hv as ->. done.
  - change (last (x :: y :: l)) with (last (y :: l)) in Hlast.
    apply elem_of_cons in Hv as [->|Hv]; [|by apply IH].
    rewrite Forall_forall in Hall. apply Hall. by eapply last_Some_elem_of.
Qed.

(** What [builds[-1]] is after the sort: one of the builds, and the
    last of them in byte order. *)
Lemma last_sort_str builds :
  builds ≠ [] →
  ∃ u, last (sort_str builds) = Some u ∧ u ∈ builds ∧ ∀ v, v ∈ builds → String.le v u.
Proof.
  intros Hne. destruct (last (sort_str builds)) as [u|] eqn:Hlast.
  - exists u. split; [done|]. split.
    + rewrite <- (sort_str_perm builds). by eapply last_Some_elem_of.
    + intros v Hv. eapply sorted_last_max; [apply sort_str_sorted|done|].
      by rewrite sort_str_perm.
  - apply last_None in Hlast. destruct builds as [|b builds]; [done|].
    pose proof (sort_str_perm (b :: builds)) as Hp. rewrite Hlast in Hp.
    by apply Permutation_nil_cons in Hp.
Qed.

(** [find_latest_build] from what [find_builds] finds in the window of
    three days before now: nothing found gives [None] and a line in
    the log, builds found give the last URL in byte order, and an
    error of [find_builds] is passed on. *)
Lemma find_latest_build_of env self name w r w1 :
  find_builds env self (Datetime (now w - 3 * 86400 * usec) None) (Datetime (now w) None)
    name w = (r, w1) →
  find_latest_build env self name w =
  match r with
  | Ok [] =>
      (Ok None,
       add_log (Log ERROR "Could not find any nightly builds in the last 3 days!") w1)
  | Ok builds => (Ok (last (sort_str builds)), w1)
  | Raise e => (Raise e, w1)
  end.
Proof.
  intros Hfind. unfold find_latest_build, gets. unfold bind at 1. cbn [wall].
  unfold bind at 1. rewrite Hfind. destruct r as [[|b builds]|e]; reflexivity.
Qed.

(** C8 (what the code does).  Two repositories are watched and the
    tinderbox server has a build of each in the last three days, the
    one of mozilla-central made at 1340000000 and the one of
    mozilla-inbound at 1339900000.  [find_builds] finds both, and
    [find_latest_build] answers the mozilla-inbound build: it is the
    last URL in byte order, and by the timestamp in its URL the older
    of the two. *)
Theorem find_latest_build_by_url :
  let env := Samples.environ Samples.network_up in
  let self := Samples.build_cache ["mozilla-central"; "mozilla-inbound"] None in
  let w := Samples.fresh_world in
  let central :=
    "ftp://ftp.mozilla.org/pub/mozilla.org/mobile/tinderbox-builds/mozilla-central-android/1340000000/fennec-16.0a1.en-US.android-arm.apk" in
  let inbound :=
    "ftp://ftp.mozilla.org/pub/mozilla.org/mobile/tinderbox-builds/mozilla-inbound-android/1339900000/fennec-16.0a1.en-US.android-arm.apk" in
  (find_builds env self (Datetime (now w - 3 * 86400 * usec) None) (Datetime (now w) None)
     "tinderbox" w).1 = Ok [central; inbound]
  ∧ (find_latest_build env self "tinderbox" w).1 = Ok (Some inbound)
  ∧ build_date_from_url env Tinderbox central
    = Ok (Some (fromtimestamp_pacific env 1340000000))
  ∧ build_date_from_url env Tinderbox inbound
    = Ok (Some (fromtimestamp_pacific env 1339900000))
  ∧ instant (fromtimestamp_pacific env 1339900000)
    < instant (fromtimestamp_pacific env 1340000000).
Proof. vm_compute. done. Qed.

(** With one repository the same server gives the build of that
    repository, and a server without builds in the window gives
    [None]. *)
Example find_latest_build_one_repository :
  (find_latest_build (Samples.environ Samples.network_up)
     (Samples.build_cache ["mozilla-central"] None) "tinderbox" Samples.fresh_world).1
  = Ok (Some "ftp://ftp.mozilla.org/pub/mozilla.org/mobile/tinderbox-builds/mozilla-central-android/1340000000/fennec-16.0a1.en-US.android-arm.apk").
Proof. vm_compute. done. Qed.

Example find_latest_build_nothing :
  (find_latest_build (Samples.environ Samples.network_up)
     (Samples.build_cache ["mozilla-central"] None) "nightly" Samples.fresh_world).1
  = Ok None.
Proof. vm_compute. done. Qed.

End Discovery.

(** ** The liveness sweep and the job pipeline *)

Module Orchestrator.
Import Autophone.

Lemma ap_bind_ok {S A B} (m : Py.M S A) (k : A → Py.M S B) s a s1 :
  m s = (Ok a, s1) → bind m k s = k a s1.
Proof. unfold bind. by intros ->. Qed.

Lemma bind_modify {S B} (f : S → S) (k : unit → Py.M S B) s :
  bind (modify f) k s = k tt (f s).
Proof. done. Qed.

Section sweep.
Context {C : Type} `{Crashes C} (env : environ).

(** A worker after the sweep found it dead: stopped, one crash
    counted, started again in the state the crash predicate picks. *)
Definition restarted (w : PhoneWorker C) : PhoneWorker C :=
  let counted := add_crash (crashes w) in
  Worker (phone_cfg w) counted
    (Running (if too_many_crashes counted then DISABLED else DISCONNECTED))
    (jobs w).

Lemma alter_restart (m : gmap string (PhoneWorker C)) id w :
  m !! id = Some w →
  alter (start (if too_many_crashes (add_crash (crashes w)) then DISABLED else DISCONNECTED))
    id (alter crashes_add_crash id (alter stop id m))
  = <[id := restarted w]> m.
Proof.
  intros Hw. apply map_eq. intros j. destruct (decide (id = j)) as [->|Hne].
  - rewrite !lookup_alter_eq, lookup_insert_eq, Hw. done.
  - rewrite !lookup_alter_ne, lookup_insert_ne by done. done.
Qed.



End sweep.

(** The fields [is_valid_job] looks for. *)
Definition required_fields : list string :=
  ["androidprocname"; "revision"; "blddate"; "bldtype"; "version"].

(** The source repositories of the lookup table of [build_job]. *)
Definition known_repositories : list string :=
  ["http://hg.mozilla.org/mozilla-central";
   "http://hg.mozilla.org/integration/mozilla-inbound";
   "http://hg.mozilla.org/releases/mozilla-aurora";
   "http://hg.mozilla.org/releases/mozilla-beta"].

Lemma self_logger : self_getattr "logger"
  = Raise (AttributeError "'AutoPhone' object has no attribute 'logger'").
Proof. reflexivity. Qed.

Section pipeline.
Context {C : Type} `{Crashes C} (env : environ).

Lemma error_list_empty (job : gmap string value) :
  (0 < length (missing "androidprocname" job ++ missing "revision" job
               ++ missing "blddate" job ++ missing "bldtype" job
               ++ missing "version" job))%nat
  ↔ ¬ Forall (λ k, is_Some (job !! k)) required_fields.
Proof.
  unfold required_fields, missing. rewrite !Forall_cons, Forall_nil.
  rewrite !length_app.
  repeat case_bool_decide; simpl;
    repeat match goal with
           | Hk : ?o = None |- _ => rewrite Hk
           | Hk : ?o ≠ None |- _ => apply not_eq_None_Some in Hk
           end;
    split; try lia; try tauto; intros _;
    rewrite <- ?not_eq_None_Some; intuition congruence.
Qed.

(** C4 (what the code does).  [is_valid_job] answers [True] for a
    descriptor that has every required field.  For a descriptor
    without one of them it builds the message that names the missing
    fields and then fails on [self.logger], an attribute no
    [AutoPhone] has: the error raised is that [AttributeError], not
    the [NameError] that carries the message, and nothing is logged. *)
Theorem is_valid_job_missing_field (job : gmap string value) (s : state C) :
  is_valid_job env (Some job) s
  = if decide (Forall (λ k, is_Some (job !! k)) required_fields)
    then (Ok true, s)
    else (Raise (AttributeError "'AutoPhone' object has no attribute 'logger'"), s).
Proof.
  unfold is_valid_job. case_bool_decide as Hlen; rewrite error_list_empty in Hlen.
  - rewrite decide_False by done. by rewrite self_logger.
  - apply dec_stable in Hlen. by rewrite decide_True.
Qed.

(** C10.  For the null job descriptor [is_valid_job] answers [False]
    and raises nothing, and [start_tests] returns at once: the
    registry, and with it what every worker was handed, is as
    before. *)
Theorem start_tests_null_job (s : state C) :
  is_valid_job env None s = (Ok false, s) ∧ start_tests env None s = (Ok tt, s).
Proof. done. Qed.

(** C9 (what the code does).  When [application.ini] names a source
    repository outside the table and everything before the table
    goes well, [build_job] returns no descriptor: building the
    dictionary reads the local variable [tree], which was never
    bound, and raises [UnboundLocalError].  The scratch directory is
    left behind, and [on_build] passes the error on without reaching
    [start_tests], so no worker is handed a job. *)
Theorem build_job_unknown_repository (s : state C) cache_build_dir sections app
    rev ver repo buildid blddate buildurl :
  cache_build_dir ≠ "" →
  build_apks s !! Str.os_path_join cache_build_dir "build.apk"
    = Some (ApplicationIni sections) →
  sections !! "App" = Some app →
  app !! "sourcestamp" = Some rev →
  app !! "version" = Some ver →
  app !! "sourcerepository" = Some repo →
  app !! "buildid" = Some buildid →
  strptime env buildid "%Y%m%d%H%M%S" = Some blddate →
  repo ∉ known_repositories →
  get_build env buildurl = Some cache_build_dir →
  let unbound :=
    UnboundLocalError "local variable 'tree' referenced before assignment" in
  build_job env (Some cache_build_dir) s = (Raise unbound, set_scratch S s)
  ∧ on_build env (Some buildurl) s = (Raise unbound, set_scratch S s)
  ∧ phone_workers (set_scratch S s) = phone_workers s.
Proof.
  intros Hdir Hapk Happ Hrev Hver Hrepo Hid Htime Hunknown Hget unbound.
  assert (build_job env (Some cache_build_dir) s = (Raise unbound, set_scratch S s))
    as Hjob.
  { unfold build_job. destruct cache_build_dir as [|c dir]; [done|].
    unfold mkdtemp. rewrite bind_modify.
    unfold bind at 1. unfold try_except, bind at 1, extract_application_ini.
    cbn [build_apks set_scratch]. rewrite Hapk. cbn [ret].
    unfold cfg_get. rewrite Happ.
    change (Str.lower "SourceStamp") with "sourcestamp".
    change (Str.lower "Version") with "version".
    change (Str.lower "SourceRepository") with "sourcerepository".
    change (Str.lower "BuildID") with "buildid".
    rewrite Hrev, Hver, Hrepo, Hid. unfold bind, ret. cbn beta iota.
    rewrite Htime. cbn beta iota.
    assert ((tree_and_procname repo).1 = None) as ->; [|done].
    unfold tree_and_procname, known_repositories in *.
    rewrite !not_elem_of_cons in Hunknown.
    repeat (case_bool_decide; [tauto|]). done. }
  split; [done|]. split; [|done].
  unfold on_build. rewrite Hget. unfold bind. by rewrite Hjob.
Qed.
End pipeline.


(** With the sample counter, which trips above five crashes, a worker
    found dead sweep after sweep is started disconnected five times and
    disabled from the sixth time on. *)
Example restarted_six_times :
  let w := Worker (Samples.phone "aa_bb_cc_00_00_02_nexus_s") 0%nat Dead [] in
  (λ n, proc (Nat.iter n restarted w)) <$> seq 1 7
  = [Running DISCONNECTED; Running DISCONNECTED; Running DISCONNECTED;
     Running DISCONNECTED; Running DISCONNECTED; Running DISABLED; Running DISABLED].
Proof. reflexivity. Qed.

Example is_valid_job_only_revision :
  (is_valid_job (C := nat) (Samples.orchestrator_environ Samples.delivers)
     (Some {[ "revision" := VStr "f8a1e2c4b6d0" ]}) Samples.orchestrator_state).1
  = Raise (AttributeError "'AutoPhone' object has no attribute 'logger'").
Proof. vm_compute. done. Qed.

(** A descriptor whose process name is the empty string and whose tree
    is absent has every field [is_valid_job] looks for. *)
Example is_valid_job_empty_procname :
  (is_valid_job (C := nat) (Samples.orchestrator_environ Samples.delivers)
     (Some {[ "androidprocname" := VStr ""; "revision" := VStr "f8a1e2c4b6d0";
              "blddate" := VInt 1340000000; "bldtype" := VStr "opt";
              "version" := VStr "14.0" ]}) Samples.orchestrator_state).1
  = Ok true.
Proof. vm_compute. done. Qed.

(** A build of mozilla-central gives a descriptor that is handed to
    every worker. *)
Example on_build_central :
  let ini : gmap string (gmap string string) :=
    {[ "App" := {[ "sourcestamp" := "f8a1e2c4b6d0"; "version" := "16.0a1";
                   "sourcerepository" := "http://hg.mozilla.org/mozilla-central";
                   "buildid" := "20120618061320" ]} ]} in
  let s := State Samples.fleet [] [] []
             {[ Str.os_path_join Samples.release_build_dir "build.apk" := ApplicationIni ini ]}
             0 in
  let outcome :=
    on_build (Samples.orchestrator_environ Samples.delivers) (Some Samples.build_url) s in
  outcome.1 = Ok tt
  ∧ (λ kw, length (jobs kw.2)) <$> map_to_list (phone_workers outcome.2)
    = [1%nat; 1%nat; 1%nat]
  ∧ scratch outcome.2 = 0%nat.
Proof. vm_compute. done. Qed.

Lemma build_job_unknown_repository_witness :
  let env := Samples.orchestrator_environ Samples.delivers in
  let s := Samples.orchestrator_state in
  let unbound :=
    UnboundLocalError "local variable 'tree' referenced before assignment" in
  build_job env (Some Samples.release_build_dir) s = (Raise unbound, set_scratch S s)
  ∧ on_build env (Some Samples.build_url) s = (Raise unbound, set_scratch S s)
  ∧ phone_workers (set_scratch S s) = phone_workers s.
Proof.
  apply (build_job_unknown_repository
           (Samples.orchestrator_environ Samples.delivers) Samples.orchestrator_state
           Samples.release_build_dir Samples.release_ini
           {[ "sourcestamp" := "f8a1e2c4b6d0"; "version" := "14.0";
              "sourcerepository" := "http://hg.mozilla.org/releases/mozilla-release";
              "buildid" := "20120618061320" ]}
           "f8a1e2c4b6d0" "14.0" "http://hg.mozilla.org/releases/mozilla-release"
           "20120618061320" 1340000000 Samples.build_url).
  - vm_compute. discriminate.
  - vm_compute. reflexivity.
  - vm_compute. reflexivity.
  - vm_compute. reflexivity.
  - vm_compute. reflexivity.
  - vm_compute. reflexivity.
  - vm_compute. reflexivity.
  - vm_compute. reflexivity.
  - apply (bool_decide_unpack _). vm_compute. exact I.
  - vm_compute. reflexivity.
Defined.

End Orchestrator.

(** * Further properties *)

(** ** The eviction sweep, further *)

Module Eviction.
Import Builds CleanCache.

(** [os.listdir] names every entry once, whatever the directory holds. *)
Definition lists_names_once (env : environ) : Prop :=
  ∀ m, os_listdir env m ≡ₚ (map_to_list m).*1.

Lemma expire_few builds w :
  (length builds ≤ MAX_NUM_BUILDS)%nat → expire builds w = (Ok tt, w).
Proof.
  intros Hlen. destruct builds as [|b rest]; [done|]. cbn [expire].
  rewrite bool_decide_eq_false_2; [done|]. lia.
Qed.

Lemma stale_count env preserve w :
  lists_every_name_once env w →
  length (sort_by_mtime (expired_builds env preserve w))
  = size (filter (stale preserve (now w)) (cache w)).
Proof.
  intros Hlist.
  rewrite (size_filter_names _ (cache w) (sort_by_mtime (expired_builds env preserve w)).*1).
  - by rewrite length_fmap.
  - by apply builds_NoDup.
  - by apply builds_names.
Qed.

(** X1.  With no more stale entries than [MAX_NUM_BUILDS], the sweep deletes
    nothing and logs nothing, however old the entries are. *)
Theorem clean_cache_few_stale env preserve w :
  lists_every_name_once env w →
  (size (filter (stale preserve (now w)) (cache w)) ≤ MAX_NUM_BUILDS)%nat →
  clean_cache env preserve w = (Ok tt, w).
Proof.
  intros Hlist Hfew. unfold clean_cache, bind, gets.
  apply expire_few. by rewrite stale_count.
Qed.

Lemma clean_cache_few_stale_witness :
  let env := Samples.environ Samples.network_up in
  clean_cache env [] Samples.cached_world = (Ok tt, Samples.cached_world).
Proof.
  apply (clean_cache_few_stale (Samples.environ Samples.network_up) [] Samples.cached_world).
  - unfold lists_every_name_once. reflexivity.
  - vm_compute. lia.
Defined.

(** X2.  What a sweep leaves, a second sweep at the same instant with the
    same keys to preserve leaves alone. *)
Theorem clean_cache_twice env preserve w w1 :
  lists_names_once env →
  clean_cache env preserve w = (Ok tt, w1) →
  clean_cache env preserve w1 = (Ok tt, w1).
Proof.
  intros Hlist Hrun.
  destruct (clean_cache_spec env preserve w) as (w1' & Hrun' & Hc & _ & _ & Hnow & _).
  rewrite Hrun in Hrun'. injection Hrun' as <-.
  apply clean_cache_few_stale; [apply Hlist|].
  destruct (sweep_result env preserve w (Hlist _) w1) as (Hsize & _).
  { intros d. by rewrite Hc, lookup_delete_all. }
  rewrite Hnow, Hsize. lia.
Qed.

Lemma clean_cache_twice_witness :
  let env := Samples.environ Samples.network_up in
  let w1 := (clean_cache env [] Samples.crowded_world).2 in
  size (cache w1) = 21%nat ∧ clean_cache env [] w1 = (Ok tt, w1).
Proof.
  split; [vm_compute; reflexivity|].
  apply (clean_cache_twice (Samples.environ Samples.network_up) [] Samples.crowded_world).
  - intros m. reflexivity.
  - vm_compute. reflexivity.
Defined.

Lemma sorted_take (l : list (string * Z)) n :
  StronglySorted older l → StronglySorted older (take n l).
Proof.
  intros Hs. revert n. induction Hs as [|b l Hs IH Hall]; intros [|n]; simpl;
    try constructor; [apply IH|].
  eapply Forall_impl; [|done]. apply Forall_forall. intros x Hx.
  rewrite Forall_forall in Hall. apply Hall. by eapply subseteq_take.
Qed.

(** X3.  The sweep writes one line, [Expiring <name>], for each directory it
    deletes and no other; the lines come oldest marker first, no name
    comes twice, and the directories named are the ones that were there
    before and are gone after.  Temporary files, the record of
    downloads and the clock are not touched. *)
Theorem clean_cache_log env preserve w :
  lists_every_name_once env w →
  ∃ w' (removed : list (string * Z)),
    clean_cache env preserve w = (Ok tt, w')
    ∧ log w' = (log w ++ ((λ b, Log INFO ("Expiring " +:+ b.1)) <$> removed))%list
    ∧ StronglySorted older removed
    ∧ NoDup removed.*1
    ∧ (∀ d t, (d, t) ∈ removed ↔
              cache w' !! d = None ∧ ∃ e, cache w !! d = Some e ∧ lastused e = Some t)
    ∧ tmp w' = tmp w ∧ fetched w' = fetched w ∧ now w' = now w.
Proof.
  intros Hlist. unfold clean_cache, bind, gets.
  set (builds := sort_by_mtime (expired_builds env preserve w)).
  destruct (expire_spec builds w) as (w' & Hrun & Hc & Ht & Hf & Hn & _ & Hlog).
  pose proof (builds_NoDup env preserve w Hlist) as Hnd. fold builds in Hnd.
  exists w', (popped builds). split_and!; try done.
  - apply sorted_take, sort_by_mtime_sorted.
  - eapply sublist_NoDup; [exact Hnd|]. apply fmap_sublist, sublist_take.
  - intros d t. rewrite Hc, lookup_delete_all. split.
    + intros Hin. rewrite decide_True by (apply list_elem_of_fmap; by exists (d, t)).
      split; [done|]. apply subseteq_take in Hin.
      by apply (builds_mtime env preserve w).
    + intros [Hgone (e & He & Hlast)].
      destruct (decide (d ∈ (popped builds).*1)) as [Hin|]; [|congruence].
      apply list_elem_of_fmap in Hin as ([d' t'] & -> & Hin). simpl in *.
      pose proof Hin as Hin'. apply subseteq_take in Hin'.
      apply (builds_mtime env preserve w) in Hin' as (e' & He' & Hlast').
      by simplify_eq.
Qed.

Lemma clean_cache_log_witness :
  let env := Samples.environ Samples.network_up in
  ∃ w' (removed : list (string * Z)),
    clean_cache env [] Samples.crowded_world = (Ok tt, w')
    ∧ log w' = (log Samples.crowded_world
                ++ ((λ b, Log INFO ("Expiring " +:+ b.1)) <$> removed))%list
    ∧ NoDup removed.*1.
Proof.
  destruct (clean_cache_log (Samples.environ Samples.network_up) [] Samples.crowded_world)
    as (w' & removed & Hrun & Hlog & _ & Hnd & _).
  { unfold lists_every_name_once. reflexivity. }
  exists w', removed. split; [exact Hrun|]. split; [exact Hlog | exact Hnd].
Defined.

End Eviction.

(** ** Build acquisition, further *)

Module Acquisition.
Import Builds CleanCache Acquire.

(** Every directory but the one of [key] is as it was. *)
Definition elsewhere (key : string) (w w' : world) : Prop :=
  ∀ k, k ≠ key → cache w' !! k = cache w !! k.

Global Instance elsewhere_preorder key : PreOrder (elsewhere key).
Proof.
  split; [by intros w k|].
  intros w1 w2 w3 H12 H23 k Hk. by rewrite H23, H12.
Qed.

Section elsewhere.
Context (key : string).
Local Abbreviation fine := (preserves (elsewhere key)).














End elsewhere.

(** [get] from the point where the directory of the build exists: the
    primary artifact, the marker, the symbols and the tests.  [e0] is
    the entry found. *)
Definition acquire (env : environ) (self : BuildCache) (buildurl : string)
    (eu force : bool) (e0 : entry) : M world (option string) :=
  (let* proceed :=
     (if force || negb (bool_decide (is_Some (build_apk e0)))
      then fetch_build env buildurl (Str.b64encode buildurl)
      else ret true) in
   if negb proceed then ret None
   else
     run touch_lastused (Str.b64encode buildurl) in
     finish env self buildurl eu force)%py.

(** What the sweep and the making of the directory leave for the rest
    of [get]. *)
Lemma get_prefix env self buildurl eu force w :
  truthy (override_build_dir self) = false →
  ∃ w1,
    get env self buildurl eu force w
      = acquire env self buildurl eu force (found w (Str.b64encode buildurl)) w1
    ∧ cache w1 !! Str.b64encode buildurl = Some (found w (Str.b64encode buildurl))
    ∧ tmp w1 = tmp w ∧ fetched w1 = fetched w ∧ now w1 = now w
    ∧ ∀ k, k ≠ Str.b64encode buildurl →
        cache w1 !! k = cache w !! k
        ∨ (cache w1 !! k = None
           ∧ ∃ e, cache w !! k = Some e
                  ∧ stale [Str.b64encode buildurl] (now w) (k, e)).
Proof.
  intros Hov. unfold get. rewrite Hov.
  set (key := Str.b64encode buildurl).
  destruct (clean_cache_spec env [key] w) as (w0 & Hcc & Hc0 & Ht0 & Hf0 & Hn0 & _).
  rewrite (bind_ok _ _ _ _ _ Hcc).
  destruct (ensure_dir_spec key w0) as (w1 & Hed & Hk1 & Ht1 & Hf1 & Hn1).
  rewrite (bind_ok _ _ _ _ _ Hed).
  assert (cache w0 !! key = cache w !! key) as Hk0.
  { rewrite Hc0. apply preserved_not_popped, list_elem_of_here. }
  rewrite Hk0 in Hk1. fold (found w key) in Hk1.
  exists w1. split_and!; try congruence.
  - unfold acquire. fold key. unfold exists_in at 1. unfold bind at 1, gets at 1.
    rewrite Hk1. reflexivity.
  - intros k Hk.
    assert (cache w1 !! k = cache w0 !! k) as ->.
    { revert Hed. unfold ensure_dir, bind, gets, ret, modify.
      case_bool_decide; intros [= <-]; [done|]. simpl. by rewrite lookup_insert_ne. }
    rewrite Hc0, lookup_delete_all. case_decide as Hin; [|by left]. right.
    split; [done|]. by apply popped_expired, keep_build_false in Hin.
Qed.






(** [get] up to the touch of the marker when the build is cached and
    no download is forced. *)
Lemma get_cached env self buildurl eu w e :
  truthy (override_build_dir self) = false →
  cache w !! Str.b64encode buildurl = Some e →
  is_Some (build_apk e) →
  ∃ w2, get env self buildurl eu false w = finish env self buildurl eu false w2
        ∧ cache w2 !! Str.b64encode buildurl = Some (with_lastused (now w) e)
        ∧ tmp w2 = tmp w ∧ fetched w2 = fetched w ∧ now w2 = now w.
Proof.
  intros Hov He Hb.
  destruct (get_prefix env self buildurl eu false w Hov)
    as (w1 & Hrun & Hk1 & Ht1 & Hf1 & Hn1 & _).
  unfold found in Hrun, Hk1. rewrite He in Hrun, Hk1. cbn [default] in Hrun, Hk1.
  unfold acquire in Hrun. rewrite bool_decide_eq_true_2 in Hrun by done.
  cbn [orb negb] in Hrun.
  exists (set_cache (alter (with_lastused (now w1)) (Str.b64encode buildurl)) w1).
  split; [by rewrite Hrun|]. simpl. rewrite lookup_alter_eq, Hk1, Hn1. done.
Qed.

Lemma finish_symbols_there env self buildurl eu w e :
  cache w !! Str.b64encode buildurl = Some e →
  is_Some (symbols e) →
  finish env self buildurl eu false w
  = (if eu then
       if negb (bool_decide (is_Some (tests e))) then
         (let* fetched_all := fetch_tests env buildurl (Str.b64encode buildurl) in
          if fetched_all
          then ret (Some (Str.os_path_join (cache_dir self) (Str.b64encode buildurl)))
          else ret None)%py w
       else (Ok (Some (Str.os_path_join (cache_dir self) (Str.b64encode buildurl))), w)
     else (Ok (Some (Str.os_path_join (cache_dir self) (Str.b64encode buildurl))), w)).
Proof.
  intros He Hs. unfold finish, exists_in, bind at 1, gets at 1.
  rewrite He. cbn [mbind option_bind]. rewrite bool_decide_eq_true_2 by done.
  cbn [orb negb]. unfold bind at 1, ret at 1. destruct eu; [|done].
  unfold bind at 1, gets at 1. rewrite He. cbn [mbind option_bind orb].
  rewrite andb_true_r. by destruct (negb _).
Qed.





(** *** The tests package *)

(** One guarded download: the temporary file holds what was fetched,
    or is removed again when the download fails. *)
Lemma retrieve_or_return_None_spec env what url msg w :
  match network env (length (fetched w)) url with
  | Fetched c =>
      ∃ w', retrieve_or_return_None env what url msg w
            = (Ok (Some (fresh (dom (tmp w)))), w')
            ∧ tmp w' = <[fresh (dom (tmp w)) := c]> (tmp w)
            ∧ cache w' = cache w ∧ now w' = now w ∧ log w' = log w
            ∧ fetched w' = (fetched w ++ [(what, url)])%list
  | FetchFailed _ _ _ =>
      ∃ w', retrieve_or_return_None env what url msg w = (Ok None, w')
            ∧ tmp w' = tmp w ∧ cache w' = cache w ∧ now w' = now w
            ∧ log w' = (log w ++ [Log ERROR msg; LogTraceback ERROR])%list
            ∧ fetched w' = (fetched w ++ [(what, url)])%list
  end.
Proof.
  unfold retrieve_or_return_None, NamedTemporaryFile, urlretrieve,
    try_except, bind, os_unlink, logging, logging_traceback, modify, ret.
  simpl. destruct (network env (length (fetched w)) url) as [c|p errno strerror]; simpl.
  - eexists. split; [done|]. simpl. by rewrite insert_insert_eq.
  - eexists. split; [done|]. simpl. rewrite tmp_restored.
    by rewrite <- app_assoc.
Qed.



(** With the build and the symbols cached and the tests missing,
    [get] is [fetch_tests] from a state where only the marker
    changed. *)
Lemma get_is_fetch_tests env self buildurl w e :
  truthy (override_build_dir self) = false →
  cache w !! Str.b64encode buildurl = Some e →
  is_Some (build_apk e) → is_Some (symbols e) → tests e = None →
  ∃ w2, get env self buildurl true false w
        = (let* fetched_all := fetch_tests env buildurl (Str.b64encode buildurl) in
           if fetched_all
           then ret (Some (Str.os_path_join (cache_dir self) (Str.b64encode buildurl)))
           else ret None)%py w2
        ∧ cache w2 !! Str.b64encode buildurl = Some (with_lastused (now w) e)
        ∧ tmp w2 = tmp w ∧ fetched w2 = fetched w ∧ now w2 = now w.
Proof.
  intros Hov He Hbuild Hsymbols Htests.
  destruct (get_cached env self buildurl true w e Hov He Hbuild)
    as (w2 & Hrun & Hk2 & Ht2 & Hf2 & Hn2).
  exists w2. split_and!; try done. rewrite Hrun.
  rewrite (finish_symbols_there _ _ _ _ _ _ Hk2 Hsymbols).
  cbn [with_lastused tests]. rewrite Htests.
  by rewrite bool_decide_eq_false_2 by (by intros [? ?]).
Qed.



(** The build of [Samples.build_url] with its symbols, without the
    tests. *)
Definition without_tests : entry :=
  Entry (Some Samples.fennec_apk) (Some (Samples.noon - 2 * Samples.day))
    (Some {[ "libxul.so.sym" := "MODULE" ]}) None None None.

Definition tests_missing_world : world :=
  World {[ Samples.build_key := without_tests ]} ∅ [] [] None Samples.noon.

(** A server that answers every request with a page of text. *)
Definition network_error_page (n : nat) (url : string) : fetch_result :=
  Fetched (Raw "<html>Not Found</html>").



(** X8.  A tests package that is not a zip archive is not handled the way
    such a symbols archive is: [zipfile.BadZipfile] leaves [get], and
    the temporary file with the download stays behind. *)
Theorem get_tests_not_an_archive env self buildurl w e data :
  truthy (override_build_dir self) = false →
  cache w !! Str.b64encode buildurl = Some e →
  is_Some (build_apk e) → is_Some (symbols e) → tests e = None →
  network env (length (fetched w)) (Str.re_sub_apk ".tests.zip" buildurl)
    = Fetched (Raw data) →
  ∃ w', get env self buildurl true false w = (Raise BadZipfile, w')
        ∧ cache w' !! Str.b64encode buildurl = Some (with_lastused (now w) e)
        ∧ tmp w' = <[fresh (dom (tmp w)) := Raw data]> (tmp w)
        ∧ fetched w'
          = (fetched w ++ [(Tests, Str.re_sub_apk ".tests.zip" buildurl)])%list.
Proof.
  intros Hov He Hbuild Hsymbols Htests Hnet.
  destruct (get_is_fetch_tests env self buildurl w e Hov He Hbuild Hsymbols Htests)
    as (w2 & Hrun & Hk2 & Ht2 & Hf2 & Hn2).
  pose proof (retrieve_or_return_None_spec env Tests
                (Str.re_sub_apk ".tests.zip" buildurl)
                ("IO Error retrieving tests: "
                 +:+ Str.re_sub_apk ".tests.zip" buildurl +:+ ".") w2) as Hr.
  rewrite Hf2, Hnet in Hr. destruct Hr as (w3 & Hr & Ht3 & Hc3 & Hn3 & Hl3 & Hf3).
  exists w3. split_and!; try congruence.
  rewrite Hrun. unfold fetch_tests, bind. rewrite Hr. unfold ZipFile.
  by rewrite Ht3, lookup_insert_eq.
Qed.

Lemma get_tests_not_an_archive_witness :
  ∃ w', get (Samples.environ network_error_page) (Samples.build_cache [] None)
          Samples.build_url true false tests_missing_world = (Raise BadZipfile, w')
        ∧ cache w' !! Str.b64encode Samples.build_url
          = Some (with_lastused (now tests_missing_world) without_tests)
        ∧ tmp w' = <[fresh (dom (tmp tests_missing_world)) := Raw "<html>Not Found</html>"]>
                     (tmp tests_missing_world)
        ∧ fetched w'
          = (fetched tests_missing_world
             ++ [(Tests, Str.re_sub_apk ".tests.zip" Samples.build_url)])%list.
Proof.
  apply (get_tests_not_an_archive (Samples.environ network_error_page)
           (Samples.build_cache [] None) Samples.build_url tests_missing_world
           without_tests "<html>Not Found</html>").
  - reflexivity.
  - vm_compute. reflexivity.
  - by eexists.
  - by eexists.
  - reflexivity.
  - reflexivity.
Defined.



End Acquisition.

(** ** Build discovery, further *)

Module Locations.
Import Builds Acquire Discovery.

(** *** [Nightly.ftpdirs] *)

Lemma civil_from_days_month days : 1 ≤ (civil_from_days days).1.2 ≤ 12.
Proof.
  unfold civil_from_days. cbn [fst snd].
  set (z := days + 719468). set (era := z `div` 146097).
  set (doe := z - era * 146097).
  assert (0 ≤ doe < 146097) as Hdoe.
  { unfold doe, era. Z.to_euclidean_division_equations. lia. }
  clearbody doe. clear z era.
  set (yoe := (doe - doe `div` 1460 + doe `div` 36524 - doe `div` 146096) `div` 365).
  set (doy := doe - (365 * yoe + yoe `div` 4 - yoe `div` 100)).
  assert (0 ≤ doy ≤ 366) as Hdoy.
  { unfold doy, yoe. Z.to_euclidean_division_equations. lia. }
  clearbody doy. case_bool_decide; Z.to_euclidean_division_equations; lia.
Qed.

(** The months counted from year 0: month [m] of year [y] is number
    [y * 12 + (m - 1)]. *)
Definition nightly_ftpdir_of (i : Z) : string :=
  nightly_ftpdir (i `div` 12) (i `mod` 12 + 1).

Lemma nightly_ftpdirs_loop_months rounds y m end_year end_month :
  1 ≤ m ≤ 12 → 1 ≤ end_month ≤ 12 →
  (end_year * 12 + end_month) - (y * 12 + m) + 1 ≤ Z.of_nat rounds →
  nightly_ftpdirs_loop rounds y m end_year end_month
  = nightly_ftpdir_of
      <$> seqZ (y * 12 + (m - 1)) ((end_year * 12 + end_month) - (y * 12 + m) + 1).
Proof.
  revert y m. induction rounds as [|rounds IH]; intros y m Hm Hend Hrounds.
  - by rewrite seqZ_nil by lia.
  - cbn [nightly_ftpdirs_loop]. case_bool_decide as Hgo.
    + rewrite seqZ_cons by lia. cbn [fmap list_fmap]. f_equal.
      * unfold nightly_ftpdir_of. f_equal; Z.to_euclidean_division_equations; lia.
      * case_bool_decide as Hdec.
        -- rewrite IH by lia. f_equal. f_equal; lia.
        -- rewrite IH by lia. f_equal. f_equal; lia.
    + by rewrite seqZ_nil by lia.
Qed.

(** X10.  [Nightly.ftpdirs] ends, and lists the directory of every month
    from the month of the start to the month of the end, in order and
    once each; when the start is in a later month than the end it lists
    nothing. *)
Theorem nightly_ftpdirs_months self start_time end_time :
  ftpdirs self Nightly start_time end_time
  = nightly_ftpdir_of
      <$> seqZ (year start_time * 12 + (month start_time - 1))
            ((year end_time * 12 + month end_time)
             - (year start_time * 12 + month start_time) + 1).
Proof.
  unfold ftpdirs. apply nightly_ftpdirs_loop_months.
  - apply civil_from_days_month.
  - apply civil_from_days_month.
  - lia.
Qed.

(** *** [find_builds] *)

Lemma bind_inv_ok {A B} (m : M world A) (k : A → M world B) w r w' :
  bind m k w = (Ok r, w') → ∃ a w1, m w = (Ok a, w1) ∧ k a w1 = (Ok r, w').
Proof.
  unfold bind. destruct (m w) as [[a|e] w1]; [|done]. intros Hk. by exists a, w1.
Qed.

(** A loop that ran to its end ran its body on every element, and
    gives what the bodies gave, in order. *)
Lemma for_each_spec {A} (l : list A) (body : A → M world (list string)) w r w' :
  for_each l body w = (Ok r, w') →
  ∃ rs, r = concat rs ∧ Forall2 (λ x r1, ∃ w1 w2, body x w1 = (Ok r1, w2)) l rs.
Proof.
  revert w r. induction l as [|x l IH]; intros w r; cbn [for_each].
  - intros [= <- <-]. by exists [].
  - intros Hrun. apply bind_inv_ok in Hrun as (r1 & w1 & Hx & Hrun).
    apply bind_inv_ok in Hrun as (more & w2 & Hl & [= <- <-]).
    destruct (IH _ _ Hl) as (rs & -> & Hall).
    exists (r1 :: rs). split; [done|]. constructor; [by exists w, w1|done].
Qed.

Lemma for_each_iff {A} (l : list A) (body : A → M world (list string))
    (P : A → string → Prop) w r w' :
  (∀ x w1 r1 w2, body x w1 = (Ok r1, w2) → ∀ u, u ∈ r1 ↔ P x u) →
  for_each l body w = (Ok r, w') →
  ∀ u, u ∈ r ↔ ∃ x, x ∈ l ∧ P x u.
Proof.
  intros Hbody Hrun u. apply for_each_spec in Hrun as (rs & -> & Hall).
  induction Hall as [|x r1 l rs (w1 & w2 & Hx) Hall IH]; cbn [concat].
  - split; [by intros ?%elem_of_nil|]. by intros (? & ?%elem_of_nil & _).
  - rewrite elem_of_app, IH, (Hbody _ _ _ _ Hx). split.
    + intros [Hu|(y & Hy & Hu)].
      * exists x. split; [left|done].
      * exists y. split; [by right|done].
    + intros (y & Hy & Hu). apply elem_of_cons in Hy as [->|Hy]; [by left|].
      right. by exists y.
Qed.

Lemma bind_lift_inv {A B} (x : result A) (k : A → M world B) w r w' :
  bind (lift x) k w = (Ok r, w') → ∃ a, x = Ok a ∧ k a w = (Ok r, w').
Proof. unfold bind, lift. destruct x as [a|e]; [|done]. intros Hk. by exists a. Qed.

(** [start_time] and [end_time] once [find_builds] has given them a
    time zone. *)
Definition aware (env : environ) (t : datetime) : datetime :=
  if bool_decide (utcoffset t = None) then replace_tzinfo_pacific env t else t.

(** The three loops of [find_builds], from the innermost: over the
    files of a build directory, over the lines of a listing, over the
    directories of the location. *)
Definition files_in (scheme netloc newpath : string) (l2 : string)
    : M world (list string) :=
  let filename := Str.strip (Str.after_last_space l2) in
  if fennecregex_match filename
  then ret [scheme +:+ "://" +:+ netloc +:+ newpath +:+ "/" +:+ filename]
  else ret [].

Definition builds_under (env : environ) (self : BuildCache) (loc : BuildLocation)
    (start_time end_time : datetime) (scheme netloc path : string) (line : string)
    : M world (list string) :=
  (let* info := lift (build_info_from_ftp env self loc line) in
   let srcdir := info.1 in
   match info.2 with
   | None => ret []
   | Some build_time =>
       if bool_decide (instant build_time < instant start_time)
          || bool_decide (instant build_time > instant end_time)
       then ret []
       else
         let newpath := path +:+ srcdir in
         let* lines2 := lift (ftp_dir env netloc newpath) in
         for_each lines2 (files_in scheme netloc newpath)
   end)%py.

Definition builds_in (env : environ) (self : BuildCache) (loc : BuildLocation)
    (start_time end_time : datetime) (d : string) : M world (list string) :=
  (let scheme := (Str.urlparse d).1.1 in
   let netloc := (Str.urlparse d).1.2 in
   let path := (Str.urlparse d).2 in
   run logging DEBUG ("Logging into " +:+ netloc +:+ "...") in
   run logging DEBUG ("Looking for builds in " +:+ path +:+ "...") in
   let* lines := lift (ftp_dir env netloc path) in
   run modify (set_lines_out (Str.join (String Str.newline "") lines)) in
   for_each lines (builds_under env self loc start_time end_time scheme netloc path))%py.

Lemma find_builds_loops env self start_time end_time name :
  find_builds env self start_time end_time name
  = (run modify (add_log (LogWindow DEBUG start_time end_time)) in
     match build_location name with
     | None =>
         run logging ERROR ("unsupported build_location " +:+ Str.quoted name) in
         ret []
     | Some loc =>
         let* builds :=
           for_each (ftpdirs self loc (aware env start_time) (aware env end_time))
             (builds_in env self loc (aware env start_time) (aware env end_time)) in
         run (if bool_decide (builds = [])
              then logging ERROR "No builds found." else ret tt) in
         ret builds
     end)%py.
Proof. reflexivity. Qed.

(** What the server offers: a file [l2] of a build directory, a build
    directory [line] of a listing, a listing [d] of the location. *)
Definition file_offered (scheme netloc newpath l2 url : string) : Prop :=
  fennecregex_match (Str.strip (Str.after_last_space l2)) = true
  ∧ url = scheme +:+ "://" +:+ netloc +:+ newpath +:+ "/"
          +:+ Str.strip (Str.after_last_space l2).

Definition line_offered (env : environ) (self : BuildCache) (loc : BuildLocation)
    (start_time end_time : datetime) (scheme netloc path line url : string) : Prop :=
  ∃ srcdir build_time lines2 l2,
    build_info_from_ftp env self loc line = Ok (srcdir, Some build_time)
    ∧ instant start_time ≤ instant build_time ≤ instant end_time
    ∧ ftp_dir env netloc (path +:+ srcdir) = Ok lines2
    ∧ l2 ∈ lines2
    ∧ file_offered scheme netloc (path +:+ srcdir) l2 url.

Definition dir_offered (env : environ) (self : BuildCache) (loc : BuildLocation)
    (start_time end_time : datetime) (d url : string) : Prop :=
  ∃ lines line,
    ftp_dir env (Str.urlparse d).1.2 (Str.urlparse d).2 = Ok lines
    ∧ line ∈ lines
    ∧ line_offered env self loc start_time end_time
        (Str.urlparse d).1.1 (Str.urlparse d).1.2 (Str.urlparse d).2 line url.

Definition offered (env : environ) (self : BuildCache) (loc : BuildLocation)
    (start_time end_time : datetime) (url : string) : Prop :=
  ∃ d, d ∈ ftpdirs self loc start_time end_time
       ∧ dir_offered env self loc start_time end_time d url.

Lemma files_in_spec scheme netloc newpath l2 w r w' :
  files_in scheme netloc newpath l2 w = (Ok r, w') →
  ∀ u, u ∈ r ↔ file_offered scheme netloc newpath l2 u.
Proof.
  unfold files_in, file_offered.
  destruct (fennecregex_match _); intros [= <- <-] u.
  - rewrite list_elem_of_singleton. tauto.
  - split; [by intros ?%elem_of_nil|]. by intros [? _].
Qed.

Lemma builds_under_spec env self loc s e scheme netloc path line w r w' :
  builds_under env self loc s e scheme netloc path line w = (Ok r, w') →
  ∀ u, u ∈ r ↔ line_offered env self loc s e scheme netloc path line u.
Proof.
  unfold builds_under, line_offered. intros Hrun u.
  apply bind_lift_inv in Hrun as ([srcdir [bt|]] & Hinfo & Hrun); cbn [fst snd] in Hrun.
  - destruct (bool_decide (instant bt < instant s) || bool_decide (instant bt > instant e))
      eqn:Hout.
    + injection Hrun as <- <-. split; [by intros ?%elem_of_nil|].
      intros (srcdir' & bt' & lines2 & l2 & Hinfo' & Hin & _).
      rewrite Hinfo in Hinfo'. simplify_eq.
      apply orb_true_iff in Hout as [Hout|Hout]; apply bool_decide_eq_true in Hout; lia.
    + apply orb_false_iff in Hout as [H1 H2].
      apply bool_decide_eq_false in H1, H2.
      apply bind_lift_inv in Hrun as (lines2 & Hdir & Hrun).
      rewrite (for_each_iff _ _ (file_offered scheme netloc (path +:+ srcdir)) _ _ _
                 (files_in_spec _ _ _) Hrun).
      split.
      * intros (l2 & Hl2 & Hu). exists srcdir, bt, lines2, l2. split_and!; try done; lia.
      * intros (srcdir' & bt' & lines2' & l2 & Hinfo' & _ & Hdir' & Hl2 & Hu).
        rewrite Hinfo in Hinfo'. simplify_eq. rewrite Hdir in Hdir'. simplify_eq.
        by exists l2.
  - injection Hrun as <- <-. split; [by intros ?%elem_of_nil|].
    intros (srcdir' & bt' & lines2 & l2 & Hinfo' & _).
    rewrite Hinfo in Hinfo'. simplify_eq.
Qed.

Lemma builds_in_spec env self loc s e d w r w' :
  builds_in env self loc s e d w = (Ok r, w') →
  ∀ u, u ∈ r ↔ dir_offered env self loc s e d u.
Proof.
  unfold builds_in, dir_offered, logging. intros Hrun u.
  rewrite !bind_modify_world in Hrun.
  apply bind_lift_inv in Hrun as (lines & Hdir & Hrun).
  rewrite bind_modify_world in Hrun.
  rewrite (for_each_iff _ _ _ _ _ _ (builds_under_spec _ _ _ _ _ _ _ _) Hrun).
  split.
  - intros (line & Hline & Hu). by exists lines, line.
  - intros (lines' & line & Hdir' & Hline & Hu). rewrite Hdir in Hdir'. simplify_eq.
    by exists line.
Qed.

(** X11.  When [find_builds] returns, it returns the URLs the server offers
    and no other: a URL is in the list exactly when it is
    [scheme://netloc/path/srcdir/filename] for a file named like a
    fennec package for android-arm, in a directory [srcdir] whose build
    time is neither before the start nor after the end, listed under
    one of the directories of the location. *)
Theorem find_builds_exactly env self start_time end_time name w builds :
  (find_builds env self start_time end_time name w).1 = Ok builds →
  ∀ url, url ∈ builds ↔
    ∃ loc, build_location name = Some loc
           ∧ offered env self loc (aware env start_time) (aware env end_time) url.
Proof.
  rewrite find_builds_loops, bind_modify_world.
  destruct (build_location name) as [loc|].
  - destruct (bind _ _ _) as [r w'] eqn:Hrun. cbn [fst]. intros ->.
    apply bind_inv_ok in Hrun as (found & w1 & Hloop & Hrun).
    assert (found = builds) as ->.
    { revert Hrun. unfold bind, logging, modify, ret.
      by case_bool_decide; intros [= <-]. }
    intros url.
    rewrite (for_each_iff _ _ _ _ _ _ (builds_in_spec _ _ _ _ _) Hloop).
    unfold offered. split.
    + intros Hd. by exists loc.
    + by intros (loc' & [= <-] & Hd).
  - unfold logging. rewrite bind_modify_world. intros [= <-] url.
    split; [by intros ?%elem_of_nil|]. by intros (? & ? & _).
Qed.

Lemma find_builds_exactly_witness :
  let env := Samples.environ Samples.network_up in
  let self := Samples.build_cache ["mozilla-central"] None in
  let start_time := Datetime (Samples.noon - 3 * Samples.day) None in
  let end_time := Datetime Samples.noon None in
  let url :=
    "ftp://ftp.mozilla.org/pub/mozilla.org/mobile/tinderbox-builds/mozilla-central-android/1340000000/fennec-16.0a1.en-US.android-arm.apk" in
  url ∈ [url]
  ↔ ∃ loc, build_location "tinderbox" = Some loc
           ∧ offered env self loc (aware env start_time) (aware env end_time) url.
Proof.
  apply (find_builds_exactly (Samples.environ Samples.network_up)
           (Samples.build_cache ["mozilla-central"] None)
           (Datetime (Samples.noon - 3 * Samples.day) None)
           (Datetime Samples.noon None) "tinderbox" Samples.fresh_world).
  vm_compute. reflexivity.
Defined.

(** X12.  [find_builds] handles no exception: when the listing of the first
    directory of the location has a first line that
    [build_info_from_ftp] cannot read, its exception leaves
    [find_builds], after the listing was written to [lines.out]. *)
Theorem find_builds_unreadable_line env self start_time end_time name w
    loc d ds line lines ex :
  build_location name = Some loc →
  ftpdirs self loc (aware env start_time) (aware env end_time) = d :: ds →
  ftp_dir env (Str.urlparse d).1.2 (Str.urlparse d).2 = Ok (line :: lines) →
  build_info_from_ftp env self loc line = Raise ex →
  ∃ w', find_builds env self start_time end_time name w = (Raise ex, w')
        ∧ lines_out w' = Some (Str.join (String Str.newline "") (line :: lines))
        ∧ cache w' = cache w.
Proof.
  intros Hloc Hdirs Hdir Hline.
  rewrite find_builds_loops, bind_modify_world, Hloc, Hdirs.
  cbn [for_each]. unfold builds_in at 1, logging.
  eexists. split.
  - erewrite bind_raise; [done|]. erewrite bind_raise; [done|].
    rewrite !bind_modify_world. unfold bind at 1, lift at 1. rewrite Hdir.
    rewrite bind_modify_world. cbn [for_each].
    erewrite bind_raise; [done|]. unfold builds_under, bind, lift. by rewrite Hline.
  - done.
Qed.

(** A tinderbox server whose listing starts with a line of two words,
    as the [total] line of a long listing. *)
Definition ftp_dir_total (netloc path : string) : result (list string) :=
  Ok ["total 8"; "drwxr-xr-x    2 ftp      ftp          4096 Jun 18 06:13 1340000000"].

Definition environ_total : environ :=
  Environ Samples.os_listdir Samples.network_up Samples.urljoin ftp_dir_total
    Samples.strptime (-28380) (λ _, -25200).

Lemma find_builds_unreadable_line_witness :
  ∃ w', find_builds environ_total (Samples.build_cache ["mozilla-central"] None)
          (Datetime (Samples.noon - 3 * Samples.day) None) (Datetime Samples.noon None)
          "tinderbox" Samples.fresh_world
        = (Raise (IndexError "list index out of range"), w')
        ∧ lines_out w'
          = Some (Str.join (String Str.newline "")
                    ["total 8";
                     "drwxr-xr-x    2 ftp      ftp          4096 Jun 18 06:13 1340000000"])
        ∧ cache w' = cache Samples.fresh_world.
Proof.
  apply (find_builds_unreadable_line environ_total
           (Samples.build_cache ["mozilla-central"] None)
           (Datetime (Samples.noon - 3 * Samples.day) None) (Datetime Samples.noon None)
           "tinderbox" Samples.fresh_world Tinderbox
           "ftp://ftp.mozilla.org/pub/mozilla.org/mobile/tinderbox-builds/mozilla-central-android/"
           []).
  - reflexivity.
  - reflexivity.
  - reflexivity.
  - reflexivity.
Defined.

(** *** [find_latest_build] *)

(** X13.  The answer of [find_latest_build] from the list [find_builds]
    gives for the last three days: [None] for no build, otherwise a
    build of the list that no build of the list follows in byte
    order. *)
Theorem find_latest_build_maximal env self name w builds :
  (find_builds env self (Datetime (now w - 3 * 86400 * usec) None)
     (Datetime (now w) None) name w).1 = Ok builds →
  match builds with
  | [] => (find_latest_build env self name w).1 = Ok None
  | _ :: _ =>
      ∃ u, (find_latest_build env self name w).1 = Ok (Some u)
           ∧ u ∈ builds ∧ ∀ v, v ∈ builds → String.le v u
  end.
Proof.
  destruct (find_builds _ _ _ _ _ _) as [r w1] eqn:Hfind. cbn [fst]. intros ->.
  rewrite (find_latest_build_of _ _ _ _ _ _ Hfind).
  destruct builds as [|b builds]; [done|].
  destruct (last_sort_str (b :: builds)) as (u & Hlast & Hu & Hmax); [done|].
  exists u. by rewrite Hlast.
Qed.

Lemma find_latest_build_maximal_witness :
  let env := Samples.environ Samples.network_up in
  let self := Samples.build_cache ["mozilla-central"; "mozilla-inbound"] None in
  let builds :=
    ["ftp://ftp.mozilla.org/pub/mozilla.org/mobile/tinderbox-builds/mozilla-central-android/1340000000/fennec-16.0a1.en-US.android-arm.apk";
     "ftp://ftp.mozilla.org/pub/mozilla.org/mobile/tinderbox-builds/mozilla-inbound-android/1339900000/fennec-16.0a1.en-US.android-arm.apk"] in
  ∃ u, (find_latest_build env self "tinderbox" Samples.fresh_world).1 = Ok (Some u)
       ∧ u ∈ builds ∧ ∀ v, v ∈ builds → String.le v u.
Proof.
  apply (find_latest_build_maximal (Samples.environ Samples.network_up)
           (Samples.build_cache ["mozilla-central"; "mozilla-inbound"] None)
           "tinderbox" Samples.fresh_world
           ["ftp://ftp.mozilla.org/pub/mozilla.org/mobile/tinderbox-builds/mozilla-central-android/1340000000/fennec-16.0a1.en-US.android-arm.apk";
            "ftp://ftp.mozilla.org/pub/mozilla.org/mobile/tinderbox-builds/mozilla-inbound-android/1339900000/fennec-16.0a1.en-US.android-arm.apk"]).
  vm_compute. reflexivity.
Defined.

(** X14.  A location name that holds neither [nightly] nor [tinderbox] makes
    [find_latest_build] return [None] without a word to any server:
    the log gets the window, the unsupported location and the missing
    builds, and nothing else changes. *)
Theorem find_latest_build_unsupported env self name w :
  build_location name = None →
  find_latest_build env self name w
  = (Ok None,
     add_log (Log ERROR "Could not find any nightly builds in the last 3 days!")
       (add_log (Log ERROR ("unsupported build_location " +:+ Str.quoted name))
          (add_log (LogWindow DEBUG (Datetime (now w - 3 * 86400 * usec) None)
                      (Datetime (now w) None)) w))).
Proof.
  intros Hloc. erewrite find_latest_build_of; last first.
  { rewrite find_builds_loops, bind_modify_world, Hloc. unfold logging.
    rewrite bind_modify_world. reflexivity. }
  done.
Qed.

Lemma find_latest_build_unsupported_witness :
  let w := Samples.fresh_world in
  find_latest_build (Samples.environ Samples.network_up)
    (Samples.build_cache ["mozilla-central"] None) "aurora" w
  = (Ok None,
     add_log (Log ERROR "Could not find any nightly builds in the last 3 days!")
       (add_log (Log ERROR ("unsupported build_location " +:+ Str.quoted "aurora"))
          (add_log (LogWindow DEBUG (Datetime (now w - 3 * 86400 * usec) None)
                      (Datetime (now w) None)) w))).
Proof.
  apply (find_latest_build_unsupported (Samples.environ Samples.network_up)
           (Samples.build_cache ["mozilla-central"] None) "aurora" Samples.fresh_world).
  reflexivity.
Defined.

(** Discovery reads the clock and the server and writes the log and
    [lines.out]: the cache, the temporary files and the downloads are
    as they were. *)
Definition untouched (w w' : world) : Prop :=
  cache w' = cache w ∧ tmp w' = tmp w ∧ fetched w' = fetched w ∧ now w' = now w
  ∧ ∃ l, log w' = (log w ++ l)%list.

Global Instance untouched_preorder : PreOrder untouched.
Proof.
  split.
  - intros w. split_and!; try done. exists []. by rewrite app_nil_r.
  - intros w1 w2 w3 (? & ? & ? & ? & l1 & Hl1) (? & ? & ? & ? & l2 & Hl2).
    split_and!; try congruence. exists (l1 ++ l2)%list. by rewrite Hl2, Hl1, app_assoc.
Qed.

Lemma untouched_logging lvl msg : preserves untouched (logging lvl msg).
Proof.
  apply preserves_modify. intros w. split_and!; try done. by eexists.
Qed.

Lemma untouched_for_each {A} (l : list A) (body : A → M world (list string)) :
  (∀ x, preserves untouched (body x)) → preserves untouched (for_each l body).
Proof.
  intros Hbody. induction l as [|x l IH]; cbn [for_each].
  - apply (preserves_ret _).
  - apply preserves_bind; [apply _|apply Hbody|]. intros found.
    apply preserves_bind; [apply _|apply IH|]. intros more.
    apply (preserves_ret _).
Qed.

Lemma untouched_find_builds env self start_time end_time name :
  preserves untouched (find_builds env self start_time end_time name).
Proof.
  rewrite find_builds_loops.
  apply preserves_bind; [apply _| |intros _].
  { apply preserves_modify. intros w. split_and!; try done. by eexists. }
  destruct (build_location name) as [loc|].
  - apply preserves_bind; [apply _| |intros builds].
    + apply untouched_for_each. intros d. unfold builds_in.
      apply preserves_bind; [apply _|apply untouched_logging|intros _].
      apply preserves_bind; [apply _|apply untouched_logging|intros _].
      apply preserves_bind; [apply _|apply (preserves_lift _)|intros lines].
      apply preserves_bind; [apply _| |intros _].
      { apply preserves_modify. intros w. split_and!; try done.
        exists []. by rewrite app_nil_r. }
      apply untouched_for_each. intros line. unfold builds_under.
      apply preserves_bind; [apply _|apply (preserves_lift _)|intros [srcdir [bt|]]];
        cbn [fst snd]; [|apply (preserves_ret _)].
      case_match; [apply (preserves_ret _)|].
      apply preserves_bind; [apply _|apply (preserves_lift _)|intros lines2].
      apply untouched_for_each. intros l2. unfold files_in.
      case_match; apply (preserves_ret _).
    + apply preserves_bind; [apply _| |intros _; apply (preserves_ret _)].
      case_bool_decide; [apply untouched_logging|apply (preserves_ret _)].
  - apply preserves_bind; [apply _|apply untouched_logging|intros _].
    apply (preserves_ret _).
Qed.

Lemma untouched_find_latest_build env self name :
  preserves untouched (find_latest_build env self name).
Proof.
  unfold find_latest_build.
  apply preserves_bind; [apply _|apply (preserves_gets _)|intros now].
  apply preserves_bind; [apply _|apply untouched_find_builds|intros builds].
  case_bool_decide; [|apply (preserves_ret _)].
  apply preserves_bind; [apply _|apply untouched_logging|intros _].
  apply (preserves_ret _).
Qed.

(** X15.  Whatever the server answers, and whether [find_latest_build]
    returns or raises, it leaves the cache, the temporary files, the
    downloads and the clock as they were, and only adds to the log. *)
Theorem find_latest_build_untouched env self name w :
  let w' := (find_latest_build env self name w).2 in
  cache w' = cache w ∧ tmp w' = tmp w ∧ fetched w' = fetched w ∧ now w' = now w
  ∧ ∃ l, log w' = (log w ++ l)%list.
Proof.
  destruct (find_latest_build env self name w) as [r w'] eqn:Hrun. cbn [snd].
  by apply untouched_find_latest_build in Hrun.
Qed.

End Locations.

(** ** The orchestrator, further *)

Module Fleet.
Import Autophone Orchestrator.

Section dispatch.
Context {C : Type} `{Crashes C} (env : environ).

Lemma is_valid_job_complete (job : gmap string value) (s : state C) :
  Forall (λ k, is_Some (job !! k)) required_fields →
  is_valid_job env (Some job) s = (Ok true, s).
Proof.
  intros Hall. unfold is_valid_job. case_bool_decide as Hlen; [|done].
  by rewrite error_list_empty in Hlen.
Qed.

Lemma is_valid_job_incomplete (job : gmap string value) (s : state C) :
  ¬ Forall (λ k, is_Some (job !! k)) required_fields →
  is_valid_job env (Some job) s
  = (Raise (AttributeError "'AutoPhone' object has no attribute 'logger'"), s).
Proof.
  intros Hall. unfold is_valid_job. case_bool_decide as Hlen.
  - by rewrite self_logger.
  - by rewrite error_list_empty in Hlen.
Qed.

(** The name a worker is announced under. *)
Definition announced (w : PhoneWorker C) : log_record :=
  Log INFO ("Starting job on phone: " +:+ phoneid (phone_cfg w)).

(** The body of the loop of [start_tests]. *)
Definition hand_over (job : gmap string value) (id : string) (p : PhoneWorker C)
    : Py.M (state C) unit :=
  (run logging INFO ("Starting job on phone: " +:+ phoneid (phone_cfg p)) in
   on_worker id (add_job job))%py.

Lemma for_workers_spec job ids (s : state C) :
  NoDup ids →
  (∀ id, id ∈ ids → is_Some (phone_workers s !! id)) →
  ∃ s', for_workers ids (hand_over job) s = (Ok tt, s')
        ∧ (∀ id, phone_workers s' !! id
                 = if decide (id ∈ ids) then add_job job <$> phone_workers s !! id
                   else phone_workers s !! id)
        ∧ log s' = (log s ++ omap (λ id, announced <$> phone_workers s !! id) ids)%list
        ∧ stdout s' = stdout s ∧ outbox s' = outbox s
        ∧ build_apks s' = build_apks s ∧ scratch s' = scratch s.
Proof.
  revert s. induction ids as [|x ids IH]; intros s Hnd Hreg.
  - exists s. split_and!; try done. by rewrite app_nil_r.
  - apply NoDup_cons in Hnd as [Hx Hnd].
    destruct (Hreg x) as [wx Hwx]; [apply list_elem_of_here|].
    cbn [for_workers].
    rewrite (ap_bind_ok (worker_of x) _ s wx s) by (unfold worker_of; by rewrite Hwx).
    set (s1 := set_phone_workers (alter (add_job job) x)
                 (add_log (Log INFO ("Starting job on phone: " +:+ phoneid (phone_cfg wx)))
                    s)).
    rewrite (ap_bind_ok (hand_over job x wx) _ s tt s1) by reflexivity.
    assert (∀ id, id ≠ x → phone_workers s1 !! id = phone_workers s !! id) as Hother.
    { intros id Hne. unfold s1. cbn [phone_workers set_phone_workers add_log].
      by rewrite lookup_alter_ne. }
    destruct (IH s1 Hnd) as (s' & Hrun & Hws & Hlog & Hout & Hbox & Hapk & Hscr).
    { intros id Hid. rewrite Hother by (intros ->; done).
      apply Hreg. by apply list_elem_of_further. }
    exists s'. split; [done|]. split_and!; try done.
    + intros id. rewrite Hws. destruct (decide (id = x)) as [->|Hne].
      * rewrite decide_False by done. rewrite decide_True by apply list_elem_of_here.
        unfold s1. cbn [phone_workers set_phone_workers add_log].
        by rewrite lookup_alter_eq.
      * rewrite Hother by done. destruct (decide (id ∈ ids)) as [Hin|Hout'].
        -- by rewrite decide_True by (by apply list_elem_of_further).
        -- rewrite decide_False; [done|]. rewrite not_elem_of_cons. tauto.
    + rewrite Hlog. cbn [omap list_omap]. rewrite Hwx. cbn [fmap option_fmap option_map].
      unfold s1 at 1. cbn [log set_phone_workers add_log]. rewrite <- app_assoc.
      f_equal. cbn [app]. f_equal. clear -Hx Hother.
      induction ids as [|y ids IH]; [done|]. apply not_elem_of_cons in Hx as [Hne Hx].
      cbn [omap list_omap]. rewrite Hother by done. by rewrite IH.
Qed.

(** The loop over [keys] reaches every worker. *)
Lemma handed_to_all (f : PhoneWorker C → PhoneWorker C)
    (m m' : gmap string (PhoneWorker C)) :
  (∀ id, m' !! id = if decide (id ∈ (map_to_list m).*1) then f <$> m !! id else m !! id) →
  m' = f <$> m.
Proof.
  intros Hws. apply map_eq. intros id. rewrite Hws, lookup_fmap.
  case_decide as Hin; [done|].
  destruct (m !! id) as [w|] eqn:Hw; [|done].
  exfalso. apply Hin, list_elem_of_fmap. exists (id, w). split; [done|].
  by apply elem_of_map_to_list.
Qed.

Lemma omap_keys {B} (f : PhoneWorker C → B) (m : gmap string (PhoneWorker C)) :
  omap (λ id, f <$> m !! id) (map_to_list m).*1 = f <$> (map_to_list m).*2.
Proof.
  assert (∀ id w, (id, w) ∈ map_to_list m → m !! id = Some w) as Hlook.
  { intros id w. apply elem_of_map_to_list. }
  induction (map_to_list m) as [|[id w] l IH]; [done|].
  cbn [fmap list_fmap omap list_omap fst snd].
  rewrite (Hlook id w) by apply list_elem_of_here.
  cbn [fmap option_fmap option_map]. f_equal. apply IH.
  intros id' w' Hkw. apply Hlook. by apply list_elem_of_further.
Qed.

Lemma keys_registered (s : state C) :
  ∀ id, id ∈ keys s → is_Some (phone_workers s !! id).
Proof.
  intros id ([id' w] & -> & Hin)%list_elem_of_fmap.
  apply elem_of_map_to_list in Hin. eauto.
Qed.


(** X16.  A descriptor with every required field is handed to every
    registered worker, once each and to no one else; the workers are
    announced in the log in the order of the registry; nothing else
    changes. *)
Theorem start_tests_dispatches (job : gmap string value) (s : state C) :
  Forall (λ k, is_Some (job !! k)) required_fields →
  ∃ s', start_tests env (Some job) s = (Ok tt, s')
        ∧ phone_workers s' = add_job job <$> phone_workers s
        ∧ log s' = (log s ++ (announced <$> (map_to_list (phone_workers s)).*2))%list
        ∧ stdout s' = stdout s ∧ outbox s' = outbox s
        ∧ build_apks s' = build_apks s ∧ scratch s' = scratch s.
Proof.
  intros Hall. unfold start_tests.
  rewrite (ap_bind_ok _ _ _ _ _ (is_valid_job_complete job s Hall)). cbn [negb].
  unfold bind at 1, gets at 1.
  destruct (for_workers_spec job (keys s) s (NoDup_fst_map_to_list _) (keys_registered s))
    as (s' & Hrun & Hws & Hlog & Hrest).
  exists s'. split; [exact Hrun|]. split_and!; try apply Hrest.
  - by apply handed_to_all.
  - rewrite Hlog. f_equal. apply omap_keys.
Qed.

(** X17.  A descriptor that lacks a required field is handed to no one:
    [start_tests] ends with the [AttributeError] of [is_valid_job]
    before the loop, and the state is as it was. *)
Theorem start_tests_incomplete_job (job : gmap string value) (s : state C) :
  ¬ Forall (λ k, is_Some (job !! k)) required_fields →
  start_tests env (Some job) s
  = (Raise (AttributeError "'AutoPhone' object has no attribute 'logger'"), s).
Proof.
  intros Hmiss. unfold start_tests, bind.
  by rewrite (is_valid_job_incomplete job s Hmiss).
Qed.

(** *** [build_job] *)

(** The descriptor [build_job] makes from the fields of
    [application.ini]. *)
Definition descriptor (cache_build_dir tree buildid rev procname ver : string)
    (blddate : Z) : gmap string value :=
  <["cache_build_dir" := VStr cache_build_dir]>
  (<["tree" := VStr tree]>
  (<["blddate" := VInt blddate]>
  (<["buildid" := VStr buildid]>
  (<["revision" := VStr rev]>
  (<["androidprocname" := VStr procname]>
  (<["version" := VStr ver]>
  (<["bldtype" := VStr "opt"]> ∅))))))).


(** The ways through [build_job]. *)
Inductive build_job_path (dir : option string) (s : state C)
    : result (option (gmap string value)) → state C → Prop :=
  | no_build :
      dir = None ∨ dir = Some "" →
      build_job_path dir s (Ok None)
        (add_log (Log WARNING "No build available. Aborting job.") s)
  | bad_apk d :
      dir = Some d → d ≠ "" →
      build_apks s !! Str.os_path_join d "build.apk" = Some NotAZip
      ∨ build_apks s !! Str.os_path_join d "build.apk" = Some CorruptApplicationIni →
      build_job_path dir s (Ok None)
        (set_scratch pred
           (add_log (Log ERROR (Str.os_path_join d "build.apk"
                                +:+ " is a bad apk; aborting job."))
              (set_scratch S s)))
  | job_made d sections app rev ver repo buildid blddate tree :
      dir = Some d → d ≠ "" →
      build_apks s !! Str.os_path_join d "build.apk" = Some (ApplicationIni sections) →
      sections !! "App" = Some app →
      app !! "sourcestamp" = Some rev →
      app !! "version" = Some ver →
      app !! "sourcerepository" = Some repo →
      app !! "buildid" = Some buildid →
      strptime env buildid "%Y%m%d%H%M%S" = Some blddate →
      (tree_and_procname repo).1 = Some tree →
      build_job_path dir s
        (Ok (Some (descriptor d tree buildid rev (tree_and_procname repo).2 ver
                     (mktime env blddate))))
        (set_scratch pred (set_scratch S s))
  | job_failed d e :
      dir = Some d → d ≠ "" →
      build_job_path dir s (Raise e) (set_scratch S s).

Lemma build_job_cases dir (s : state C) :
  build_job_path dir s (build_job env dir s).1 (build_job env dir s).2.
Proof.
  destruct dir as [d|]; [|apply no_build; by left].
  destruct (decide (d = "")) as [->|Hd]; [apply no_build; by right|].
  destruct (build_job env (Some d) s) as [r s'] eqn:Hrun. cbn [fst snd]. revert Hrun.
  assert (build_job env (Some d) s
          = (run mkdtemp in
             let build_path := Str.os_path_join d "build.apk" in
             let* extracted :=
               try_except
                 (let* cfg := extract_application_ini build_path in ret (Some cfg))
                 (λ e, match e with
                       | BadZipfile =>
                           Some (run logging ERROR
                                       (build_path +:+ " is a bad apk; aborting job.") in
                                 run rmtree_tmpdir in
                                 ret None)
                       | _ => None
                       end) in
             match extracted with
             | None => ret None
             | Some cfg =>
                 let* rev := cfg_get cfg "App" "SourceStamp" in
                 let* ver := cfg_get cfg "App" "Version" in
                 let* repo := cfg_get cfg "App" "SourceRepository" in
                 let* buildid := cfg_get cfg "App" "BuildID" in
                 let* blddate :=
                   match strptime env buildid "%Y%m%d%H%M%S" with
                   | Some t => ret t
                   | None => raise (ValueError "time data does not match format")
                   end in
                 let* tree := local "tree" (tree_and_procname repo).1 in
                 run rmtree_tmpdir in
                 ret (Some (descriptor d tree buildid rev (tree_and_procname repo).2 ver
                              (mktime env blddate)))
             end)%py s) as ->.
  { destruct d; [done|reflexivity]. }
  unfold mkdtemp. rewrite bind_modify. cbv zeta.
  unfold bind at 1, try_except, bind at 1, extract_application_ini.
  cbn [build_apks set_scratch].
  destruct (build_apks s !! Str.os_path_join d "build.apk") as [[| | |sections]|] eqn:Hapk;
    cbn [fst snd ret];
    try (unfold logging, rmtree_tmpdir; rewrite !bind_modify; cbn [fst snd ret]);
    try (intros [= <- <-]);
    [by eapply bad_apk; eauto|by eapply job_failed|by eapply bad_apk; eauto| |
     by eapply job_failed];
    [].
  unfold cfg_get.
  destruct (sections !! "App") as [app|] eqn:Happ;
    [|intros [= <- <-]; by eapply job_failed].
  change (Str.lower "SourceStamp") with "sourcestamp".
  change (Str.lower "Version") with "version".
  change (Str.lower "SourceRepository") with "sourcerepository".
  change (Str.lower "BuildID") with "buildid".
  destruct (app !! "sourcestamp") as [rev|] eqn:Hrev;
    [|intros [= <- <-]; by eapply job_failed].
  destruct (app !! "version") as [ver|] eqn:Hver;
    [|intros [= <- <-]; by eapply job_failed].
  destruct (app !! "sourcerepository") as [repo|] eqn:Hrepo;
    [|intros [= <- <-]; by eapply job_failed].
  destruct (app !! "buildid") as [buildid|] eqn:Hid;
    [|intros [= <- <-]; by eapply job_failed].
  unfold bind, ret, raise. cbn beta iota.
  destruct (strptime env buildid "%Y%m%d%H%M%S") as [blddate|] eqn:Htime;
    [|intros [= <- <-]; by eapply job_failed].
  cbn beta iota.
  destruct (tree_and_procname repo).1 as [tree|] eqn:Htree;
    [|intros [= <- <-]; by eapply job_failed].
  cbn [local ret fst snd]. unfold rmtree_tmpdir, modify. intros [= <- <-].
  by eapply job_made.
Qed.

Lemma build_job_frame dir (s : state C) :
  let r := (build_job env dir s).1 in
  let s' := (build_job env dir s).2 in
  phone_workers s' = phone_workers s
  ∧ scratch s' = match r with Ok _ => scratch s | Raise _ => S (scratch s) end.
Proof. cbv zeta. by destruct (build_job_cases dir s). Qed.


(** X18.  [build_job] makes its scratch directory after the test for a
    missing build and removes it on both ways out by [return]; an
    exception that leaves [build_job] leaves the directory behind.
    The registry, the build files, the mail and the standard output
    are never touched. *)
Theorem build_job_scratch dir (s : state C) :
  let r := (build_job env dir s).1 in
  let s' := (build_job env dir s).2 in
  phone_workers s' = phone_workers s ∧ build_apks s' = build_apks s
  ∧ outbox s' = outbox s ∧ stdout s' = stdout s
  ∧ scratch s' = match r with Ok _ => scratch s | Raise _ => S (scratch s) end.
Proof.
  cbv zeta.
  destruct (build_job_cases dir s)
    as [Hnone|d Hdir Hd Hbad|d ? ? ? ? ? ? ? ? Hdir Hd|d e Hdir Hd].
  - by split_and!.
  - by split_and!.
  - by split_and!.
  - by split_and!.
Qed.



End dispatch.

Lemma start_tests_dispatches_witness :
  let job : gmap string value :=
    {[ "androidprocname" := VStr "org.mozilla.fennec"; "revision" := VStr "f8a1e2c4b6d0";
       "blddate" := VInt 1340000000; "bldtype" := VStr "opt"; "version" := VStr "16.0a1" ]} in
  let s := Samples.orchestrator_state in
  ∃ s', start_tests (Samples.orchestrator_environ Samples.delivers) (Some job) s = (Ok tt, s')
        ∧ phone_workers s' = add_job job <$> phone_workers s
        ∧ log s' = (log s ++ (announced <$> (map_to_list (phone_workers s)).*2))%list
        ∧ stdout s' = stdout s ∧ outbox s' = outbox s
        ∧ build_apks s' = build_apks s ∧ scratch s' = scratch s.
Proof.
  apply (start_tests_dispatches (Samples.orchestrator_environ Samples.delivers)
           {[ "androidprocname" := VStr "org.mozilla.fennec";
              "revision" := VStr "f8a1e2c4b6d0"; "blddate" := VInt 1340000000;
              "bldtype" := VStr "opt"; "version" := VStr "16.0a1" ]}
           Samples.orchestrator_state).
  repeat constructor; by eexists.
Defined.

Lemma start_tests_incomplete_job_witness :
  start_tests (Samples.orchestrator_environ Samples.delivers)
    (Some {[ "revision" := VStr "f8a1e2c4b6d0" ]}) Samples.orchestrator_state
  = (Raise (AttributeError "'AutoPhone' object has no attribute 'logger'"),
     Samples.orchestrator_state).
Proof.
  apply (start_tests_incomplete_job (Samples.orchestrator_environ Samples.delivers)
           {[ "revision" := VStr "f8a1e2c4b6d0" ]} Samples.orchestrator_state).
  intros Hall. apply Forall_cons_1 in Hall as [[v Hv] _]. vm_compute in Hv. discriminate.
Defined.

Section sweeping.
Context {C : Type} `{Crashes C} (env : environ).

(** The mail about a worker found dead. *)
Definition notification (w : PhoneWorker C) : string * string :=
  let crashy := too_many_crashes (add_crash (crashes w)) in
  let msg_subj := "Worker for phone " +:+ phoneid (phone_cfg w) +:+ " died" in
  let msg_body :=
    "Hello, this is Autophone. Just to let you know, the worker process"
    +:+ String Str.newline "" +:+ "for phone " +:+ phoneid (phone_cfg w) +:+ " died."
    +:+ String Str.newline "" in
  (if crashy then msg_subj +:+ " and was disabled" else msg_subj,
   if crashy
   then msg_body +:+ "It looks really crashy, so I disabled it. Sorry about that."
        +:+ String Str.newline ""
   else msg_body).

(** The mailer delivers, or fails with [socket.error]. *)
Definition mailer_tolerable : Prop :=
  ∀ subj body, match mailer_send env subj body with
               | Sent | SendRaises (SocketError _) => True
               | SendRaises _ => False
               end.

Definition delivered (m : string * string) : bool :=
  match mailer_send env m.1 m.2 with Sent => true | SendRaises _ => false end.

(** What one worker adds to the mail and to the standard output. *)
Definition mail_of (w : PhoneWorker C) : list (string * string) :=
  if is_alive w then [] else filter (λ m, delivered m = true) [notification w].
Definition line_of (id : string) (w : PhoneWorker C) : list string :=
  if is_alive w then [] else ["Worker " +:+ id +:+ " died!"].
Definition revived (w : PhoneWorker C) : PhoneWorker C :=
  if is_alive w then w else restarted w.

Lemma check_worker_tolerable id (s : state C) w :
  mailer_tolerable →
  phone_workers s !! id = Some w →
  ∃ s', check_worker env id s = (Ok tt, s')
        ∧ phone_workers s' = <[id := revived w]> (phone_workers s)
        ∧ outbox s' = (outbox s ++ mail_of w)%list
        ∧ stdout s' = (stdout s ++ line_of id w)%list
        ∧ build_apks s' = build_apks s ∧ scratch s' = scratch s.
Proof.
  intros Hmail Hw. unfold check_worker, revived, mail_of, line_of.
  rewrite (ap_bind_ok (worker_of id) _ s w s) by (unfold worker_of; by rewrite Hw).
  destruct (is_alive w) eqn:Halive; cbn [negb].
  { exists s. rewrite !app_nil_r. split_and!; try done. by rewrite insert_id. }
  unfold print, logging, on_worker.
  rewrite !bind_modify.
  set (m2 := alter crashes_add_crash id (alter stop id (phone_workers s))).
  assert (m2 !! id = Some (crashes_add_crash (stop w))) as Hw2.
  { unfold m2. by rewrite !lookup_alter_eq, Hw. }
  match goal with
  | |- context [ bind (worker_of id) ?k ?s2 ] =>
      rewrite (ap_bind_ok (worker_of id) k s2 (crashes_add_crash (stop w)) s2)
        by (unfold worker_of; cbn [phone_workers set_phone_workers add_log add_stdout];
            fold m2; by rewrite Hw2)
  end.
  cbn [crashes crashes_add_crash stop phone_cfg].
  rewrite !bind_modify.
  unfold try_except, bind, mailer_send_, modify, raise.
  unfold delivered, notification. cbn [fst snd filter list_filter].
  match goal with
  | |- context [ mailer_send env ?a ?b ] =>
      pose proof (Hmail a b) as Hok; destruct (mailer_send env a b) as [|[]]
  end; try done; cbn; eexists; (split; [reflexivity|]); cbn;
    unfold m2; rewrite alter_restart by done; rewrite ?app_nil_r; done.
Qed.

Lemma for_phoneids_tolerable ids (s : state C) :
  mailer_tolerable →
  NoDup ids →
  (∀ id, id ∈ ids → is_Some (phone_workers s !! id)) →
  ∃ s', for_phoneids ids (check_worker env) s = (Ok tt, s')
        ∧ (∀ id, phone_workers s' !! id
                 = if decide (id ∈ ids) then revived <$> phone_workers s !! id
                   else phone_workers s !! id)
        ∧ outbox s'
          = (outbox s ++ (ids ≫= λ id, from_option mail_of [] (phone_workers s !! id)))%list
        ∧ stdout s'
          = (stdout s
             ++ (ids ≫= λ id, from_option (line_of id) [] (phone_workers s !! id)))%list
        ∧ build_apks s' = build_apks s ∧ scratch s' = scratch s.
Proof.
  intros Hmail. revert s. induction ids as [|x ids IH]; intros s Hnd Hreg.
  - exists s. cbn [mbind list_bind]. rewrite !app_nil_r. by split_and!.
  - apply NoDup_cons in Hnd as [Hx Hnd].
    destruct (Hreg x) as [wx Hwx]; [apply list_elem_of_here|].
    destruct (check_worker_tolerable x s wx Hmail Hwx)
      as (s1 & Hrun1 & Hws1 & Hbox1 & Hout1 & Hapk1 & Hscr1).
    assert (∀ id, id ≠ x → phone_workers s1 !! id = phone_workers s !! id) as Hother.
    { intros id Hne. by rewrite Hws1, lookup_insert_ne. }
    destruct (IH s1 Hnd) as (s' & Hrun & Hws & Hbox & Hout & Hapk & Hscr).
    { intros id Hid. rewrite Hother by (intros ->; done).
      apply Hreg. by apply list_elem_of_further. }
    exists s'. cbn [for_phoneids]. rewrite (ap_bind_ok _ _ _ _ _ Hrun1).
    split; [done|]. split_and!; try congruence.
    + intros id. rewrite Hws. destruct (decide (id = x)) as [->|Hne].
      * rewrite decide_False by done. rewrite decide_True by apply list_elem_of_here.
        by rewrite Hws1, lookup_insert_eq, Hwx.
      * rewrite Hother by done. destruct (decide (id ∈ ids)) as [Hin|Hout'].
        -- by rewrite decide_True by (by apply list_elem_of_further).
        -- rewrite decide_False; [done|]. rewrite not_elem_of_cons. tauto.
    + rewrite Hbox, Hbox1. cbn [mbind list_bind]. rewrite Hwx. cbn [from_option].
      rewrite <- app_assoc. do 2 f_equal. clear -Hx Hother.
      induction ids as [|y ids IH]; [done|]. apply not_elem_of_cons in Hx as [Hne Hx].
      cbn [mbind list_bind]. rewrite Hother by done. f_equal. by apply IH.
    + rewrite Hout, Hout1. cbn [mbind list_bind]. rewrite Hwx. cbn [from_option].
      rewrite <- app_assoc. do 2 f_equal. clear -Hx Hother.
      induction ids as [|y ids IH]; [done|]. apply not_elem_of_cons in Hx as [Hne Hx].
      cbn [mbind list_bind]. rewrite Hother by done. f_equal. by apply IH.
Qed.

Lemma bind_keys {B} (f : string → PhoneWorker C → list B) (m : gmap string (PhoneWorker C)) :
  ((map_to_list m).*1 ≫= λ id, from_option (f id) [] (m !! id))
  = (map_to_list m ≫= λ kw, f kw.1 kw.2).
Proof.
  assert (∀ id w, (id, w) ∈ map_to_list m → m !! id = Some w) as Hlook.
  { intros id w. apply elem_of_map_to_list. }
  induction (map_to_list m) as [|[id w] l IH]; [done|].
  cbn [fmap list_fmap mbind list_bind fst snd].
  rewrite (Hlook id w) by apply list_elem_of_here. cbn [from_option]. f_equal.
  apply IH. intros id' w' Hkw. apply Hlook. by apply list_elem_of_further.
Qed.

(** X21.  With a mailer that delivers or fails with [socket.error], the
    sweep always runs to its end: every worker found dead runs
    again, the others are as they were; the standard output names
    the dead workers in the order of the registry; and the mail holds
    one notification for each dead worker whose notification was
    delivered, its subject ending in [and was disabled] exactly when
    the worker was started disabled. *)
Theorem check_for_dead_workers_completes (s : state C) :
  mailer_tolerable →
  ∃ s', check_for_dead_workers env s = (Ok tt, s')
        ∧ phone_workers s' = revived <$> phone_workers s
        ∧ outbox s'
          = (outbox s ++ (map_to_list (phone_workers s) ≫= λ kw, mail_of kw.2))%list
        ∧ stdout s'
          = (stdout s ++ (map_to_list (phone_workers s) ≫= λ kw, line_of kw.1 kw.2))%list
        ∧ build_apks s' = build_apks s ∧ scratch s' = scratch s.
Proof.
  intros Hmail.
  destruct (for_phoneids_tolerable (keys s) s Hmail)
    as (s' & Hrun & Hws & Hbox & Hout & Hapk & Hscr).
  { apply NoDup_fst_map_to_list. }
  { intros id ([id' w] & -> & Hin)%list_elem_of_fmap.
    apply elem_of_map_to_list in Hin. eauto. }
  exists s'. split; [exact Hrun|]. split_and!; try done.
  - apply map_eq. intros id. rewrite Hws, lookup_fmap.
    case_decide as Hin; [done|].
    destruct (phone_workers s !! id) as [w|] eqn:Hw; [|done].
    exfalso. apply Hin, list_elem_of_fmap. exists (id, w). split; [done|].
    by apply elem_of_map_to_list.
  - rewrite Hbox. f_equal. apply (bind_keys (λ _, mail_of)).
  - rewrite Hout. f_equal. apply (bind_keys line_of).
Qed.

Lemma for_phoneids_healthy ids (s : state C) :
  (∀ id, id ∈ ids → ∃ w, phone_workers s !! id = Some w ∧ is_alive w = true) →
  for_phoneids ids (check_worker env) s = (Ok tt, s).
Proof.
  induction ids as [|x ids IH]; intros Hall; [done|].
  destruct (Hall x) as (wx & Hwx & Halive); [apply list_elem_of_here|].
  cbn [for_phoneids].
  rewrite (ap_bind_ok (check_worker env x) _ s tt s).
  - apply IH. intros id Hid. apply Hall. by apply list_elem_of_further.
  - unfold check_worker.
    rewrite (ap_bind_ok (worker_of x) _ s wx s) by (unfold worker_of; by rewrite Hwx).
    by rewrite Halive.
Qed.

(** X22.  When every registered worker is alive the sweep changes nothing
    and sends nothing, whatever the mailer would do. *)
Theorem check_for_dead_workers_healthy (s : state C) :
  map_Forall (λ _ w, is_alive w = true) (phone_workers s) →
  check_for_dead_workers env s = (Ok tt, s).
Proof.
  intros Hall. unfold check_for_dead_workers, bind, gets.
  apply for_phoneids_healthy.
  intros id ([id' w] & -> & Hin)%list_elem_of_fmap.
  apply elem_of_map_to_list in Hin. exists w. split; [done|]. by eapply Hall.
Qed.
End sweeping.

Lemma check_for_dead_workers_completes_witness :
  let env := Samples.orchestrator_environ Samples.unreachable in
  let s := Samples.orchestrator_state in
  ∃ s', check_for_dead_workers env s = (Ok tt, s')
        ∧ phone_workers s' = revived <$> phone_workers s
        ∧ outbox s'
          = (outbox s ++ (map_to_list (phone_workers s) ≫= λ kw, mail_of env kw.2))%list
        ∧ stdout s'
          = (stdout s ++ (map_to_list (phone_workers s) ≫= λ kw, line_of kw.1 kw.2))%list
        ∧ build_apks s' = build_apks s ∧ scratch s' = scratch s.
Proof.
  apply (check_for_dead_workers_completes (Samples.orchestrator_environ Samples.unreachable)
           Samples.orchestrator_state).
  intros subj body. exact I.
Defined.

(** A fleet of two workers, both alive. *)
Definition healthy_fleet : gmap string (PhoneWorker nat) :=
  {[ "aa_bb_cc_00_00_01_nexus_s" :=
       Worker (Samples.phone "aa_bb_cc_00_00_01_nexus_s") 0%nat (Running IDLE) [];
     "aa_bb_cc_00_00_04_nexus_s" :=
       Worker (Samples.phone "aa_bb_cc_00_00_04_nexus_s") 2%nat (Running WORKING) [] ]}.

Definition healthy_state : state nat := State healthy_fleet [] [] [] ∅ 0.

Lemma check_for_dead_workers_healthy_witness :
  check_for_dead_workers (Samples.orchestrator_environ Samples.unreachable) healthy_state
  = (Ok tt, healthy_state).
Proof.
  apply (check_for_dead_workers_healthy (Samples.orchestrator_environ Samples.unreachable)
           healthy_state).
  apply (bool_decide_unpack _). vm_compute. exact I.
Defined.

End Fleet.

(** ** The command server *)

Module Connection.
Import Autophone Cmd Orchestrator.

Lemma partition_found sep a b :
  (partition sep a).1.2 = true →
  partition sep (a +:+ b) = ((partition sep a).1.1, true, (partition sep a).2 +:+ b).
Proof.
  induction a as [|c a IH]; [done|]. simpl.
  case_bool_decide; [done|]. simpl. intros Hnl. by rewrite (IH Hnl).
Qed.

Lemma partition_not_found sep a b :
  (partition sep a).1.2 = false →
  partition sep (a +:+ b)
  = (a +:+ (partition sep b).1.1, (partition sep b).1.2, (partition sep b).2).
Proof.
  induction a as [|c a IH]; simpl.
  - intros _. change (partition sep ("" +:+ b)) with (partition sep b).
    by destruct (partition sep b) as [[? ?] ?].
  - case_bool_decide; [done|]. simpl. intros Hnl. by rewrite (IH Hnl).
Qed.

Lemma partition_shorter sep s :
  (partition sep s).1.2 = true →
  (String.length (partition sep s).2 < String.length s)%nat.
Proof.
  induction s as [|c s IH]; [done|]. simpl.
  case_bool_decide; simpl; [lia|]. intros Hnl. specialize (IH Hnl). lia.
Qed.

Lemma app_empty (a b : string) : a +:+ b = "" → a = "".
Proof. by destruct a. Qed.

Lemma append_assoc (a b c : string) : a +:+ (b +:+ c) = (a +:+ b) +:+ c.
Proof.
  induction a as [|x a IH]; [done|].
  change (String x (a +:+ (b +:+ c)) = String x ((a +:+ b) +:+ c)). by rewrite IH.
Qed.

Section handler.
Context {A : Type} (cmd_cb : string → Py.M A string).

(** The inner loop with the rounds the source gives it. *)
Definition drain (buffer : string) : Py.M (session A) left_by :=
  lines_loop cmd_cb (String.length buffer) buffer.

(** More rounds than the length of the buffer change nothing. *)
Lemma lines_loop_rounds rounds rounds' buffer c :
  (String.length buffer ≤ rounds)%nat → (String.length buffer ≤ rounds')%nat →
  lines_loop cmd_cb rounds buffer c = lines_loop cmd_cb rounds' buffer c.
Proof.
  revert rounds' buffer c.
  induction rounds as [|rounds IH]; intros rounds' buffer c Hr Hr'.
  - destruct buffer; [|simpl in Hr; lia]. by destruct rounds'.
  - destruct rounds' as [|rounds'].
    { destruct buffer; [done|simpl in Hr'; lia]. }
    cbn [lines_loop]. case_bool_decide as Hempty; [done|].
    destruct (partition Str.newline buffer).1.2 eqn:Hnl; cbn [negb]; [|done].
    pose proof (partition_shorter _ _ Hnl) as Hlt.
    case_bool_decide; [apply IH; lia|].
    destruct (_ || _); [done|].
    unfold bind. destruct (server_cmd_cb cmd_cb _ c) as [[response|e] c1]; [|done].
    cbn [send modify]. apply IH; lia.
Qed.

(** One round of the inner loop. *)
Lemma drain_round buffer c :
  drain buffer c
  = (if bool_decide (buffer = "") then ret (Break buffer)
     else if negb (partition Str.newline buffer).1.2 then ret (Break buffer)
     else
       let rest := (partition Str.newline buffer).2 in
       let line := Str.strip (partition Str.newline buffer).1.1 in
       if bool_decide (line = "") then drain rest
       else if bool_decide (line = "quit") || bool_decide (line = "exit") then
         (run close in ret Return)%py
       else
         (let* response := server_cmd_cb cmd_cb line in
          run send (response +:+ String Str.newline "") in
          drain rest)%py) c.
Proof.
  unfold drain. destruct buffer as [|x buffer]; [done|].
  cbn [String.length lines_loop]. rewrite bool_decide_eq_false_2 by done.
  destruct (partition Str.newline (String x buffer)).1.2 eqn:Hnl; cbn [negb]; [|done].
  pose proof (partition_shorter _ _ Hnl) as Hlt. cbn [String.length] in Hlt. cbv zeta.
  case_bool_decide; [apply lines_loop_rounds; lia|].
  destruct (_ || _); [done|].
  unfold bind. destruct (server_cmd_cb cmd_cb _ c) as [[response|e] c1]; [|done].
  cbn [send modify]. apply lines_loop_rounds; lia.
Qed.

(** What is left in the buffer holds no newline. *)
Lemma drain_leaves_no_line buffer c b c' :
  drain buffer c = (Ok (Break b), c') → (partition Str.newline b).1.2 = false.
Proof.
  remember (String.length buffer) as n eqn:Hn.
  revert buffer c Hn. induction (lt_wf n) as [n _ IH]. intros buffer c -> .
  rewrite drain_round. case_bool_decide as Hempty; [by intros [= <- <-]; subst|].
  destruct (partition Str.newline buffer).1.2 eqn:Hnl; cbn [negb];
    [|by intros [= <- <-]].
  pose proof (partition_shorter _ _ Hnl) as Hlt. cbv zeta.
  case_bool_decide; [by eapply IH|].
  destruct (_ || _); [done|].
  unfold bind. destruct (server_cmd_cb cmd_cb _ c) as [[response|e] c1]; [|done].
  cbn [send modify]. by eapply IH.
Qed.

(** A buffer without a newline is left as it is. *)
Lemma drain_no_line buffer c :
  (partition Str.newline buffer).1.2 = false → drain buffer c = (Ok (Break buffer), c).
Proof.
  intros Hnl. rewrite drain_round. case_bool_decide; [done|]. by rewrite Hnl.
Qed.

(** Bytes that arrive later can wait: the loop on a buffer and more
    bytes is the loop on the buffer, and then on what it left and the
    bytes. *)
Lemma drain_app x d c :
  drain (x +:+ d) c
  = (let* left := drain x in
     match left with
     | Break b => drain (b +:+ d)
     | Return => ret Return
     end)%py c.
Proof.
  remember (String.length x) as n eqn:Hn.
  revert x c Hn. induction (lt_wf n) as [n _ IH]. intros x c ->.
  destruct (partition Str.newline x).1.2 eqn:Hnl.
  - pose proof (partition_shorter _ _ Hnl) as Hlt.
    unfold bind at 1. rewrite (drain_round x c), (drain_round (x +:+ d) c).
    rewrite (bool_decide_eq_false_2 (x = "")) by (intros ->; done).
    rewrite (bool_decide_eq_false_2 (x +:+ d = ""))
      by (intros ->%app_empty; done).
    rewrite (partition_found _ _ _ Hnl), Hnl. cbn [fst snd negb]. cbv zeta.
    case_bool_decide.
    { erewrite IH; [done|exact Hlt|done]. }
    destruct (_ || _); [done|].
    unfold bind. destruct (server_cmd_cb cmd_cb _ c) as [[response|e] c1]; [|done].
    cbn [send modify]. erewrite IH; [done|exact Hlt|done].
  - unfold bind. by rewrite (drain_no_line x c Hnl).
Qed.

Lemma recv_loop_data buffer data stream c :
  data ≠ "" →
  recv_loop cmd_cb buffer (Data data :: stream) c
  = (let* left := drain (buffer +:+ data) in
     match left with
     | Break buffer => recv_loop cmd_cb buffer stream
     | Return => ret tt
     end)%py c.
Proof. intros Hdata. cbn [recv_loop]. by rewrite bool_decide_eq_false_2. Qed.

(** Two pieces received one after the other are as good as one. *)
Lemma recv_loop_join buffer d1 d2 stream c :
  d1 ≠ "" → d2 ≠ "" →
  recv_loop cmd_cb buffer (Data d1 :: Data d2 :: stream) c
  = recv_loop cmd_cb buffer (Data (d1 +:+ d2) :: stream) c.
Proof.
  intros H1 H2. rewrite !recv_loop_data; [|by intros ->%app_empty|done].
  unfold bind. rewrite append_assoc, (drain_app (buffer +:+ d1) d2). unfold bind.
  destruct (drain (buffer +:+ d1) c) as [[[b|]|e] c1]; [|done..].
  by rewrite recv_loop_data.
Qed.

(** The bytes of the pieces, one after the other. *)
Definition joined (chunks : list string) : string := foldr String.append "" chunks.

Lemma append_empty_r (a : string) : a +:+ "" = a.
Proof.
  induction a as [|x a IH]; [done|].
  change (String x (a +:+ "") = String x a). by rewrite IH.
Qed.

Lemma recv_loop_chunks buffer chunk chunks stream c :
  chunk ≠ "" → Forall (λ d, d ≠ "") chunks →
  recv_loop cmd_cb buffer ((Data <$> chunk :: chunks) ++ stream) c
  = recv_loop cmd_cb buffer (Data (joined (chunk :: chunks)) :: stream) c.
Proof.
  intros Hchunk Hall. revert chunk Hchunk.
  induction Hall as [|d chunks Hd Hall IH]; intros chunk Hchunk.
  - rewrite fmap_cons, fmap_nil. cbn [app joined foldr]. by rewrite append_empty_r.
  - rewrite !fmap_cons, <- !app_comm_cons. rewrite recv_loop_join by done.
    specialize (IH (chunk +:+ d)). rewrite fmap_cons, <- app_comm_cons in IH.
    rewrite IH by (by intros ->%app_empty).
    cbn [joined foldr]. by rewrite append_assoc.
Qed.

(** X23.  What a connection leads to depends on the bytes the peer sent
    before it closed, not on the pieces [recv] returned them in. *)
Theorem handle_chunking chunks1 chunks2 c :
  Forall (λ d, d ≠ "") chunks1 → Forall (λ d, d ≠ "") chunks2 →
  joined chunks1 = joined chunks2 →
  handle cmd_cb (Data <$> chunks1) c = handle cmd_cb (Data <$> chunks2) c.
Proof.
  intros H1 H2 Hsame. unfold handle, send. rewrite !bind_modify.
  destruct H1 as [|d1 chunks1 Hd1 H1], H2 as [|d2 chunks2 Hd2 H2].
  - done.
  - cbn [joined foldr] in Hsame. symmetry in Hsame. by apply app_empty in Hsame.
  - cbn [joined foldr] in Hsame. by apply app_empty in Hsame.
  - pose proof (recv_loop_chunks "" d1 chunks1 []) as Hl.
    pose proof (recv_loop_chunks "" d2 chunks2 []) as Hr.
    rewrite !app_nil_r in Hl, Hr. rewrite Hl, Hr by done. by rewrite Hsame.
Qed.

(** X24.  What follows the last newline is never run as a command, not
    even when the peer closes: it is dropped with the buffer. *)
Theorem handle_unterminated complete tail c :
  (partition Str.newline tail).1.2 = false →
  handle cmd_cb [Data (complete +:+ tail)] c = handle cmd_cb [Data complete] c.
Proof.
  intros Htail. unfold handle, send. rewrite !bind_modify.
  set (c0 := Session (app c) _ (closed c)). clearbody c0.
  destruct (decide (complete = "")) as [->|Hcomplete].
  - change ("" +:+ tail) with tail. cbn [recv_loop].
    case_bool_decide; [done|]. rewrite bool_decide_eq_true_2 by done.
    unfold bind. change ("" +:+ tail) with tail.
    fold (drain tail). by rewrite (drain_no_line tail c0 Htail).
  - rewrite !recv_loop_data; [|done|by intros ->%app_empty].
    change ("" +:+ (complete +:+ tail)) with (complete +:+ tail).
    change ("" +:+ complete) with complete.
    unfold bind. rewrite (drain_app complete tail). unfold bind.
    destruct (drain complete c0) as [[[b|]|e] c1] eqn:Hdrain; [|done..].
    rewrite drain_no_line; [done|].
    rewrite partition_not_found by (by eapply drain_leaves_no_line).
    done.
Qed.
End handler.

(** A callback that counts its calls and answers with the line. *)
Definition echo (line : string) : Py.M nat string := λ n, (Ok ("ok " +:+ line), S n).

Lemma handle_chunking_witness :
  let c := Session 0%nat [] false in
  handle echo (Data <$> ["lo"; "g hi" +:+ String Str.newline "sta";
                         "tus" +:+ String Str.newline ""]) c
  = handle echo (Data <$> ["log hi" +:+ String Str.newline "";
                           "status" +:+ String Str.newline ""]) c.
Proof.
  apply (handle_chunking echo
           ["lo"; "g hi" +:+ String Str.newline "sta"; "tus" +:+ String Str.newline ""]
           ["log hi" +:+ String Str.newline ""; "status" +:+ String Str.newline ""]
           (Session 0%nat [] false)).
  - repeat constructor; discriminate.
  - repeat constructor; discriminate.
  - reflexivity.
Defined.

Lemma handle_unterminated_witness :
  let c := Session 0%nat [] false in
  handle echo [Data (("log hi" +:+ String Str.newline "") +:+ "stop")] c
  = handle echo [Data ("log hi" +:+ String Str.newline "")] c.
Proof.
  apply (handle_unterminated echo ("log hi" +:+ String Str.newline "") "stop"
           (Session 0%nat [] false)).
  reflexivity.
Defined.

End Connection.

(** ** The command router *)

Module Commands.
Import Autophone Cmd Orchestrator.

(** The command words [route_cmd] knows. *)
Definition command_words : list string :=
  ["stop"; "log"; "triggerjobs"; "register"; "status";
   "disable"; "enable"; "debug"; "ping"].

(** The command word of a line, as [route_cmd] reads it. *)
Definition command_word (data : string) : string :=
  Str.lower (partition " " (Str.strip data)).1.1.

Definition parameters (data : string) : string := (partition " " (Str.strip data)).2.

Section router.
Context {C : Type} `{Crashes C} (env : environ).
Context (register_cmd : string → Py.M (state C) unit).
Context (status : Py.M (state C) string).
Context (worker_command : string → string → option string → Py.M (state C) unit).
Context (update_phone_cache : Py.M (state C) unit).

Local Abbreviation dispatch_ :=
  (dispatch env register_cmd status worker_command update_phone_cache).
Local Abbreviation route_cmd_ :=
  (route_cmd env register_cmd status worker_command update_phone_cache).
Local Abbreviation route_cmds_ :=
  (route_cmds env register_cmd status worker_command update_phone_cache).

Lemma on_orchestrator_lock {B} (m : Py.M (state C) B) s :
  cmd_lock (on_orchestrator m s).2 = cmd_lock s.
Proof. done. Qed.

Lemma bind_lock {A B} (m : Py.M (server C) A) (k : A → Py.M (server C) B) s :
  (∀ s, cmd_lock (m s).2 = cmd_lock s) →
  (∀ a s, cmd_lock (k a s).2 = cmd_lock s) →
  cmd_lock (bind m k s).2 = cmd_lock s.
Proof.
  intros Hm Hk. unfold bind. specialize (Hm s).
  destruct (m s) as [[a|e] s1]; cbn [snd] in *; [|done]. by rewrite Hk.
Qed.

(** Nothing between [acquire] and [release] touches the lock. *)
Lemma dispatch_lock data s : cmd_lock (dispatch_ data s).2 = cmd_lock s.
Proof.
  unfold dispatch. cbv zeta.
  repeat case_match;
    repeat first
      [ done
      | apply bind_lock; [intros ?|intros ? ?]
      | apply on_orchestrator_lock
      | case_match ].
Qed.

Lemma route_cmd_held data s : cmd_lock s = true → route_cmd_ data s = (Blocks, s).
Proof. intros Hheld. unfold route_cmd. by rewrite Hheld. Qed.

(** One call of [route_cmd]: with the lock free it answers and
    leaves the lock free, or is left by an exception with the lock
    held; with the lock held it never returns. *)
Lemma route_cmd_lock data s :
  match (route_cmd_ data s).1 with
  | Responds _ => cmd_lock s = false ∧ cmd_lock (route_cmd_ data s).2 = false
  | Escapes _ => cmd_lock s = false ∧ cmd_lock (route_cmd_ data s).2 = true
  | Blocks => cmd_lock s = true ∧ (route_cmd_ data s).2 = s
  end.
Proof.
  unfold route_cmd. destruct (cmd_lock s) eqn:Hlock; [done|].
  pose proof (dispatch_lock data (set_cmd_lock true s)) as Hkept.
  by destruct (dispatch_ data (set_cmd_lock true s)) as [[response|e] s1].
Qed.

Lemma route_cmds_held commands s :
  cmd_lock s = true →
  route_cmds_ commands s = (replicate (length commands) Blocks, s).
Proof.
  intros Hheld. induction commands as [|data rest IH]; [done|].
  cbn [route_cmds]. by rewrite (route_cmd_held data s Hheld), IH.
Qed.

(** X25.  [cmd_lock] is released only on the way out by [return].  So of
    the commands that reach the router one after the other, those
    before the first one that raises are answered, and none after it
    ever is: every later call waits for the lock for ever. *)
Theorem route_cmds_wedge commands s :
  cmd_lock s = false →
  let outcomes :=
    (route_cmds env register_cmd status worker_command update_phone_cache commands s).1 in
  ∃ responses,
    outcomes = Responds <$> responses
    ∨ ∃ e, outcomes
           = ((Responds <$> responses)
              ++ Escapes e :: replicate (length commands - S (length responses)) Blocks)%list.
Proof.
  cbv zeta. revert s. induction commands as [|data rest IH]; intros s Hfree.
  - exists []. by left.
  - cbn [route_cmds]. pose proof (route_cmd_lock data s) as Hone.
    destruct (route_cmd_ data s) as [[response|e|] s1]; cbn [fst snd] in Hone.
    + destruct Hone as [_ Hfree1]. destruct (IH s1 Hfree1) as (responses & Hrest).
      exists (response :: responses).
      destruct (route_cmds_ rest s1) as [os s2]. cbn [fst] in *.
      destruct Hrest as [->|[e ->]]; [by left|right]. by exists e.
    + destruct Hone as [_ Hheld]. exists []. right. exists e.
      rewrite (route_cmds_held rest s1 Hheld). cbn [fst fmap list_fmap app length].
      rewrite app_nil_l. do 2 f_equal. lia.
    + destruct Hone as [Hheld _]. congruence.
Qed.

Lemma unlock_lock (s : server C) :
  cmd_lock s = false → set_cmd_lock false (set_cmd_lock true s) = s.
Proof. destruct s as [o l st]. cbn. by intros ->. Qed.

(** X26.  A line whose first word, in lower case, is none of the nine
    command words changes nothing, whatever follows the word: the
    response quotes the word in lower case and ends in a newline of
    its own. *)
Theorem route_cmd_unknown data s :
  cmd_lock s = false →
  command_word data ∉ command_words →
  route_cmd_ data s
  = (Responds ("Unknown command " +:+ Str.quoted (command_word data)
               +:+ String Str.newline ""), s).
Proof.
  intros Hfree Hword. unfold route_cmd. rewrite Hfree.
  unfold dispatch. cbv zeta. fold (command_word data).
  unfold command_words in Hword. rewrite !not_elem_of_cons in Hword.
  destruct Hword as (? & ? & ? & ? & ? & ? & ? & ? & ? & _).
  rewrite !bool_decide_eq_false_2 by done. cbn [orb ret].
  by rewrite unlock_lock.
Qed.

Lemma find_worker_none phoneid (o : state C) :
  (∀ key w, phone_workers o !! key = Some w →
            serial (phone_cfg w) ≠ phoneid
            ∧ Autophone.phoneid (phone_cfg w) ≠ phoneid) →
  find_worker phoneid o = None.
Proof.
  intros Hnone. unfold find_worker.
  assert (∀ key w, (key, w) ∈ map_to_list (phone_workers o) →
                   phone_workers o !! key = Some w) as Hlook.
  { intros key w. apply elem_of_map_to_list. }
  induction (map_to_list (phone_workers o)) as [|[key w] l IH]; [done|].
  rewrite filter_cons_False.
  - apply IH. intros key' w' Hin. apply Hlook. by apply list_elem_of_further.
  - cbn [snd]. destruct (Hnone key w) as [? ?]; [|tauto].
    apply Hlook, list_elem_of_here.
Qed.

(** X27.  [disable], [enable], [debug] and [ping] for a phone that is
    neither the serial nor the phone id of a registered worker call
    no worker and do not write the phone cache: the response is the
    error and nothing has changed. *)
Theorem route_cmd_phone_not_found data s :
  cmd_lock s = false →
  command_word data ∈ ["disable"; "enable"; "debug"; "ping"] →
  map_Forall (λ _ w, serial (phone_cfg w) ≠ (partition " " (parameters data)).1.1
                     ∧ phoneid (phone_cfg w) ≠ (partition " " (parameters data)).1.1)
    (phone_workers (orchestrator s)) →
  route_cmd_ data s = (Responds "error: phone not found", s).
Proof.
  intros Hfree Hword Hnone. unfold route_cmd. rewrite Hfree.
  unfold dispatch. cbv zeta. fold (command_word data) (parameters data).
  assert (command_word data ∉ ["stop"; "log"; "triggerjobs"; "register"; "status"])
    as Hnot.
  { intros Hin.
    repeat (apply elem_of_cons in Hin as [Heq|Hin];
            [rewrite Heq in Hword;
             repeat (apply elem_of_cons in Hword as [?|Hword]; [done|]);
             by apply elem_of_nil in Hword|]).
    by apply elem_of_nil in Hin. }
  rewrite !not_elem_of_cons in Hnot. destruct Hnot as (? & ? & ? & ? & ? & _).
  rewrite !(bool_decide_eq_false_2 (command_word data = _)) by done.
  assert (bool_decide (command_word data = "disable")
          || bool_decide (command_word data = "enable")
          || bool_decide (command_word data = "debug")
          || bool_decide (command_word data = "ping") = true) as ->.
  { repeat (apply elem_of_cons in Hword as [->|Hword]; [done|]).
    by apply elem_of_nil in Hword. }
  unfold bind, gets. cbn [orchestrator set_cmd_lock].
  rewrite (find_worker_none _ _ Hnone). cbn [ret]. by rewrite unlock_lock.
Qed.

Lemma trigger_jobs_raises data (o : state C) e :
  (build_job env (get_build env data)
     (add_log (Log DEBUG ("trigger_jobs: data  " +:+ data)) o)).1 = Raise e →
  ∃ o', trigger_jobs env data o = (Raise e, o') ∧ phone_workers o' = phone_workers o.
Proof.
  intros Hraise. unfold trigger_jobs, logging. rewrite bind_modify. unfold bind at 1.
  pose proof (Fleet.build_job_frame env (get_build env data)
                (add_log (Log DEBUG ("trigger_jobs: data  " +:+ data)) o)) as Hframe.
  cbv zeta in Hframe. destruct (build_job _ _ _) as [r o1]. cbn [fst snd] in *.
  subst r. destruct Hframe as [Hws _]. by exists o1.
Qed.

(** X28.  A [triggerjobs] command for a build of which [build_job] makes
    nothing but an exception wedges the server: the exception leaves
    [route_cmd] with the lock held, and no command is answered after
    it. *)
Theorem route_cmd_triggerjobs_wedges data s e :
  cmd_lock s = false →
  command_word data = "triggerjobs" →
  (build_job env (get_build env (parameters data))
     (add_log (Log DEBUG ("trigger_jobs: data  " +:+ parameters data))
        (orchestrator s))).1 = Raise e →
  ∃ s', route_cmd_ data s = (Escapes e, s')
        ∧ phone_workers (orchestrator s') = phone_workers (orchestrator s)
        ∧ ∀ data', route_cmd_ data' s' = (Blocks, s').
Proof.
  intros Hfree Hword Hraise. unfold route_cmd at 1. rewrite Hfree.
  unfold dispatch. cbv zeta. fold (command_word data) (parameters data).
  rewrite Hword. cbn [bool_decide decide_rel]. 
  rewrite (bool_decide_eq_false_2 ("triggerjobs" = "stop")) by done.
  rewrite (bool_decide_eq_false_2 ("triggerjobs" = "log")) by done.
  rewrite (bool_decide_eq_true_2 ("triggerjobs" = "triggerjobs")) by done.
  destruct (trigger_jobs_raises (parameters data) (orchestrator s) e Hraise)
    as (o' & Hrun & Hws).
  unfold bind at 1, on_orchestrator. cbn [orchestrator set_cmd_lock].
  rewrite Hrun. cbn [fst snd].
  eexists. split; [reflexivity|]. split; [done|].
  intros data'. by apply route_cmd_held.
Qed.
End router.

(** Collaborators that do nothing, and a server at rest with the
    sample fleet. *)
Definition register_nothing (data : string) : Py.M (state nat) unit := ret tt.
Definition status_nothing : Py.M (state nat) string := ret "".
Definition worker_nothing (cmd key : string) (params : option string)
    : Py.M (state nat) unit := ret tt.
Definition update_nothing : Py.M (state nat) unit := ret tt.

Definition sample_route_cmds : list string → server nat → list outcome * server nat :=
  route_cmds (Samples.orchestrator_environ Samples.delivers)
    register_nothing status_nothing worker_nothing update_nothing.
Definition sample_route_cmd : string → server nat → outcome * server nat :=
  route_cmd (Samples.orchestrator_environ Samples.delivers)
    register_nothing status_nothing worker_nothing update_nothing.

Definition idle_server : server nat := Server Samples.orchestrator_state false false.

Lemma route_cmds_wedge_witness :
  let commands := ["log hi"; "triggerjobs " +:+ Samples.build_url; "status"] in
  ∃ responses,
    (sample_route_cmds commands idle_server).1 = Responds <$> responses
    ∨ ∃ e, (sample_route_cmds commands idle_server).1
           = ((Responds <$> responses)
              ++ Escapes e :: replicate (length commands - S (length responses)) Blocks)%list.
Proof.
  apply (route_cmds_wedge (Samples.orchestrator_environ Samples.delivers)
           register_nothing status_nothing worker_nothing update_nothing
           ["log hi"; "triggerjobs " +:+ Samples.build_url; "status"] idle_server).
  reflexivity.
Defined.

(** The sample build is of a repository outside the table of
    [build_job]: the command that asks for it is the last one
    answered. *)
Example route_cmds_sample :
  (sample_route_cmds ["log hi"; "triggerjobs " +:+ Samples.build_url; "status"; "stop"]
     idle_server).1
  = [Responds "ok";
     Escapes (UnboundLocalError "local variable 'tree' referenced before assignment");
     Blocks; Blocks].
Proof. vm_compute. reflexivity. Qed.

Lemma route_cmd_unknown_witness :
  sample_route_cmd "Reboot now" idle_server
  = (Responds ("Unknown command " +:+ Str.quoted (command_word "Reboot now")
               +:+ String Str.newline ""), idle_server).
Proof.
  apply (route_cmd_unknown (Samples.orchestrator_environ Samples.delivers)
           register_nothing status_nothing worker_nothing update_nothing
           "Reboot now" idle_server).
  - reflexivity.
  - apply (bool_decide_unpack _). vm_compute. exact I.
Defined.

Lemma route_cmd_phone_not_found_witness :
  sample_route_cmd "ping POOL7" idle_server
  = (Responds "error: phone not found", idle_server).
Proof.
  apply (route_cmd_phone_not_found (Samples.orchestrator_environ Samples.delivers)
           register_nothing status_nothing worker_nothing update_nothing
           "ping POOL7" idle_server).
  - reflexivity.
  - apply (bool_decide_unpack _). vm_compute. exact I.
  - apply (bool_decide_unpack _). vm_compute. exact I.
Defined.

Lemma route_cmd_triggerjobs_wedges_witness :
  ∃ s', sample_route_cmd ("triggerjobs " +:+ Samples.build_url) idle_server
        = (Escapes (UnboundLocalError "local variable 'tree' referenced before assignment"),
           s')
        ∧ phone_workers (orchestrator s') = phone_workers (orchestrator idle_server)
        ∧ ∀ data', sample_route_cmd data' s' = (Blocks, s').
Proof.
  apply (route_cmd_triggerjobs_wedges (Samples.orchestrator_environ Samples.delivers)
           register_nothing status_nothing worker_nothing update_nothing
           ("triggerjobs " +:+ Samples.build_url) idle_server
           (UnboundLocalError "local variable 'tree' referenced before assignment")).
  - reflexivity.
  - vm_compute. reflexivity.
  - vm_compute. reflexivity.
Defined.

End Commands.

(** ** [get_build] *)

Module Redownload.
Import Builds CleanCache Acquire Retrieval.





(** X30.  In override mode [get_build] downloads nothing and leaves the
    cache alone.  A package in the override directory that is no zip
    archive is logged as being downloaded again, and the directory is
    answered all the same; a missing package raises [IOError]. *)
Theorem get_build_override env self outside enable_unittests buildurl w dir :
  override_build_dir self = Some dir →
  dir ≠ "" →
  get_build env self outside enable_unittests buildurl w
  = match outside (Str.os_path_join dir "build.apk") with
    | Some (Zip _) => (Ok (Some dir), w)
    | Some (Raw _) =>
        (Ok (Some dir),
         add_log (Log ERROR (Str.os_path_join dir "build.apk"
                             +:+ " is a bad apk; redownloading...")) w)
    | None => (Raise (IOError (PInt 2) (PStr "No such file or directory")), w)
    end.
Proof.
  intros Hov Hdir.
  assert (truthy (override_build_dir self) = true) as Htruthy.
  { rewrite Hov. cbn [truthy]. by rewrite bool_decide_eq_false_2. }
  unfold get_build, get. rewrite Htruthy, Hov.
  destruct dir as [|x dir]; [done|].
  unfold bind at 1, ret at 1, try_except, bind at 1, ZipFile_testzip.
  rewrite Htruthy.
  by destruct (outside (Str.os_path_join (String x dir) "build.apk")) as [[?|?]|].
Qed.

Lemma get_build_override_witness :
  let self := Samples.build_cache [] (Some "/srv/fixed") in
  let outside : string → option content := λ _, Some (Raw "junk") in
  get_build (Samples.environ Samples.network_up) self outside true Samples.build_url
    Samples.cached_world
  = match outside (Str.os_path_join "/srv/fixed" "build.apk") with
    | Some (Zip _) => (Ok (Some "/srv/fixed"), Samples.cached_world)
    | Some (Raw _) =>
        (Ok (Some "/srv/fixed"),
         add_log (Log ERROR (Str.os_path_join "/srv/fixed" "build.apk"
                             +:+ " is a bad apk; redownloading...")) Samples.cached_world)
    | None => (Raise (IOError (PInt 2) (PStr "No such file or directory")),
               Samples.cached_world)
    end.
Proof.
  apply (get_build_override (Samples.environ Samples.network_up)
           (Samples.build_cache [] (Some "/srv/fixed")) (λ _, Some (Raw "junk")) true
           Samples.build_url Samples.cached_world "/srv/fixed").
  - reflexivity.
  - discriminate.
Defined.

End Redownload.
